(** * The Mesos slave: executor / task registry and status-update pipeline

    A shallow embedding of [src/slave/slave.cpp]: the [Executor] and
    [Framework] structs, the protobuf handlers of the [Slave] process and
    [Slave::getUniqueWorkDirectory], followed by the properties of the
    handlers.

    Conventions of the embedding.
    - The slave is a single-threaded actor: a handler is a function from
      the slave's state (and the message's fields) to the next state and
      the list of effects it performed, in program order.  An effect is a
      message handed to [send], a call into the isolation module, a
      dispatch to the reaper, or a [link].
    - What a handler reads from its environment is an argument: the sender
      [from()], the clock [elapsedTime()], the pid returned by
      [launchExecutor], the answers of [opendir].
    - A [hashmap<K,V>] is an association list with one entry per key; the
      order of the list stands for the table's iteration order, which the
      source does not control.
    - A pointer into the registry ([Framework*], [Executor*]) is the key at
      which the map owns the object; [NULL] is [None].
    - [CHECK] failures, [LOG(FATAL)] and a dereference of [NULL] end the
      process: the handler returns [Crash].
    - Clock readings, deadlines and timestamps, [double]s in the source,
      are integers; the handlers only add the retry interval to them and
      compare them. *)

From Stdlib Require Import List String Ascii ZArith Bool Lia DecimalString.
Import ListNotations.

Local Open Scope Z_scope.
Local Open Scope list_scope.

Set Implicit Arguments.

(** ** Keys *)

Class EqKey (K : Type) := {
  keqb : K -> K -> bool;
  keqb_spec : forall x y, reflect (x = y) (keqb x y)
}.

#[export] Instance string_EqKey : EqKey string :=
  {| keqb := String.eqb; keqb_spec := String.eqb_spec |}.

#[export] Instance Z_EqKey : EqKey Z :=
  {| keqb := Z.eqb; keqb_spec := Z.eqb_spec |}.

(** ** [hashmap<K,V>] (common/hashmap.hpp) *)

Module hashmap.
Section Ops.
Context {K V : Type} `{EqKey K}.

Definition t := list (K * V).

Definition empty : t := [].

Definition keys (m : t) : list K := map fst m.

Definition values (m : t) : list V := map snd m.

Definition size (m : t) : Z := Z.of_nat (List.length m).

(** [find]: the entry of a key, if any. *)
Fixpoint get (k : K) (m : t) : option V :=
  match m with
  | [] => None
  | (k', v) :: m' => if keqb k k' then Some v else get k m'
  end.

Definition contains (k : K) (m : t) : bool :=
  match get k m with Some _ => true | None => false end.

(** [m[k] = v]: overwrite the entry in place, or add one. *)
Fixpoint put (k : K) (v : V) (m : t) : t :=
  match m with
  | [] => [(k, v)]
  | (k', v') :: m' =>
      if keqb k k' then (k, v) :: m' else (k', v') :: put k v m'
  end.

Fixpoint erase (k : K) (m : t) : t :=
  match m with
  | [] => []
  | (k', v') :: m' =>
      if keqb k k' then erase k m' else (k', v') :: erase k m'
  end.

(** [m[k]] used as an rvalue: the entry, default-constructed if absent. *)
Definition at_ (k : K) (dflt : V) (m : t) : V :=
  match get k m with Some v => v | None => dflt end.

(** One entry per key. *)
Definition wf (m : t) : Prop := NoDup (keys m).

End Ops.
End hashmap.

Arguments hashmap.t : clear implicits.

Local Open Scope string_scope.
Local Open Scope list_scope.

Notation "a +++ b" := (String.append a b) (at level 60, right associativity).

(** ** Process outcomes *)

Inductive fault : Type :=
| NullDereference (what : string)
| CheckFailed (what : string)
| Fatal (what : string).

Inductive outcome (A : Type) : Type :=
| Done (a : A)
| Crash (f : fault).

Arguments Done {A} a.
Arguments Crash {A} f.

Definition bind {A B} (m : outcome A) (k : A -> outcome B) : outcome B :=
  match m with
  | Done a => k a
  | Crash f => Crash f
  end.

Notation "x <- m ;; k" := (bind m (fun x => k))
  (at level 61, m at next level, right associativity).
Notation "' pat <- m ;; k" := (bind m (fun x => match x with pat => k end))
  (at level 61, pat pattern, m at next level, right associativity).

(** [p->...] for a pointer [p] that may be [NULL]. *)
Definition deref {A} (what : string) (p : option A) : outcome A :=
  match p with
  | Some a => Done a
  | None => Crash (NullDereference what)
  end.

(** [CHECK(c)] *)
Definition CHECK (c : bool) (what : string) : outcome unit :=
  if c then Done tt else Crash (CheckFailed what).

(** ** Protocol data *)

(** The identifiers and records of mesos.proto and messages.proto are not
    among the sources.  They are modelled from the specification's data
    model: an identifier wraps a string, and a record carries the fields
    that the handlers read or write. *)

(** Modelled from the spec: a framework id, an opaque string. *)
Definition FrameworkID := string.

(** Modelled from the spec: an executor id, unique within its
    framework. *)
Definition ExecutorID := string.

(** Modelled from the spec: a task id. *)
Definition TaskID := string.

(** Modelled from the spec: the agent id that the master assigns. *)
Definition SlaveID := string.

(** A libprocess [UPID]; the empty string is the default [UPID()], for
    which [operator !] holds. *)
Definition UPID := string.

Definition upid_unset (pid : UPID) : bool := String.eqb pid "".

(** Modelled from the spec: the task states, from [TaskState_MIN] to
    [TaskState_MAX]. *)
Inductive TaskState : Type :=
| TASK_STARTING
| TASK_RUNNING
| TASK_FINISHED
| TASK_FAILED
| TASK_KILLED
| TASK_LOST.

Definition TaskState_eqb (a b : TaskState) : bool :=
  match a, b with
  | TASK_STARTING, TASK_STARTING | TASK_RUNNING, TASK_RUNNING
  | TASK_FINISHED, TASK_FINISHED | TASK_FAILED, TASK_FAILED
  | TASK_KILLED, TASK_KILLED | TASK_LOST, TASK_LOST => true
  | _, _ => false
  end.

(** Modelled from the spec: executor id, binary URI, opaque data. *)
Record ExecutorInfo : Type := {
  ei_executor_id : ExecutorID;
  ei_uri : string;
  ei_data : string
}.

(** Modelled from the spec: user, name, default executor. *)
Record FrameworkInfo : Type := {
  fi_user : string;
  fi_name : string;
  fi_executor : ExecutorInfo
}.

(** Modelled from the spec: task id, state, opaque message. *)
Record TaskStatus : Type := {
  ts_task_id : TaskID;
  ts_state : TaskState;
  ts_data : string
}.

(** Modelled from the spec: framework id, optional executor id, slave
    id, status, timestamp, sequence number. *)
Record StatusUpdate : Type := {
  su_framework_id : FrameworkID;
  su_executor_id : option ExecutorID;
  su_slave_id : SlaveID;
  su_status : TaskStatus;
  su_timestamp : Z;
  su_sequence : Z
}.

(** Modelled from the spec: the working context that RegisterReply
    carries. *)
Record ExecutorArgs : Type := {
  ea_framework_id : FrameworkID;
  ea_executor_id : ExecutorID;
  ea_slave_id : SlaveID;
  ea_hostname : string;
  ea_data : string
}.

(** slave.hpp *)
Definition STATUS_UPDATE_RETRY_INTERVAL : Z := 10.

Definition INT_MAX : Z := 2147483647.

(** [x++] on a [uint64_t] counter. *)
Definition incr64 (x : Z) : Z := (x + 1) mod 2 ^ 64.

(** ** The file system seen through [opendir] *)

Inductive opendir_result : Type :=
| Opened
| Failed (errno : Z).

Definition ENOENT : Z := 2.
Definition EACCES : Z := 13.

(** [opendir(path) == NULL && errno == ENOENT] *)
Definition no_such_dir (r : opendir_result) : bool :=
  match r with
  | Opened => false
  | Failed errno => Z.eqb errno ENOENT
  end.

(** [os << i] for an [int]. *)
Definition itoa (i : Z) : string := NilZero.string_of_int (Z.to_int i).

(** ** [class ExecutorReaper] *)

Module ExecutorReaper.

(** [process::dispatch(slave, &Slave::executorExited, ...)] *)
Record Dispatch : Type := {
  d_frameworkId : FrameworkID;
  d_executorId : ExecutorID;
  d_status : Z
}.

Record t : Type := {
  watching : hashmap.t Z (FrameworkID * ExecutorID);
  exited : hashmap.t Z Z
}.

Definition start : t :=
  {| watching := hashmap.empty; exited := hashmap.empty |}.

Definition watch (r : t) (frameworkId : FrameworkID)
    (executorId : ExecutorID) (pid : Z) : t * list Dispatch :=
  if negb (hashmap.contains pid (exited r)) then
    ({| watching := hashmap.put pid (frameworkId, executorId) (watching r);
        exited := exited r |},
     [])
  else
    ({| watching := watching r;
        exited := hashmap.erase pid (exited r) |},
     [{| d_frameworkId := frameworkId;
         d_executorId := executorId;
         d_status := hashmap.at_ pid 0 (exited r) |}]).

(** The body of the loop on a TIMEOUT; [pid] and [status] are what
    [waitpid(-1, &status, WNOHANG)] returns. *)
Definition reap (r : t) (pid status : Z) : t * list Dispatch :=
  if Z.ltb 0 pid then
    match hashmap.get pid (watching r) with
    | Some (frameworkId, executorId) =>
        ({| watching := hashmap.erase pid (watching r);
            exited := exited r |},
         [{| d_frameworkId := frameworkId;
             d_executorId := executorId;
             d_status := status |}])
    | None =>
        ({| watching := watching r;
            exited := hashmap.put pid status (exited r) |},
         [])
    end
  else (r, []).

(** No pid is both watched and remembered as exited. *)
Definition disjoint (r : t) : Prop :=
  forall pid,
    hashmap.contains pid (watching r) = true ->
    hashmap.contains pid (exited r) = false.

(** What the slave and the kernel tell the reaper. *)
Inductive Input : Type :=
| Watch (frameworkId : FrameworkID) (executorId : ExecutorID) (pid : Z)
| Waited (pid status : Z).

Definition step (r : t) (i : Input) : t * list Dispatch :=
  match i with
  | Watch frameworkId executorId pid => watch r frameworkId executorId pid
  | Waited pid status => reap r pid status
  end.

Fixpoint steps (r : t) (inputs : list Input) : t * list Dispatch :=
  match inputs with
  | [] => (r, [])
  | i :: rest =>
      let '(r1, out1) := step r i in
      let '(r2, out2) := steps r1 rest in
      (r2, out1 ++ out2)
  end.

(** How many inputs are calls of [watch], and how many are reaped
    children. *)
Definition watches (inputs : list Input) : nat :=
  List.length
    (filter (fun i => match i with Watch _ _ _ => true | _ => false end)
       inputs).

Definition reaped (inputs : list Input) : nat :=
  List.length
    (filter
       (fun i => match i with Waited pid _ => Z.ltb 0 pid | _ => false end)
       inputs).

End ExecutorReaper.

(** ** [std::ostringstream] and HTTP responses *)

(** Characters [n] and beyond. *)
Fixpoint string_skip (n : nat) (s : string) : string :=
  match n, s with
  | O, _ => s
  | S n', String _ s' => string_skip n' s'
  | S _, EmptyString => EmptyString
  end.

(** The buffer after [text] is written at position [pos].  (The handlers
    never seek past the end; there the text is appended.) *)
Fixpoint overwrite (pos : nat) (text buf : string) : string :=
  match pos, buf with
  | O, _ => text +++ string_skip (String.length text) buf
  | S pos', String c buf' => String c (overwrite pos' text buf')
  | S _, EmptyString => text
  end.

Record ostringstream : Type := {
  str : string;
  tellp : nat
}.

Definition new_ostringstream : ostringstream :=
  {| str := ""; tellp := 0 |}.

(** The double quote of the JSON texts. *)
Definition quote : string := String (ascii_of_nat 34) EmptyString.

(** [out << text] *)
Definition write (out : ostringstream) (text : string) : ostringstream :=
  {| str := overwrite (tellp out) text (str out);
     tellp := tellp out + String.length text |}.

Definition seekp (out : ostringstream) (pos : nat) : ostringstream :=
  {| str := str out; tellp := pos |}.

(** What a [const char*] shows of a [std::string]: the characters before
    the first NUL. *)
Fixpoint c_str (s : string) : string :=
  match s with
  | EmptyString => EmptyString
  | String c s' =>
      if Ascii.eqb c zero then EmptyString else String c (c_str s')
  end.

Record HttpResponse : Type := {
  headers : hashmap.t string string;
  body : string
}.

(** [utils::stringify] of a size. *)
Definition stringify (n : nat) : string := itoa (Z.of_nat n).

(** An [HttpOKResponse] with the given content type, whose body is
    [out.str().data()]. *)
Definition ok_response (content_type : string) (out : ostringstream)
    : HttpResponse :=
  {| headers :=
       hashmap.put "Content-Length" (stringify (String.length (str out)))
         (hashmap.put "Content-Type" content_type hashmap.empty);
     body := c_str (str out) |}.

(** The entries as the loops write them: each followed by a comma. *)
Definition with_commas (entries : list string) : string :=
  fold_right (fun e rest => e +++ "," +++ rest) "" entries.

(** ** The registry *)

Section Registry.

(** The resource algebra of common/resources.hpp is not among the sources
    and no property below depends on its arithmetic: it is a parameter.
    [res_add r l] is [r += l] for a repeated [Resource] field [l], and
    [res_sub r x] is [r -= x] for one [Resource]. *)
Variable Resource : Type.
Variable Resources : Type.
Variable res_empty : Resources.
Variable res_add : Resources -> list Resource -> Resources.
Variable res_sub : Resources -> Resource -> Resources.

(** Modelled from the spec: a task as the master describes it, with
    its optional own executor. *)
Record TaskDescription : Type := {
  td_name : string;
  td_task_id : TaskID;
  td_slave_id : SlaveID;
  td_resources : list Resource;
  td_executor : option ExecutorInfo;
  td_data : string
}.

(** Modelled from the spec: a launched task and its current state. *)
Record Task : Type := {
  t_name : string;
  t_task_id : TaskID;
  t_framework_id : FrameworkID;
  t_executor_id : ExecutorID;
  t_slave_id : SlaveID;
  t_state : TaskState;
  t_resources : list Resource
}.

(** Modelled from the spec: hostname, public hostname, advertised
    resources. *)
Record SlaveInfo : Type := {
  si_hostname : string;
  si_public_hostname : string;
  si_resources : Resources
}.

Definition set_state (t : Task) (state : TaskState) : Task :=
  {| t_name := t_name t;
     t_task_id := t_task_id t;
     t_framework_id := t_framework_id t;
     t_executor_id := t_executor_id t;
     t_slave_id := t_slave_id t;
     t_state := state;
     t_resources := t_resources t |}.

(** *** Messages and effects *)

Inductive Message : Type :=
| S2M_REGISTER_SLAVE (slave : SlaveInfo)
| S2M_REREGISTER_SLAVE (slave_id : SlaveID) (slave : SlaveInfo)
    (tasks : list Task)
| S2M_STATUS_UPDATE (update : StatusUpdate) (reliable : bool)
| S2M_EXITED_EXECUTOR (slave_id : SlaveID) (framework_id : FrameworkID)
    (executor_id : ExecutorID) (result : Z)
| S2E_REGISTER_REPLY (args : ExecutorArgs)
| S2E_RUN_TASK (framework : FrameworkInfo) (framework_id : FrameworkID)
    (pid : UPID) (task : TaskDescription)
| S2E_KILL_TASK (framework_id : FrameworkID) (task_id : TaskID)
| S2E_KILL_EXECUTOR
| S2E_FRAMEWORK_MESSAGE (slave_id : SlaveID) (framework_id : FrameworkID)
    (executor_id : ExecutorID) (data : string)
| S2E_STATUS_UPDATE_ACK (framework_id : FrameworkID) (slave_id : SlaveID)
    (task_id : TaskID)
| M2F_FRAMEWORK_MESSAGE (slave_id : SlaveID) (framework_id : FrameworkID)
    (executor_id : ExecutorID) (data : string)
| PONG.

Inductive Effect : Type :=
| Send (to : UPID) (msg : Message)
| Link (to : UPID)
| ResourcesChanged (framework_id : FrameworkID) (framework : FrameworkInfo)
    (executor : ExecutorInfo) (resources : Resources)
| LaunchExecutor (framework_id : FrameworkID) (framework : FrameworkInfo)
    (executor : ExecutorInfo) (directory : string)
| KillExecutor (framework_id : FrameworkID) (framework : FrameworkInfo)
    (executor : ExecutorInfo)
| ReaperWatch (framework_id : FrameworkID) (executor_id : ExecutorID)
    (pid : Z).

(** *** [struct Executor] *)

Record Executor : Type := {
  e_id : ExecutorID;
  e_info : ExecutorInfo;
  e_frameworkId : FrameworkID;
  e_directory : string;
  e_pid : UPID;
  e_resources : Resources;
  queuedTasks : hashmap.t TaskID TaskDescription;
  launchedTasks : hashmap.t TaskID Task
}.

(** The constructor.  Members are initialised in the order of their
    declaration, and [id] is declared before [info]: the initialiser
    [id(info.executor_id())] reads the member [info] while it is still
    raw storage.  [id_read] is what that read yields, which depends on
    the memory [new] handed out: an id (the empty one where the storage
    happens to be zeroed) or the end of the process. *)
Definition new_Executor (frameworkId : FrameworkID) (info : ExecutorInfo)
    (directory : string) (id_read : outcome ExecutorID)
    : outcome Executor :=
  id <- id_read ;;
  Done {| e_id := id;
          e_info := info;
          e_frameworkId := frameworkId;
          e_directory := directory;
          e_pid := "";
          e_resources := res_empty;
          queuedTasks := hashmap.empty;
          launchedTasks := hashmap.empty |}.

Definition set_pid (e : Executor) (pid : UPID) : Executor :=
  {| e_id := e_id e;
     e_info := e_info e;
     e_frameworkId := e_frameworkId e;
     e_directory := e_directory e;
     e_pid := pid;
     e_resources := e_resources e;
     queuedTasks := queuedTasks e;
     launchedTasks := launchedTasks e |}.

Definition set_queuedTasks (e : Executor)
    (q : hashmap.t TaskID TaskDescription) : Executor :=
  {| e_id := e_id e;
     e_info := e_info e;
     e_frameworkId := e_frameworkId e;
     e_directory := e_directory e;
     e_pid := e_pid e;
     e_resources := e_resources e;
     queuedTasks := q;
     launchedTasks := launchedTasks e |}.

Definition set_launched (e : Executor) (l : hashmap.t TaskID Task)
    (r : Resources) : Executor :=
  {| e_id := e_id e;
     e_info := e_info e;
     e_frameworkId := e_frameworkId e;
     e_directory := e_directory e;
     e_pid := e_pid e;
     e_resources := r;
     queuedTasks := queuedTasks e;
     launchedTasks := l |}.

(** The [Task] that [addTask] builds from a description. *)
Definition new_Task (e : Executor) (task : TaskDescription) : Task :=
  {| t_name := td_name task;
     t_task_id := td_task_id task;
     t_framework_id := e_frameworkId e;
     t_executor_id := e_id e;
     t_slave_id := td_slave_id task;
     t_state := TASK_STARTING;
     t_resources := td_resources task |}.

(** The source declares [Task* addTask] and returns nothing; no caller
    reads the result. *)
Definition addTask (e : Executor) (task : TaskDescription)
    : outcome Executor :=
  _ <- CHECK (negb (hashmap.contains (td_task_id task) (launchedTasks e)))
         "!launchedTasks.contains(task.task_id())" ;;
  Done (set_launched e
          (hashmap.put (td_task_id task) (new_Task e task) (launchedTasks e))
          (res_add (e_resources e) (td_resources task))).

Definition removeTask (e : Executor) (taskId : TaskID) : Executor :=
  let e := set_queuedTasks e (hashmap.erase taskId (queuedTasks e)) in
  match hashmap.get taskId (launchedTasks e) with
  | Some task =>
      set_launched e (hashmap.erase taskId (launchedTasks e))
        (fold_left res_sub (t_resources task) (e_resources e))
  | None => e
  end.

Definition updateTaskState (e : Executor) (taskId : TaskID)
    (state : TaskState) : Executor :=
  match hashmap.get taskId (launchedTasks e) with
  | Some task =>
      set_launched e
        (hashmap.put taskId (set_state task state) (launchedTasks e))
        (e_resources e)
  | None => e
  end.

(** *** [struct Framework] *)

Record Framework : Type := {
  f_id : FrameworkID;
  f_info : FrameworkInfo;
  f_pid : UPID;
  executors : hashmap.t ExecutorID Executor;
  updates : hashmap.t Z (hashmap.t TaskID StatusUpdate)
}.

Definition new_Framework (id : FrameworkID) (info : FrameworkInfo)
    (pid : UPID) : Framework :=
  {| f_id := id;
     f_info := info;
     f_pid := pid;
     executors := hashmap.empty;
     updates := hashmap.empty |}.

Definition set_executors (f : Framework)
    (ex : hashmap.t ExecutorID Executor) : Framework :=
  {| f_id := f_id f;
     f_info := f_info f;
     f_pid := f_pid f;
     executors := ex;
     updates := updates f |}.

Definition set_updates (f : Framework)
    (u : hashmap.t Z (hashmap.t TaskID StatusUpdate)) : Framework :=
  {| f_id := f_id f;
     f_info := f_info f;
     f_pid := f_pid f;
     executors := executors f;
     updates := u |}.

Definition set_f_pid (f : Framework) (pid : UPID) : Framework :=
  {| f_id := f_id f;
     f_info := f_info f;
     f_pid := pid;
     executors := executors f;
     updates := updates f |}.

(** Returns the framework holding the new executor, and the executor. *)
Definition createExecutor (f : Framework) (info : ExecutorInfo)
    (directory : string) (id_read : outcome ExecutorID)
    : outcome (Framework * Executor) :=
  executor <- new_Executor (f_id f) info directory id_read ;;
  _ <- CHECK (negb (hashmap.contains (ei_executor_id info) (executors f)))
         "!executors.contains(info.executor_id())" ;;
  Done (set_executors f
          (hashmap.put (ei_executor_id info) executor (executors f)),
        executor).

Definition destroyExecutor (f : Framework) (executorId : ExecutorID)
    : Framework :=
  if hashmap.contains executorId (executors f)
  then set_executors f (hashmap.erase executorId (executors f))
  else f.

(** [getExecutor(const ExecutorID&)] *)
Definition getExecutor (f : Framework) (executorId : ExecutorID)
    : option Executor :=
  hashmap.get executorId (executors f).

Definition holds_task (taskId : TaskID) (e : Executor) : bool :=
  hashmap.contains taskId (queuedTasks e)
  || hashmap.contains taskId (launchedTasks e).

(** [getExecutor(const TaskID&)]: the first executor, in the table's
    order, that holds the task.  The key of the entry comes with the
    executor: it is where the returned [Executor*] points. *)
Definition getExecutor_task (f : Framework) (taskId : TaskID)
    : option (ExecutorID * Executor) :=
  find (fun kv => holds_task taskId (snd kv)) (executors f).

(** *** [class Slave] *)

Record Statistics : Type := {
  stat_tasks : list Z;
  validStatusUpdates : Z;
  invalidStatusUpdates : Z;
  validFrameworkMessages : Z;
  invalidFrameworkMessages : Z
}.

(** The members that the handlers read or write.  [reaper] is the pid of
    the [ExecutorReaper] spawned by [initialize]. *)
Record Slave : Type := {
  conf : hashmap.t string string;
  s_id : SlaveID;
  s_info : SlaveInfo;
  master : UPID;
  frameworks : hashmap.t FrameworkID Framework;
  reaper : UPID;
  statistics : Statistics
}.

Definition set_frameworks (s : Slave)
    (fs : hashmap.t FrameworkID Framework) : Slave :=
  {| conf := conf s;
     s_id := s_id s;
     s_info := s_info s;
     master := master s;
     frameworks := fs;
     reaper := reaper s;
     statistics := statistics s |}.

Definition set_master (s : Slave) (pid : UPID) : Slave :=
  {| conf := conf s;
     s_id := s_id s;
     s_info := s_info s;
     master := pid;
     frameworks := frameworks s;
     reaper := reaper s;
     statistics := statistics s |}.

Definition set_id (s : Slave) (id : SlaveID) : Slave :=
  {| conf := conf s;
     s_id := id;
     s_info := s_info s;
     master := master s;
     frameworks := frameworks s;
     reaper := reaper s;
     statistics := statistics s |}.

Definition set_statistics (s : Slave) (st : Statistics) : Slave :=
  {| conf := conf s;
     s_id := s_id s;
     s_info := s_info s;
     master := master s;
     frameworks := frameworks s;
     reaper := reaper s;
     statistics := st |}.

Definition count_validFrameworkMessage (s : Slave) : Slave :=
  let st := statistics s in
  set_statistics s
    {| stat_tasks := stat_tasks st;
       validStatusUpdates := validStatusUpdates st;
       invalidStatusUpdates := invalidStatusUpdates st;
       validFrameworkMessages := incr64 (validFrameworkMessages st);
       invalidFrameworkMessages := invalidFrameworkMessages st |}.

Definition count_invalidFrameworkMessage (s : Slave) : Slave :=
  let st := statistics s in
  set_statistics s
    {| stat_tasks := stat_tasks st;
       validStatusUpdates := validStatusUpdates st;
       invalidStatusUpdates := invalidStatusUpdates st;
       validFrameworkMessages := validFrameworkMessages st;
       invalidFrameworkMessages := incr64 (invalidFrameworkMessages st) |}.

(** The state that [Slave::initialize] and the start of [operator ()]
    set up. *)
Definition initial (conf : hashmap.t string string) (info : SlaveInfo)
    (reaper : UPID) : Slave :=
  {| conf := conf;
     s_id := "";
     s_info := info;
     master := "";
     frameworks := hashmap.empty;
     reaper := reaper;
     statistics :=
       {| stat_tasks := [0; 0; 0; 0; 0; 0];
          validStatusUpdates := 0;
          invalidStatusUpdates := 0;
          validFrameworkMessages := 0;
          invalidFrameworkMessages := 0 |} |}.

Definition getFramework (s : Slave) (frameworkId : FrameworkID)
    : option Framework :=
  hashmap.get frameworkId (frameworks s).

(** A handler's result: the next state and the effects, in order. *)
Definition step : Type := outcome (Slave * list Effect).

(** *** [getUniqueWorkDirectory] *)

(** The loop [for (int i = 0; i < INT_MAX; i++)], with [n] iterations
    left; [dir] is the prefix that [os.str(dir)] restores. *)
Fixpoint probe (opendir : string -> opendir_result) (dir : string)
    (n : nat) (i : Z) : string :=
  match n with
  | O => dir
  | S n' =>
      let path := dir +++ itoa i in
      if no_such_dir (opendir path) then path
      else probe opendir dir n' (i + 1)
  end.

(** [conf.get(key, dflt)] *)
Definition conf_get (c : hashmap.t string string) (key dflt : string)
    : string :=
  hashmap.at_ key dflt c.

Definition workDir (c : hashmap.t string string) : string :=
  let workDir := "." in
  let workDir :=
    if hashmap.contains "work_dir" c then conf_get c "work_dir" workDir
    else if hashmap.contains "home" c then conf_get c "home" workDir
    else workDir in
  workDir +++ "/work".

Definition getUniqueWorkDirectory (s : Slave)
    (opendir : string -> opendir_result)
    (frameworkId : FrameworkID) (executorId : ExecutorID) : string :=
  let dir :=
    workDir (conf s) +++ "/slave-" +++ s_id s
      +++ "/fw-" +++ frameworkId +++ "-" +++ executorId +++ "/" in
  probe opendir dir (Z.to_nat INT_MAX) 0.

(** *** Registration with the master *)

Definition launched_tasks (s : Slave) : list Task :=
  flat_map
    (fun framework =>
       flat_map (fun executor => hashmap.values (launchedTasks executor))
         (hashmap.values (executors framework)))
    (hashmap.values (frameworks s)).

Definition newMasterDetected (s : Slave) (pid : UPID) : step :=
  let s := set_master s pid in
  Done (s,
        [Link (master s);
         if String.eqb (s_id s) ""
         then Send (master s) (S2M_REGISTER_SLAVE (s_info s))
         else Send (master s)
                (S2M_REREGISTER_SLAVE (s_id s) (s_info s) (launched_tasks s))]).

Definition noMasterDetected (s : Slave) : step := Done (s, []).

Definition registerReply (s : Slave) (slaveId : SlaveID) : step :=
  Done (set_id s slaveId, []).

Definition reregisterReply (s : Slave) (slaveId : SlaveID) : step :=
  if negb (String.eqb (s_id s) slaveId)
  then Crash (Fatal "Slave re-registered but got wrong ID")
  else Done (s, []).

(** *** [runTask] *)

Definition queue_task (e : Executor) (task : TaskDescription) : Executor :=
  set_queuedTasks e (hashmap.put (td_task_id task) task (queuedTasks e)).

Definition store_executor (f : Framework) (key : ExecutorID) (e : Executor)
    : Framework :=
  set_executors f (hashmap.put key e (executors f)).

Definition store_framework (s : Slave) (key : FrameworkID) (f : Framework)
    : Slave :=
  set_frameworks s (hashmap.put key f (frameworks s)).

(** [opendir] answers the probes of [getUniqueWorkDirectory]; [child] is
    what [isolationModule->launchExecutor] returns; [id_read] is what the
    constructor of a new [Executor] reads for its [id]. *)
Definition runTask (s : Slave) (frameworkInfo : FrameworkInfo)
    (frameworkId : FrameworkID) (pid : UPID) (task : TaskDescription)
    (opendir : string -> opendir_result) (child : Z)
    (id_read : outcome ExecutorID) : step :=
  let framework :=
    match getFramework s frameworkId with
    | Some framework => framework
    | None => new_Framework frameworkId frameworkInfo pid
    end in
  let executorId :=
    match td_executor task with
    | Some info => ei_executor_id info
    | None => ei_executor_id (fi_executor (f_info framework))
    end in
  let executor := getExecutor framework executorId in
  match executor with
  | Some e =>
      if upid_unset (e_pid e) then
        (* Queue task until the executor starts up. *)
        let e := queue_task e task in
        Done (store_framework s frameworkId
                (store_executor framework executorId e), [])
      else
        (* Add the task and send it to the executor. *)
        e <- addTask e task ;;
        Done (store_framework s frameworkId
                (store_executor framework executorId e),
              [Send (e_pid e)
                 (S2E_RUN_TASK (f_info framework) (f_id framework)
                    (f_pid framework) task);
               ResourcesChanged (f_id framework) (f_info framework)
                 (e_info e) (e_resources e)])
  | None =>
      (* Launch an executor for this task.  [executor] is NULL on this
         branch, and the source passes [executor->id]. *)
      null <- deref "executor->id" executor ;;
      let directory :=
        getUniqueWorkDirectory s opendir (f_id framework) (e_id null) in
      '(framework, e) <-
        createExecutor framework
          match td_executor task with
          | Some info => info
          | None => fi_executor (f_info framework)
          end
          directory id_read ;;
      (* Queue task until the executor starts up.  The new executor is
         the entry under [executorId]. *)
      let e := queue_task e task in
      Done (store_framework s frameworkId
              (store_executor framework executorId e),
            LaunchExecutor (f_id framework) (f_info framework)
              (e_info e) directory
            :: if Z.eqb child 0 then []
               else [ReaperWatch (f_id framework) (e_id e) child])
  end.

(** *** [killTask] *)

(** The synthetic updates that [killTask] builds; [now] is
    [elapsedTime()]. *)
Definition lost_update (s : Slave) (frameworkId : FrameworkID)
    (taskId : TaskID) (now : Z) : StatusUpdate :=
  {| su_framework_id := frameworkId;
     su_executor_id := None;
     su_slave_id := s_id s;
     su_status :=
       {| ts_task_id := taskId; ts_state := TASK_LOST; ts_data := "" |};
     su_timestamp := now;
     su_sequence := -1 |}.

Definition killed_update (s : Slave) (frameworkId : FrameworkID)
    (executorId : ExecutorID) (taskId : TaskID) (now : Z) : StatusUpdate :=
  {| su_framework_id := frameworkId;
     su_executor_id := Some executorId;
     su_slave_id := s_id s;
     su_status :=
       {| ts_task_id := taskId; ts_state := TASK_KILLED; ts_data := "" |};
     su_timestamp := now;
     su_sequence := 0 |}.

Definition killTask (s : Slave) (frameworkId : FrameworkID)
    (taskId : TaskID) (now : Z) : step :=
  match getFramework s frameworkId with
  | None =>
      Done (s, [Send (master s)
                  (S2M_STATUS_UPDATE (lost_update s frameworkId taskId now)
                     false)])
  | Some framework =>
      (* Tell the executor to kill the task if it is up and running,
         otherwise, consider the task lost. *)
      match getExecutor_task framework taskId with
      | None =>
          Done (s, [Send (master s)
                      (S2M_STATUS_UPDATE
                         (lost_update s (f_id framework) taskId now) false)])
      | Some (key, e) =>
          if upid_unset (e_pid e) then
            (* Remove the task and update the resources. *)
            let e := removeTask e taskId in
            Done (store_framework s frameworkId
                    (store_executor framework key e),
                  [ResourcesChanged (f_id framework) (f_info framework)
                     (e_info e) (e_resources e);
                   Send (master s)
                     (S2M_STATUS_UPDATE
                        (killed_update s (f_id framework) (e_id e) taskId now)
                        false)])
          else
            (* Otherwise, send a message to the executor and wait for it
               to send us a status update. *)
            Done (s, [Send (e_pid e) (S2E_KILL_TASK frameworkId taskId)])
      end
  end.

(** *** Removing executors and frameworks *)

Definition removeExecutor (framework : Framework) (e : Executor)
    (killExecutor : bool) : Framework * list Effect :=
  (destroyExecutor framework (e_id e),
   if killExecutor
   then [Send (e_pid e) S2E_KILL_EXECUTOR;
         KillExecutor (f_id framework) (f_info framework) (e_info e)]
   else []).

(** [foreachvaluecopy (Executor* executor, framework->executors)] *)
Fixpoint removeExecutors (framework : Framework) (es : list Executor)
    (killExecutors : bool) : Framework * list Effect :=
  match es with
  | [] => (framework, [])
  | e :: rest =>
      let '(framework, out1) := removeExecutor framework e killExecutors in
      let '(framework, out2) := removeExecutors framework rest killExecutors in
      (framework, out1 ++ out2)
  end.

(** [key] is where the [Framework*] points. *)
Definition removeFramework (s : Slave) (key : FrameworkID)
    (framework : Framework) (killExecutors : bool) : Slave * list Effect :=
  let '(framework, out) :=
    removeExecutors framework (hashmap.values (executors framework))
      killExecutors in
  (set_frameworks s
     (hashmap.erase (f_id framework)
        (hashmap.put key framework (frameworks s))),
   out).

Definition killFramework (s : Slave) (frameworkId : FrameworkID) : step :=
  match getFramework s frameworkId with
  | Some framework => Done (removeFramework s frameworkId framework true)
  | None => Done (s, [])
  end.

Definition executorExited (s : Slave) (frameworkId : FrameworkID)
    (executorId : ExecutorID) (result : Z) : step :=
  match getFramework s frameworkId with
  | None => Done (s, [])
  | Some framework =>
      match getExecutor framework executorId with
      | None => Done (s, [])
      | Some e =>
          let out1 :=
            [Send (master s)
               (S2M_EXITED_EXECUTOR (s_id s) frameworkId executorId result)] in
          let '(framework, out2) := removeExecutor framework e false in
          let s := store_framework s frameworkId framework in
          if Z.eqb (hashmap.size (executors framework)) 0 then
            let '(s, out3) := removeFramework s frameworkId framework true in
            Done (s, out1 ++ out2 ++ out3)
          else Done (s, out1 ++ out2)
      end
  end.

(** *** Framework messages *)

Definition schedulerMessage (s : Slave) (slaveId : SlaveID)
    (frameworkId : FrameworkID) (executorId : ExecutorID) (data : string)
    : step :=
  match getFramework s frameworkId with
  | None => Done (count_invalidFrameworkMessage s, [])
  | Some framework =>
      match getExecutor framework executorId with
      | None => Done (count_invalidFrameworkMessage s, [])
      | Some e =>
          if upid_unset (e_pid e)
          then Done (count_invalidFrameworkMessage s, [])
          else
            Done (count_validFrameworkMessage s,
                  [Send (e_pid e)
                     (S2E_FRAMEWORK_MESSAGE slaveId frameworkId executorId
                        data)])
      end
  end.

Definition executorMessage (s : Slave) (slaveId : SlaveID)
    (frameworkId : FrameworkID) (executorId : ExecutorID) (data : string)
    : step :=
  match getFramework s frameworkId with
  | None => Done (count_invalidFrameworkMessage s, [])
  | Some framework =>
      Done (count_validFrameworkMessage s,
            [Send (f_pid framework)
               (M2F_FRAMEWORK_MESSAGE slaveId frameworkId executorId data)])
  end.

Definition updateFramework (s : Slave) (frameworkId : FrameworkID)
    (pid : UPID) : step :=
  match getFramework s frameworkId with
  | Some framework =>
      Done (store_framework s frameworkId (set_f_pid framework pid), [])
  | None => Done (s, [])
  end.

(** *** [registerExecutor] *)

(** [foreachvalue (const TaskDescription& task, executor->queuedTasks)] *)
Fixpoint flush (framework : Framework) (e : Executor)
    (tasks : list TaskDescription) : outcome (Executor * list Effect) :=
  match tasks with
  | [] => Done (e, [])
  | task :: rest =>
      (* Add the task to the executor. *)
      e <- addTask e task ;;
      let out :=
        Send (e_pid e)
          (S2E_RUN_TASK (f_info framework) (f_id framework)
             (f_pid framework) task) in
      '(e, outs) <- flush framework e rest ;;
      Done (e, out :: outs)
  end.

Definition register_reply (s : Slave) (framework : Framework)
    (e : Executor) : Message :=
  S2E_REGISTER_REPLY
    {| ea_framework_id := f_id framework;
       ea_executor_id := e_id e;
       ea_slave_id := s_id s;
       ea_hostname := si_hostname (s_info s);
       ea_data := ei_data (e_info e) |}.

(** [from] is the sender, [from()]. *)
Definition registerExecutor (s : Slave) (from : UPID)
    (frameworkId : FrameworkID) (executorId : ExecutorID) : step :=
  match getFramework s frameworkId with
  | None =>
      (* Framework is gone; tell the executor to exit. *)
      Done (s, [Send from S2E_KILL_EXECUTOR])
  | Some framework =>
      match getExecutor framework executorId with
      | None => Done (s, [Send from S2E_KILL_EXECUTOR])
      | Some e =>
          if negb (upid_unset (e_pid e)) then
            Done (s, [Send from S2E_KILL_EXECUTOR])
          else
            (* Save the pid for the executor. *)
            let e := set_pid e from in
            (* Now that the executor is up, set its resource limits. *)
            let out1 :=
              ResourcesChanged (f_id framework) (f_info framework)
                (e_info e) (e_resources e) in
            (* Tell executor it's registered and give it any queued
               tasks. *)
            let out2 := Send (e_pid e) (register_reply s framework e) in
            '(e, outs) <-
              flush framework e (hashmap.values (queuedTasks e)) ;;
            let e := set_queuedTasks e hashmap.empty in
            Done (store_framework s frameworkId
                    (store_executor framework executorId e),
                  out1 :: out2 :: outs)
      end
  end.

(** *** The status-update pipeline *)

Definition is_terminal (state : TaskState) : bool :=
  TaskState_eqb state TASK_FINISHED
  || TaskState_eqb state TASK_FAILED
  || TaskState_eqb state TASK_KILLED
  || TaskState_eqb state TASK_LOST.

(** [updates[deadline][taskId] = update] *)
Definition record_update (u : hashmap.t Z (hashmap.t TaskID StatusUpdate))
    (deadline : Z) (taskId : TaskID) (update : StatusUpdate)
    : hashmap.t Z (hashmap.t TaskID StatusUpdate) :=
  hashmap.put deadline
    (hashmap.put taskId update (hashmap.at_ deadline hashmap.empty u)) u.

(** [now] is [elapsedTime()]. *)
Definition statusUpdate (s : Slave) (update : StatusUpdate) (now : Z)
    : step :=
  let status := su_status update in
  match getFramework s (su_framework_id update) with
  | Some framework =>
      match getExecutor_task framework (ts_task_id status) with
      | Some (key, e) =>
          let e := updateTaskState e (ts_task_id status) (ts_state status) in
          let e :=
            if is_terminal (ts_state status)
            then removeTask e (ts_task_id status) else e in
          let out1 :=
            if is_terminal (ts_state status)
            then [ResourcesChanged (f_id framework) (f_info framework)
                    (e_info e) (e_resources e)]
            else [] in
          (* Send message and record the status for possible resending. *)
          let out2 := [Send (master s) (S2M_STATUS_UPDATE update true)] in
          let deadline := now + STATUS_UPDATE_RETRY_INTERVAL in
          let framework := store_executor framework key e in
          let framework :=
            set_updates framework
              (record_update (updates framework) deadline
                 (ts_task_id status) update) in
          Done (store_framework s (su_framework_id update) framework,
                out1 ++ out2)
      | None => Done (s, [])
      end
  | None => Done (s, [])
  end.

(** The loop of [statusUpdateAcknowledged] over the deadlines still to
    visit: the first bucket that holds the task loses it, and the loop
    breaks. *)
Fixpoint acknowledge (deadlines : list Z) (taskId : TaskID)
    (u : hashmap.t Z (hashmap.t TaskID StatusUpdate))
    : hashmap.t Z (hashmap.t TaskID StatusUpdate) :=
  match deadlines with
  | [] => u
  | deadline :: rest =>
      if hashmap.contains taskId (hashmap.at_ deadline hashmap.empty u)
      then hashmap.put deadline
             (hashmap.erase taskId (hashmap.at_ deadline hashmap.empty u)) u
      else acknowledge rest taskId u
  end.

Definition statusUpdateAcknowledged (s : Slave) (slaveId : SlaveID)
    (frameworkId : FrameworkID) (taskId : TaskID) : step :=
  match getFramework s frameworkId with
  | Some framework =>
      Done (store_framework s frameworkId
              (set_updates framework
                 (acknowledge (hashmap.keys (updates framework)) taskId
                    (updates framework))),
            [])
  | None => Done (s, [])
  end.

(** What one framework contributes to a timer tick at time [now]. *)
Definition resend (s : Slave) (framework : Framework) (now : Z)
    : list Effect :=
  flat_map
    (fun deadline =>
       if Z.leb deadline now then
         map (fun update => Send (master s) (S2M_STATUS_UPDATE update true))
           (hashmap.values
              (hashmap.at_ deadline hashmap.empty (updates framework)))
       else [])
    (hashmap.keys (updates framework)).

Definition timeout (s : Slave) (now : Z) : step :=
  Done (s,
        flat_map (fun framework => resend s framework now)
          (hashmap.values (frameworks s))).

(** *** Liveness of the peers *)

Definition ping (s : Slave) (from : UPID) : step :=
  Done (s, [Send from PONG]).

Definition exited (s : Slave) (from : UPID) : step :=
  if String.eqb from (master s) then Done (s, [])
  else if String.eqb from (reaper s)
  then Crash (Fatal "Lost our executor reaper!")
  else Done (s, []).

(** *** The event loop *)

(** What [serve] hands to the handlers installed by [initialize], with
    the readings of the environment that the handler will make. *)
Inductive Event : Type :=
| NEW_MASTER_DETECTED (pid : UPID)
| NO_MASTER_DETECTED
| M2S_REGISTER_REPLY (slave_id : SlaveID)
| M2S_REREGISTER_REPLY (slave_id : SlaveID)
| M2S_RUN_TASK (framework : FrameworkInfo) (framework_id : FrameworkID)
    (pid : UPID) (task : TaskDescription)
    (opendir : string -> opendir_result) (child : Z)
    (id_read : outcome ExecutorID)
| M2S_KILL_TASK (framework_id : FrameworkID) (task_id : TaskID)
| M2S_KILL_FRAMEWORK (framework_id : FrameworkID)
| M2S_FRAMEWORK_MESSAGE (slave_id : SlaveID) (framework_id : FrameworkID)
    (executor_id : ExecutorID) (data : string)
| M2S_UPDATE_FRAMEWORK (framework_id : FrameworkID) (pid : UPID)
| M2S_STATUS_UPDATE_ACK (slave_id : SlaveID) (framework_id : FrameworkID)
    (task_id : TaskID)
| E2S_REGISTER_EXECUTOR (from : UPID) (framework_id : FrameworkID)
    (executor_id : ExecutorID)
| E2S_STATUS_UPDATE (update : StatusUpdate)
| E2S_FRAMEWORK_MESSAGE (slave_id : SlaveID) (framework_id : FrameworkID)
    (executor_id : ExecutorID) (data : string)
| PING (from : UPID)
| TIMEOUT
| EXITED (from : UPID)
| EXECUTOR_EXITED (framework_id : FrameworkID) (executor_id : ExecutorID)
    (result : Z).

(** One turn of the loop: the event [ev] is served when the clock reads
    [now]. *)
Definition serve (s : Slave) (now : Z) (ev : Event) : step :=
  match ev with
  | NEW_MASTER_DETECTED pid => newMasterDetected s pid
  | NO_MASTER_DETECTED => noMasterDetected s
  | M2S_REGISTER_REPLY slaveId => registerReply s slaveId
  | M2S_REREGISTER_REPLY slaveId => reregisterReply s slaveId
  | M2S_RUN_TASK frameworkInfo frameworkId pid task opendir child id_read =>
      runTask s frameworkInfo frameworkId pid task opendir child id_read
  | M2S_KILL_TASK frameworkId taskId => killTask s frameworkId taskId now
  | M2S_KILL_FRAMEWORK frameworkId => killFramework s frameworkId
  | M2S_FRAMEWORK_MESSAGE slaveId frameworkId executorId data =>
      schedulerMessage s slaveId frameworkId executorId data
  | M2S_UPDATE_FRAMEWORK frameworkId pid => updateFramework s frameworkId pid
  | M2S_STATUS_UPDATE_ACK slaveId frameworkId taskId =>
      statusUpdateAcknowledged s slaveId frameworkId taskId
  | E2S_REGISTER_EXECUTOR from frameworkId executorId =>
      registerExecutor s from frameworkId executorId
  | E2S_STATUS_UPDATE update => statusUpdate s update now
  | E2S_FRAMEWORK_MESSAGE slaveId frameworkId executorId data =>
      executorMessage s slaveId frameworkId executorId data
  | PING from => ping s from
  | TIMEOUT => timeout s now
  | EXITED from => exited s from
  | EXECUTOR_EXITED frameworkId executorId result =>
      executorExited s frameworkId executorId result
  end.

(** A run of the loop over timed events; the effects accumulate. *)
Fixpoint run (s : Slave) (evs : list (Z * Event)) : step :=
  match evs with
  | [] => Done (s, [])
  | (now, ev) :: rest =>
      '(s, out1) <- serve s now ev ;;
      '(s, out2) <- run s rest ;;
      Done (s, out1 ++ out2)
  end.

(** *** Reading the status-update store *)

(** The deadlines whose bucket holds an update of the task, in the
    table's order. *)
Definition holders (taskId : TaskID)
    (u : hashmap.t Z (hashmap.t TaskID StatusUpdate)) : list Z :=
  filter
    (fun deadline =>
       hashmap.contains taskId (hashmap.at_ deadline hashmap.empty u))
    (hashmap.keys u).

(** The stored updates that a timer tick at time [now] re-sends, each
    with the place it is stored at: the framework's key, the bucket's
    deadline and the task id inside the bucket. *)
Definition due_of (key : FrameworkID) (framework : Framework) (now : Z)
    : list (FrameworkID * Z * TaskID * StatusUpdate) :=
  flat_map
    (fun deadline =>
       if Z.leb deadline now then
         map (fun entry => (key, deadline, fst entry, snd entry))
           (hashmap.at_ deadline hashmap.empty (updates framework))
       else [])
    (hashmap.keys (updates framework)).

Definition due (s : Slave) (now : Z)
    : list (FrameworkID * Z * TaskID * StatusUpdate) :=
  flat_map (fun entry => due_of (fst entry) (snd entry) now) (frameworks s).

(** No bucket of the framework with a deadline up to [t] holds the
    task. *)
Definition retired (t : Z) (taskId : TaskID) (framework : Framework)
    : Prop :=
  forall deadline,
    deadline <= t ->
    hashmap.contains taskId
      (hashmap.at_ deadline hashmap.empty (updates framework)) = false.

Definition retired_in (t : Z) (frameworkId : FrameworkID) (taskId : TaskID)
    (s : Slave) : Prop :=
  forall framework,
    In (frameworkId, framework) (frameworks s) -> retired t taskId framework.

(** *** The queue of an executor that has not registered

    [runTask] launches a task only on an executor whose pid is set, and
    before that it queues the task under its own id. *)
Definition queue_ok (e : Executor) : Prop :=
  e_pid e = "" ->
  launchedTasks e = hashmap.empty /\
  hashmap.wf (queuedTasks e) /\
  forall key task, In (key, task) (queuedTasks e) -> td_task_id task = key.

Definition executors_ok (f : Framework) : Prop :=
  forall key e, In (key, e) (executors f) -> queue_ok e.

Definition queues_ok (s : Slave) : Prop :=
  forall key f, In (key, f) (frameworks s) -> executors_ok f.

(** A message has a sender. *)
Definition has_sender (ev : Event) : Prop :=
  match ev with
  | E2S_REGISTER_EXECUTOR from _ _ => from <> ""
  | _ => True
  end.

(** *** Shutdown *)

(** The TERMINATE branch of [operator ()]:
    [foreachvaluecopy (Framework* framework, frameworks)]. *)
Fixpoint removeFrameworks (s : Slave)
    (fs : list (FrameworkID * Framework)) : Slave * list Effect :=
  match fs with
  | [] => (s, [])
  | (key, framework) :: rest =>
      let '(s, out1) := removeFramework s key framework true in
      let '(s, out2) := removeFrameworks s rest in
      (s, out1 ++ out2)
  end.

Definition terminate (s : Slave) : Slave * list Effect :=
  removeFrameworks s (frameworks s).

(** What removing a framework tells its executors. *)
Definition kills (framework : Framework) : list Effect :=
  flat_map
    (fun e =>
       [Send (e_pid e) S2E_KILL_EXECUTOR;
        KillExecutor (f_id framework) (f_info framework) (e_info e)])
    (hashmap.values (executors framework)).

(** The tables are in order: one entry per key, and every object is
    stored under its own id. *)
Definition framework_in_order (key : FrameworkID) (f : Framework) : Prop :=
  f_id f = key /\
  hashmap.wf (executors f) /\
  forall ekey e, In (ekey, e) (executors f) -> e_id e = ekey.

Definition registry_ok (s : Slave) : Prop :=
  hashmap.wf (frameworks s) /\
  forall key f, In (key, f) (frameworks s) -> framework_in_order key f.

(** [e'] is a later state of the executor [e]: same identity, info and
    directory, and the same pid once the pid is set. *)
Definition continues (e e' : Executor) : Prop :=
  e_id e' = e_id e /\
  e_info e' = e_info e /\
  e_frameworkId e' = e_frameworkId e /\
  e_directory e' = e_directory e /\
  (e_pid e <> "" -> e_pid e' = e_pid e).

(** Every executor of [f'] is a later state of the executor that [f] has
    under the same key. *)
Definition framework_continues (f f' : Framework) : Prop :=
  f_id f' = f_id f /\
  f_info f' = f_info f /\
  forall key e',
    getExecutor f' key = Some e' ->
    exists e, getExecutor f key = Some e /\ continues e e'.

Definition registry_continues (s s' : Slave) : Prop :=
  forall key f',
    getFramework s' key = Some f' ->
    exists f, getFramework s key = Some f /\ framework_continues f f'.

(** The messages among the effects, in order, each with its
    destination. *)
Definition sent (out : list Effect) : list (UPID * Message) :=
  flat_map
    (fun x =>
       match x with
       | Send to msg => [(to, msg)]
       | Link _ | ResourcesChanged _ _ _ _ | LaunchExecutor _ _ _ _
       | KillExecutor _ _ _ | ReaperWatch _ _ _ => []
       end)
    out.

(** The effects that are calls into the isolation module. *)
Definition calls_isolation (x : Effect) : bool :=
  match x with
  | ResourcesChanged _ _ _ _ | LaunchExecutor _ _ _ _ | KillExecutor _ _ _ =>
      true
  | Send _ _ | Link _ | ReaperWatch _ _ _ => false
  end.

(** *** The HTTP views *)

Fixpoint write_frameworks (out : ostringstream) (fs : list Framework)
    : ostringstream :=
  match fs with
  | [] => out
  | framework :: rest =>
      let out := write out "{" in
      let out := write out (quote +++ "id" +++ quote +++ ":" +++ quote) in
      let out := write out (f_id framework) in
      let out := write out (quote +++ ",") in
      let out := write out (quote +++ "name" +++ quote +++ ":" +++ quote) in
      let out := write out (fi_name (f_info framework)) in
      let out := write out (quote +++ ",") in
      let out := write out (quote +++ "user" +++ quote +++ ":" +++ quote) in
      let out := write out (fi_user (f_info framework)) in
      let out := write out (quote +++ "},") in
      write_frameworks out rest
  end.

Definition http_frameworks_json (s : Slave) : HttpResponse :=
  let out := new_ostringstream in
  let out := write out "[" in
  let out := write_frameworks out (hashmap.values (frameworks s)) in
  (* Backup the put pointer to overwrite the last comma (hack). *)
  let out :=
    if Z.ltb 0 (hashmap.size (frameworks s))
    then seekp out (Nat.pred (tellp out))
    else out in
  let out := write out "]" in
  ok_response "text/x-json;charset=UTF-8" out.

(** [scalar_text name rs] is what
    [out << Resources(rs).getScalar(name, Resource::Scalar()).value()]
    writes: the resource algebra and the printing of a [double] are not
    among the sources. *)
Variable scalar_text : string -> list Resource -> string.

(** [state_text state] is what [out << task->state()] writes, the number
    of the enum value: mesos.proto, which numbers the task states, is not
    among the sources either. *)
Variable state_text : TaskState -> string.

Fixpoint write_tasks (out : ostringstream) (tasks : list Task)
    : ostringstream :=
  match tasks with
  | [] => out
  | task :: rest =>
      let out := write out "{" in
      let out :=
        write out (quote +++ "task_id" +++ quote +++ ":" +++ quote) in
      let out := write out (t_task_id task) in
      let out := write out (quote +++ ",") in
      let out :=
        write out (quote +++ "framework_id" +++ quote +++ ":" +++ quote) in
      let out := write out (t_framework_id task) in
      let out := write out (quote +++ ",") in
      let out :=
        write out (quote +++ "slave_id" +++ quote +++ ":" +++ quote) in
      let out := write out (t_slave_id task) in
      let out := write out (quote +++ ",") in
      let out := write out (quote +++ "name" +++ quote +++ ":" +++ quote) in
      let out := write out (t_name task) in
      let out := write out (quote +++ ",") in
      let out := write out (quote +++ "state" +++ quote +++ ":" +++ quote) in
      let out := write out (state_text (t_state task)) in
      let out := write out (quote +++ ",") in
      let out := write out (quote +++ "cpus" +++ quote +++ ":") in
      let out := write out (scalar_text "cpus" (t_resources task)) in
      let out := write out "," in
      let out := write out (quote +++ "mem" +++ quote +++ ":") in
      let out := write out (scalar_text "mem" (t_resources task)) in
      let out := write out "}," in
      write_tasks out rest
  end.

Definition http_tasks_json (s : Slave) : HttpResponse :=
  let out := new_ostringstream in
  let out := write out "[" in
  let out := write_tasks out (launched_tasks s) in
  (* Backup the put pointer to overwrite the last comma (hack). *)
  let out :=
    if Z.ltb 0 (hashmap.size (frameworks s))
    then seekp out (Nat.pred (tellp out))
    else out in
  let out := write out "]" in
  ok_response "text/x-json;charset=UTF-8" out.

(** One framework and one task as the two views print them, without the
    comma that follows. *)
Definition framework_json (framework : Framework) : string :=
  "{" +++
  quote +++ "id" +++ quote +++ ":" +++
    quote +++ f_id framework +++ quote +++ "," +++
  quote +++ "name" +++ quote +++ ":" +++
    quote +++ fi_name (f_info framework) +++ quote +++ "," +++
  quote +++ "user" +++ quote +++ ":" +++
    quote +++ fi_user (f_info framework) +++ quote +++
  "}".

Definition task_json (task : Task) : string :=
  "{" +++
  quote +++ "task_id" +++ quote +++ ":" +++
    quote +++ t_task_id task +++ quote +++ "," +++
  quote +++ "framework_id" +++ quote +++ ":" +++
    quote +++ t_framework_id task +++ quote +++ "," +++
  quote +++ "slave_id" +++ quote +++ ":" +++
    quote +++ t_slave_id task +++ quote +++ "," +++
  quote +++ "name" +++ quote +++ ":" +++
    quote +++ t_name task +++ quote +++ "," +++
  quote +++ "state" +++ quote +++ ":" +++
    quote +++ state_text (t_state task) +++ quote +++ "," +++
  quote +++ "cpus" +++ quote +++ ":" +++
    scalar_text "cpus" (t_resources task) +++ "," +++
  quote +++ "mem" +++ quote +++ ":" +++
    scalar_text "mem" (t_resources task) +++
  "}".

End Registry.

Arguments S2M_REGISTER_SLAVE {Resource Resources} slave.
Arguments S2M_REREGISTER_SLAVE {Resource Resources} slave_id slave tasks.
Arguments S2M_STATUS_UPDATE {Resource Resources} update reliable.
Arguments S2M_EXITED_EXECUTOR {Resource Resources}
  slave_id framework_id executor_id result.
Arguments S2E_REGISTER_REPLY {Resource Resources} args.
Arguments S2E_RUN_TASK {Resource Resources} framework framework_id pid task.
Arguments S2E_KILL_TASK {Resource Resources} framework_id task_id.
Arguments S2E_KILL_EXECUTOR {Resource Resources}.
Arguments S2E_FRAMEWORK_MESSAGE {Resource Resources}
  slave_id framework_id executor_id data.
Arguments S2E_STATUS_UPDATE_ACK {Resource Resources}
  framework_id slave_id task_id.
Arguments M2F_FRAMEWORK_MESSAGE {Resource Resources}
  slave_id framework_id executor_id data.
Arguments PONG {Resource Resources}.
Arguments Send {Resource Resources} to msg.
Arguments Link {Resource Resources} to.
Arguments ResourcesChanged {Resource Resources}
  framework_id framework executor resources.
Arguments LaunchExecutor {Resource Resources}
  framework_id framework executor directory.
Arguments KillExecutor {Resource Resources} framework_id framework executor.
Arguments ReaperWatch {Resource Resources} framework_id executor_id pid.
Arguments NEW_MASTER_DETECTED {Resource} pid.
Arguments NO_MASTER_DETECTED {Resource}.
Arguments M2S_REGISTER_REPLY {Resource} slave_id.
Arguments M2S_REREGISTER_REPLY {Resource} slave_id.
Arguments M2S_KILL_TASK {Resource} framework_id task_id.
Arguments M2S_KILL_FRAMEWORK {Resource} framework_id.
Arguments M2S_FRAMEWORK_MESSAGE {Resource}
  slave_id framework_id executor_id data.
Arguments M2S_UPDATE_FRAMEWORK {Resource} framework_id pid.
Arguments M2S_STATUS_UPDATE_ACK {Resource} slave_id framework_id task_id.
Arguments E2S_REGISTER_EXECUTOR {Resource} from framework_id executor_id.
Arguments E2S_STATUS_UPDATE {Resource} update.
Arguments E2S_FRAMEWORK_MESSAGE {Resource}
  slave_id framework_id executor_id data.
Arguments PING {Resource} from.
Arguments TIMEOUT {Resource}.
Arguments EXITED {Resource} from.
Arguments EXECUTOR_EXITED {Resource} framework_id executor_id result.
Arguments new_Framework {Resource Resources} id info pid.
Arguments new_Executor {Resource Resources} res_empty frameworkId info
  directory id_read.
Arguments initial {Resource Resources} conf info reaper.

(** ** A cluster of one framework

    The properties above hold for every resource algebra; the scenarios
    below run the handlers with one scalar per resource. *)

Module Scenario.

Definition res_add (r : Z) (l : list Z) : Z := fold_left Z.add l r.
Definition res_sub (r x : Z) : Z := r - x.

Definition executor_e1 : ExecutorInfo :=
  {| ei_executor_id := "e1"; ei_uri := "/bin/executor"; ei_data := "args" |}.

Definition framework_f1 : FrameworkInfo :=
  {| fi_user := "alice"; fi_name := "batch"; fi_executor := executor_e1 |}.

Definition task (id : TaskID) : TaskDescription Z :=
  {| td_name := "job";
     td_task_id := id;
     td_slave_id := "agent-1";
     td_resources := [1; 256];
     td_executor := None;
     td_data := "" |}.

Definition update (id : TaskID) (state : TaskState) : StatusUpdate :=
  {| su_framework_id := "f1";
     su_executor_id := Some "e1";
     su_slave_id := "agent-1";
     su_status := {| ts_task_id := id; ts_state := state; ts_data := "" |};
     su_timestamp := 0;
     su_sequence := 0 |}.

(** The slave after it has registered with the master as [agent-1]. *)
Definition idle : Slave Z Z :=
  set_id
    (set_master
       (initial [("work_dir", "/tmp")]
          {| si_hostname := "node"; si_public_hostname := "node";
             si_resources := 4 |}
          "reaper@node")
       "master@head")
    "agent-1".

(** The registry a launch is meant to leave: executor [e1] of framework
    [f1] not yet registered, tasks [t1] and [t2] waiting for it. *)
Definition fresh_executor : Executor Z Z :=
  {| e_id := "e1";
     e_info := executor_e1;
     e_frameworkId := "f1";
     e_directory := "/tmp/work/slave-agent-1/fw-f1-e1/0";
     e_pid := "";
     e_resources := 0;
     queuedTasks := hashmap.empty;
     launchedTasks := hashmap.empty |}.

Definition waiting_executor : Executor Z Z :=
  queue_task (queue_task fresh_executor (task "t1")) (task "t2").

(** What a constructor reads from zeroed storage: the empty id. *)
Definition zeroed : outcome ExecutorID := Done "".

Definition waiting_framework : Framework Z Z :=
  store_executor (new_Framework "f1" framework_f1 "scheduler@client") "e1"
    waiting_executor.

Definition waiting : Slave Z Z := store_framework idle "f1" waiting_framework.

Definition after (s : Slave Z Z) (evs : list (Z * Event Z)) : Slave Z Z :=
  match run 0 res_add res_sub s evs with
  | Done (s', _) => s'
  | Crash _ => s
  end.

(** The executor has registered from [executor@node]: [t1] and [t2] are
    launched. *)
Definition running : Slave Z Z :=
  Eval vm_compute in
    after waiting [(0, E2S_REGISTER_EXECUTOR "executor@node" "f1" "e1")].

Definition running_framework : Framework Z Z :=
  Eval vm_compute in
    match getFramework running "f1" with
    | Some f => f
    | None => waiting_framework
    end.

Definition running_executor : Executor Z Z :=
  Eval vm_compute in
    match getExecutor running_framework "e1" with
    | Some e => e
    | None => waiting_executor
    end.

(** Two updates for [t1] have arrived, at times 0 and 1, and neither is
    acknowledged yet. *)
Definition reported : Slave Z Z :=
  Eval vm_compute in
    after running
      [(0, E2S_STATUS_UPDATE (update "t1" TASK_RUNNING));
       (1, E2S_STATUS_UPDATE (update "t1" TASK_FINISHED))].

Definition reported_framework : Framework Z Z :=
  Eval vm_compute in
    match getFramework reported "f1" with
    | Some f => f
    | None => waiting_framework
    end.

(** The same registry with the two buckets in the other order. *)
Definition reported_swapped : Slave Z Z :=
  Eval vm_compute in
    store_framework reported "f1"
      (set_updates reported_framework (rev (updates reported_framework))).

(** One acknowledgement for [t1] has arrived at time 12. *)
Definition acknowledged : Slave Z Z :=
  Eval vm_compute in
    after reported [(12, M2S_STATUS_UPDATE_ACK "agent-1" "f1" "t1")].

Definition acknowledged_framework : Framework Z Z :=
  Eval vm_compute in
    match getFramework acknowledged "f1" with
    | Some f => f
    | None => waiting_framework
    end.

(** File systems: nothing exists; two earlier launches left their
    directories; every probe is refused. *)
Definition empty_disk (path : string) : opendir_result := Failed ENOENT.

Definition two_launches (path : string) : opendir_result :=
  if String.eqb path "/tmp/work/slave-agent-1/fw-f1-e1/0"
     || String.eqb path "/tmp/work/slave-agent-1/fw-f1-e1/1"
  then Opened else Failed ENOENT.

Definition locked_disk (path : string) : opendir_result := Failed EACCES.

(** What the slave sends its master for a status update. *)
Definition to_master (u : StatusUpdate) (reliable : bool) : Effect Z Z :=
  Send "master@head" (S2M_STATUS_UPDATE u reliable).

(** What a run tells the outside. *)
Definition effects (s : Slave Z Z) (evs : list (Z * Event Z))
    : list (Effect Z Z) :=
  match run 0 res_add res_sub s evs with
  | Done (_, out) => out
  | Crash _ => []
  end.

(** The slave as [initialize] leaves it. *)
Definition start_up : Slave Z Z :=
  initial [("work_dir", "/tmp")]
    {| si_hostname := "node"; si_public_hostname := "node";
       si_resources := 4 |}
    "reaper@node".

(** A morning without a scheduler: the slave registers, is asked to kill
    a task it never had, hears from an executor it never launched, and is
    pinged. *)
Definition quiet_morning : list (Z * Event Z) :=
  [(0, NEW_MASTER_DETECTED "master@head");
   (1, M2S_REGISTER_REPLY "agent-1");
   (2, M2S_KILL_TASK "f1" "t1");
   (3, E2S_REGISTER_EXECUTOR "executor@node" "f1" "e1");
   (4, PING "master@head");
   (5, TIMEOUT)].

(** The executor registers, then reports on [t1]. *)
Definition busy_morning : list (Z * Event Z) :=
  [(0, E2S_REGISTER_EXECUTOR "executor@node" "f1" "e1");
   (1, E2S_STATUS_UPDATE (update "t1" TASK_RUNNING));
   (2, M2S_FRAMEWORK_MESSAGE "agent-1" "f1" "e1" "hello");
   (3, E2S_STATUS_UPDATE (update "t1" TASK_FINISHED));
   (20, TIMEOUT)].

End Scenario.

(** ** Properties *)

(** *** Keys and hashmaps *)

Lemma keqb_refl {K} `{EqKey K} (k : K) : keqb k k = true.
Proof. destruct (keqb_spec k k); congruence. Qed.

Lemma keqb_eq {K} `{EqKey K} (k k' : K) : keqb k k' = true <-> k = k'.
Proof. destruct (keqb_spec k k'); split; congruence. Qed.

Lemma keqb_neq {K} `{EqKey K} (k k' : K) : keqb k k' = false <-> k <> k'.
Proof. destruct (keqb_spec k k'); split; congruence. Qed.

Ltac case_key a b :=
  let E := fresh "E" in
  destruct (keqb_spec a b) as [E|E]; [try subst|].

Section HashmapFacts.
Context {K V : Type} `{EqKey K}.
Import hashmap.
Implicit Types (m : hashmap.t K V).

Lemma hm_get_put_same k v m : get k (put k v m) = Some v.
Proof.
  induction m as [|[k' v'] m IH]; simpl.
  - now rewrite keqb_refl.
  - destruct (keqb k k') eqn:E; simpl; [now rewrite keqb_refl | now rewrite E].
Qed.

Lemma hm_get_put_other k k' v m : k' <> k -> get k' (put k v m) = get k' m.
Proof.
  intros Hne. induction m as [|[k0 v0] m IH]; simpl.
  - apply keqb_neq in Hne. now rewrite Hne.
  - destruct (keqb k k0) eqn:E; simpl.
    + apply keqb_eq in E; subst k0.
      apply keqb_neq in Hne. now rewrite Hne.
    + now rewrite IH.
Qed.

Lemma hm_get_erase_same k m : get k (erase k m) = None.
Proof.
  induction m as [|[k' v'] m IH]; simpl; [reflexivity|].
  destruct (keqb k k') eqn:E; simpl; [assumption | now rewrite E].
Qed.

Lemma hm_get_erase_other k k' m : k' <> k -> get k' (erase k m) = get k' m.
Proof.
  intros Hne. induction m as [|[k0 v0] m IH]; simpl; [reflexivity|].
  destruct (keqb k k0) eqn:E; simpl.
  - apply keqb_eq in E; subst k0. apply keqb_neq in Hne. now rewrite Hne.
  - now rewrite IH.
Qed.

Lemma hm_contains_erase_same k m : contains k (erase k m) = false.
Proof. unfold contains. now rewrite hm_get_erase_same. Qed.

Lemma hm_contains_put_other k k' v m :
  k' <> k -> contains k' (put k v m) = contains k' m.
Proof. intros. unfold contains. now rewrite hm_get_put_other. Qed.

Lemma hm_get_None_notin k m : get k m = None <-> ~ In k (keys m).
Proof.
  induction m as [|[k' v'] m IH]; simpl.
  - tauto.
  - destruct (keqb_spec k k') as [->|Hne].
    + split; [discriminate | intros Hn; exfalso; apply Hn; now left].
    + rewrite IH. split; [intros Hn [Heq|Hin]; [congruence|tauto] | tauto].
Qed.

Lemma hm_contains_false_notin k m : contains k m = false <-> ~ In k (keys m).
Proof.
  rewrite <- hm_get_None_notin. unfold contains.
  destruct (get k m); split; congruence.
Qed.

Lemma hm_contains_true_in k m : contains k m = true <-> In k (keys m).
Proof.
  destruct (contains k m) eqn:E.
  - split; [intros _ | reflexivity].
    destruct (in_dec (fun a b => reflect_dec _ _ (keqb_spec a b)) k (keys m))
      as [Hin|Hn]; [assumption|].
    apply hm_contains_false_notin in Hn. congruence.
  - apply hm_contains_false_notin in E. split; [discriminate | tauto].
Qed.

Lemma hm_get_In k v m : get k m = Some v -> In (k, v) m.
Proof.
  induction m as [|[k' v'] m IH]; simpl; [discriminate|].
  destruct (keqb_spec k k') as [->|Hne].
  - intros [= ->]. now left.
  - intros Hg. right. auto.
Qed.

Lemma hm_keys_put_in k v m : In k (keys m) -> keys (put k v m) = keys m.
Proof.
  induction m as [|[k' v'] m IH]; simpl; [tauto|].
  intros Hin. destruct (keqb_spec k k') as [->|Hne]; simpl; [reflexivity|].
  rewrite IH; [reflexivity|]. destruct Hin; congruence.
Qed.

Lemma hm_keys_put_notin k v m :
  ~ In k (keys m) -> keys (put k v m) = keys m ++ [k].
Proof.
  induction m as [|[k' v'] m IH]; simpl; [reflexivity|].
  intros Hn. destruct (keqb_spec k k') as [->|Hne]; simpl; [tauto|].
  rewrite IH; tauto.
Qed.

Lemma hm_wf_put k v m : wf m -> wf (put k v m).
Proof.
  unfold wf. intros Hnd.
  destruct (in_dec (fun a b => reflect_dec _ _ (keqb_spec a b)) k (keys m))
    as [Hin|Hn].
  - now rewrite hm_keys_put_in.
  - rewrite hm_keys_put_notin by assumption.
    apply NoDup_app; [assumption | repeat constructor; simpl; tauto |].
    intros x Hx [<-|[]]. tauto.
Qed.

Lemma hm_In_keys_erase k k' m : In k' (keys (erase k m)) -> In k' (keys m).
Proof.
  induction m as [|[k0 v0] m IH]; simpl; [tauto|].
  destruct (keqb k k0); simpl; tauto.
Qed.

Lemma hm_wf_erase k m : wf m -> wf (erase k m).
Proof.
  unfold wf. induction m as [|[k' v'] m IH]; simpl; [tauto|].
  intros Hnd. inversion Hnd as [|? ? Hnotin Hnd']; subst.
  destruct (keqb k k'); [auto|]. simpl. constructor; [|auto].
  intros Hin. apply Hnotin. eapply hm_In_keys_erase; eauto.
Qed.

Lemma hm_In_put k v k' v' m :
  In (k', v') (put k v m) -> (k' = k /\ v' = v) \/ In (k', v') m.
Proof.
  induction m as [|[k0 v0] m IH]; simpl.
  - intros [Heq|[]]. inversion Heq. now left.
  - case_key k k0; simpl.
    + intros [Heq|Hin]; [inversion Heq; now left | right; now right].
    + intros [Heq|Hin]; [right; now left|].
      destruct (IH Hin) as [Hl|Hr]; [now left | right; now right].
Qed.

Lemma hm_In_put_wf k v v' m :
  wf m -> In (k, v') (put k v m) -> v' = v.
Proof.
  unfold wf. induction m as [|[k0 v0] m IH]; simpl.
  - intros _ [Heq|[]]. now inversion Heq.
  - intros Hnd. inversion Hnd as [|? ? Hnotin Hnd']; subst.
    case_key k k0; simpl.
    + intros [Heq|Hin]; [now inversion Heq|].
      exfalso. apply Hnotin. change k0 with (fst (k0, v')).
      now apply in_map.
    + intros [Heq|Hin]; [inversion Heq; congruence | auto].
Qed.

Lemma hm_In_erase k k' v' m : In (k', v') (erase k m) -> In (k', v') m.
Proof.
  induction m as [|[k0 v0] m IH]; simpl; [tauto|].
  destruct (keqb k k0); simpl; tauto.
Qed.

Lemma hm_put_put k v v' m : put k v (put k v' m) = put k v m.
Proof.
  induction m as [|[k0 v0] m IH]; simpl.
  - now rewrite keqb_refl.
  - destruct (keqb k k0) eqn:E; simpl.
    + now rewrite keqb_refl.
    + now rewrite E, IH.
Qed.

Lemma hm_at_put_same k v dflt m : at_ k dflt (put k v m) = v.
Proof. unfold at_. now rewrite hm_get_put_same. Qed.

Lemma hm_at_put_other k k' v dflt m :
  k' <> k -> at_ k' dflt (put k v m) = at_ k' dflt m.
Proof. intros. unfold at_. now rewrite hm_get_put_other. Qed.

Lemma hm_In_contains k v m : In (k, v) m -> contains k m = true.
Proof.
  intros Hin. apply hm_contains_true_in.
  change k with (fst (k, v)). now apply in_map.
Qed.

Lemma hm_get_contains k v m : get k m = Some v -> contains k m = true.
Proof. unfold contains. now intros ->. Qed.

Lemma hm_In_get k v m : wf m -> In (k, v) m -> get k m = Some v.
Proof.
  unfold wf. induction m as [|[k' v'] m IH]; simpl; [tauto|].
  intros Hnd [Heq|Hin].
  - inversion Heq; subst. now rewrite keqb_refl.
  - inversion Hnd as [|? ? Hnotin Hnd']; subst.
    destruct (keqb_spec k k') as [->|Hne].
    + exfalso. apply Hnotin. change k' with (fst (k', v)). now apply in_map.
    + auto.
Qed.

Lemma hm_erase_notin k m : ~ In k (keys m) -> erase k m = m.
Proof.
  induction m as [|[k' v'] m IH]; simpl; [reflexivity|].
  intros Hn. destruct (keqb_spec k k') as [->|Hne].
  - exfalso. apply Hn. now left.
  - rewrite IH; [reflexivity|]. intros Hin. apply Hn. now right.
Qed.

Lemma hm_erase_put_same k v m : erase k (put k v m) = erase k m.
Proof.
  induction m as [|[k' v'] m IH]; simpl.
  - now rewrite keqb_refl.
  - destruct (keqb k k') eqn:E; simpl.
    + now rewrite keqb_refl.
    + now rewrite E, IH.
Qed.

Lemma hm_erase_put_fresh k v m : ~ In k (keys m) -> erase k (put k v m) = m.
Proof. intros Hn. rewrite hm_erase_put_same. now apply hm_erase_notin. Qed.

Lemma hm_length_erase k m :
  (List.length (erase k m) <= List.length m)%nat.
Proof.
  induction m as [|[k' v'] m IH]; simpl; [lia|].
  destruct (keqb k k'); simpl; lia.
Qed.

Lemma hm_length_erase_in k m :
  contains k m = true -> (List.length (erase k m) < List.length m)%nat.
Proof.
  unfold contains. induction m as [|[k' v'] m IH]; simpl; [discriminate|].
  destruct (keqb k k') eqn:E; simpl.
  - intros _. pose proof (hm_length_erase k m). lia.
  - intros Hc. specialize (IH Hc). lia.
Qed.

Lemma hm_length_put k v m :
  (List.length (put k v m) <= S (List.length m))%nat.
Proof.
  induction m as [|[k' v'] m IH]; simpl; [lia|].
  destruct (keqb k k'); simpl; lia.
Qed.

Lemma hm_keys_erase_ne k k' m : In k' (keys (erase k m)) -> k' <> k.
Proof.
  intros Hin ->. apply hm_contains_true_in in Hin.
  now rewrite hm_contains_erase_same in Hin.
Qed.

Lemma hm_size_zero m : Z.eqb (size m) 0 = true <-> m = [].
Proof.
  unfold size. destruct m; simpl; [now split|].
  split; discriminate.
Qed.

End HashmapFacts.


Section StreamFacts.

Lemma sapp_assoc (a b c : string) : (a +++ b) +++ c = a +++ (b +++ c).
Proof. induction a as [|x a IH]; simpl; [reflexivity | now rewrite IH]. Qed.

Lemma sapp_nil_r (a : string) : a +++ "" = a.
Proof. induction a as [|x a IH]; simpl; [reflexivity | now rewrite IH]. Qed.

Lemma slength_app (a b : string) :
  String.length (a +++ b) = (String.length a + String.length b)%nat.
Proof. induction a as [|x a IH]; simpl; [reflexivity | now rewrite IH]. Qed.

Lemma string_skip_nil n : string_skip n "" = "".
Proof. now destruct n. Qed.

Lemma overwrite_at (p text y : string) :
  overwrite (String.length p) text (p +++ y)
  = p +++ text +++ string_skip (String.length text) y.
Proof. induction p as [|x p IH]; simpl; [reflexivity | now rewrite IH]. Qed.

(** Writing at the end of the buffer appends. *)
Lemma write_at_end (a text : string) :
  write {| str := a; tellp := String.length a |} text
  = {| str := a +++ text; tellp := String.length (a +++ text) |}.
Proof.
  unfold write. simpl. f_equal.
  - rewrite <- (sapp_nil_r a) at 2. rewrite overwrite_at.
    now rewrite string_skip_nil, sapp_nil_r.
  - now rewrite slength_app.
Qed.

Lemma with_commas_concat entries :
  entries <> [] ->
  with_commas entries = String.concat "," entries +++ ",".
Proof.
  induction entries as [|e [|e' entries] IH]; [congruence| |]; intros _.
  - reflexivity.
  - change (with_commas (e :: e' :: entries))
      with (e +++ "," +++ with_commas (e' :: entries)).
    rewrite IH by discriminate.
    change (String.concat "," (e :: e' :: entries))
      with (e +++ "," +++ String.concat "," (e' :: entries)).
    now rewrite !sapp_assoc.
Qed.

(** The end of both views: back over the last character if the flag
    says so, then the closing bracket. *)
Lemma close_list (entries : list string) (flag : bool) :
  (entries <> [] -> flag = true) ->
  let out :=
    {| str := "[" +++ with_commas entries;
       tellp := String.length ("[" +++ with_commas entries) |} in
  str (write (if flag then seekp out (Nat.pred (tellp out)) else out) "]")
  = match entries with
    | [] => if flag then "]" else "[]"
    | _ :: _ => "[" +++ String.concat "," entries +++ "]"
    end.
Proof.
  intros Hflag out. destruct entries as [|e entries].
  - destruct flag; reflexivity.
  - rewrite Hflag by discriminate. subst out.
    rewrite with_commas_concat by discriminate.
    set (x := String.concat "," (e :: entries)).
    unfold seekp, write.
    cbn [str tellp].
    change ("[" +++ x +++ ",") with (("[" +++ x) +++ ",") at 2.
    replace (Nat.pred (String.length ("[" +++ x +++ ",")))
      with (String.length ("[" +++ x)).
    + rewrite overwrite_at. reflexivity.
    + change ("[" +++ x +++ ",") with (String "[" (x +++ ",")).
      simpl. rewrite slength_app. simpl. lia.
Qed.

End StreamFacts.

Section RegistryFacts.

Set Default Proof Using "Type".

Variable Resource : Type.
Variable Resources : Type.
Variable res_empty : Resources.
Variable res_add : Resources -> list Resource -> Resources.
Variable res_sub : Resources -> Resource -> Resources.
Variable scalar_text : string -> list Resource -> string.
Variable state_text : TaskState -> string.

Implicit Types (s : Slave Resource Resources)
  (e : Executor Resource Resources) (f : Framework Resource Resources).

(** *** Executors and frameworks *)

Lemma upid_unset_true pid : upid_unset pid = true <-> pid = "".
Proof. unfold upid_unset. apply String.eqb_eq. Qed.

Lemma upid_unset_false pid : upid_unset pid = false <-> pid <> "".
Proof. unfold upid_unset. apply String.eqb_neq. Qed.

Lemma getExecutor_task_None f taskId :
  getExecutor_task f taskId = None <->
  (forall key e, In (key, e) (executors f) -> holds_task taskId e = false).
Proof.
  unfold getExecutor_task. split.
  - intros Hnone key e Hin.
    apply (find_none _ _ Hnone (key, e) Hin).
  - intros Hall.
    destruct (find _ (executors f)) as [[key e]|] eqn:Hfind; [|reflexivity].
    apply find_some in Hfind. destruct Hfind as [Hin Hholds].
    simpl in Hholds. rewrite (Hall key e Hin) in Hholds. discriminate.
Qed.

Lemma getExecutor_task_Some f taskId key e :
  getExecutor_task f taskId = Some (key, e) ->
  In (key, e) (executors f) /\ holds_task taskId e = true.
Proof. unfold getExecutor_task. intros Hfind. now apply find_some in Hfind. Qed.

Lemma removeTask_queued e taskId :
  hashmap.contains taskId (queuedTasks (removeTask res_sub e taskId)) = false.
Proof.
  unfold removeTask. simpl.
  destruct (hashmap.get taskId (launchedTasks e)); simpl;
    apply hm_contains_erase_same.
Qed.

Lemma removeTask_launched e taskId :
  hashmap.contains taskId (launchedTasks (removeTask res_sub e taskId)) = false.
Proof.
  unfold removeTask. simpl.
  destruct (hashmap.get taskId (launchedTasks e)) eqn:Hget; simpl.
  - apply hm_contains_erase_same.
  - unfold hashmap.contains. now rewrite Hget.
Qed.

Lemma removeTask_resources e taskId :
  e_resources (removeTask res_sub e taskId) =
  match hashmap.get taskId (launchedTasks e) with
  | Some task => fold_left res_sub (t_resources task) (e_resources e)
  | None => e_resources e
  end.
Proof.
  unfold removeTask. simpl.
  now destruct (hashmap.get taskId (launchedTasks e)).
Qed.

Lemma removeTask_fixed e taskId :
  e_id (removeTask res_sub e taskId) = e_id e /\
  e_info (removeTask res_sub e taskId) = e_info e /\
  e_pid (removeTask res_sub e taskId) = e_pid e.
Proof.
  unfold removeTask. simpl.
  now destruct (hashmap.get taskId (launchedTasks e)).
Qed.

Lemma removeTask_other_queued e taskId other :
  other <> taskId ->
  hashmap.get other (queuedTasks (removeTask res_sub e taskId)) =
  hashmap.get other (queuedTasks e).
Proof.
  intros Hne. unfold removeTask. simpl.
  destruct (hashmap.get taskId (launchedTasks e)); simpl;
    now apply hm_get_erase_other.
Qed.

Lemma removeTask_other_launched e taskId other :
  other <> taskId ->
  hashmap.get other (launchedTasks (removeTask res_sub e taskId)) =
  hashmap.get other (launchedTasks e).
Proof.
  intros Hne. unfold removeTask. simpl.
  destruct (hashmap.get taskId (launchedTasks e)); simpl;
    [now apply hm_get_erase_other | reflexivity].
Qed.

Lemma updateTaskState_launched e taskId state :
  hashmap.get taskId (launchedTasks (updateTaskState e taskId state)) =
  match hashmap.get taskId (launchedTasks e) with
  | Some task => Some (set_state task state)
  | None => None
  end.
Proof.
  unfold updateTaskState.
  destruct (hashmap.get taskId (launchedTasks e)) eqn:Hget; simpl.
  - apply hm_get_put_same.
  - assumption.
Qed.

Lemma updateTaskState_fixed e taskId state :
  e_id (updateTaskState e taskId state) = e_id e /\
  e_info (updateTaskState e taskId state) = e_info e /\
  e_pid (updateTaskState e taskId state) = e_pid e /\
  e_resources (updateTaskState e taskId state) = e_resources e /\
  queuedTasks (updateTaskState e taskId state) = queuedTasks e.
Proof.
  unfold updateTaskState.
  now destruct (hashmap.get taskId (launchedTasks e)).
Qed.

Lemma getFramework_store s key f :
  getFramework (store_framework s key f) key = Some f.
Proof. unfold getFramework, store_framework. simpl. apply hm_get_put_same. Qed.

Lemma record_update_stored u deadline taskId update :
  exists bucket,
    hashmap.get deadline (record_update u deadline taskId update) = Some bucket
    /\ hashmap.get taskId bucket = Some update.
Proof.
  unfold record_update. eexists. split.
  - apply hm_get_put_same.
  - apply hm_get_put_same.
Qed.

(** *** [statusUpdate] *)

(** The shape of a valid status update's result. *)
Lemma statusUpdate_valid_eq s update now framework key e :
  getFramework s (su_framework_id update) = Some framework ->
  getExecutor_task framework (ts_task_id (su_status update)) = Some (key, e) ->
  let taskId := ts_task_id (su_status update) in
  let state := ts_state (su_status update) in
  let e1 := updateTaskState e taskId state in
  let e' := if is_terminal state then removeTask res_sub e1 taskId else e1 in
  statusUpdate res_sub s update now =
  Done (store_framework s (su_framework_id update)
          (set_updates (store_executor framework key e')
             (record_update (updates framework)
                (now + STATUS_UPDATE_RETRY_INTERVAL) taskId update)),
        (if is_terminal state
         then [ResourcesChanged (f_id framework) (f_info framework)
                 (e_info e') (e_resources e')]
         else [])
        ++ [Send (master s) (S2M_STATUS_UPDATE update true)]).
Proof.
  intros Hf He. unfold statusUpdate. rewrite Hf, He. reflexivity.
Qed.

(** C1, as amended.  A status update whose framework is registered and
    whose task is held, queued or launched, by an executor of that
    framework (the owning executor is the one [getExecutor] finds).  The
    effects are [resourcesChanged] with the executor's resources, for the
    states FINISHED, FAILED, KILLED and LOST only, and then the reliable
    StatusUpdate to the master; the update is stored in the framework's
    [updates] under the deadline [now + 10], indexed there by the task
    id.  If the task is launched, it takes the update's state, its other
    fields staying as they are, and for those four states it is then
    removed and its resources are subtracted from the executor's.  If the
    task is only queued, no state is recorded anywhere; for those four
    states the task is taken off the queue and the executor's resources
    stay as they are. *)
Theorem statusUpdate_valid s update now framework key e :
  getFramework s (su_framework_id update) = Some framework ->
  getExecutor_task framework (ts_task_id (su_status update)) = Some (key, e) ->
  let taskId := ts_task_id (su_status update) in
  let state := ts_state (su_status update) in
  exists s' framework' e',
    statusUpdate res_sub s update now
    = Done (s',
            (if is_terminal state
             then [ResourcesChanged (f_id framework) (f_info framework)
                     (e_info e) (e_resources e')]
             else [])
            ++ [Send (master s) (S2M_STATUS_UPDATE update true)]) /\
    getFramework s' (su_framework_id update) = Some framework' /\
    hashmap.get key (executors framework') = Some e' /\
    (* a launched task *)
    (forall task,
       hashmap.get taskId (launchedTasks e) = Some task ->
       (is_terminal state = false ->
        e_resources e' = e_resources e /\
        queuedTasks e' = queuedTasks e /\
        exists recorded,
          hashmap.get taskId (launchedTasks e') = Some recorded /\
          t_state recorded = state /\
          t_name recorded = t_name task /\
          t_task_id recorded = t_task_id task /\
          t_framework_id recorded = t_framework_id task /\
          t_executor_id recorded = t_executor_id task /\
          t_slave_id recorded = t_slave_id task /\
          t_resources recorded = t_resources task) /\
       (is_terminal state = true ->
        hashmap.contains taskId (launchedTasks e') = false /\
        hashmap.contains taskId (queuedTasks e') = false /\
        e_resources e'
        = fold_left res_sub (t_resources task) (e_resources e))) /\
    (* a task that is only queued *)
    (hashmap.get taskId (launchedTasks e) = None ->
     launchedTasks e' = launchedTasks e /\
     e_resources e' = e_resources e /\
     queuedTasks e'
     = if is_terminal state
       then hashmap.erase taskId (queuedTasks e)
       else queuedTasks e) /\
    (* the stored copy *)
    (exists bucket,
       hashmap.get (now + 10) (updates framework') = Some bucket /\
       hashmap.get taskId bucket = Some update).
Proof.
  intros Hf He taskId state.
  pose proof (statusUpdate_valid_eq s update now Hf He) as Heq.
  cbv zeta in Heq. fold taskId state in Heq.
  set (e1 := updateTaskState e taskId state) in *.
  set (e' := if is_terminal state then removeTask res_sub e1 taskId else e1)
    in *.
  assert (Hinfo : e_info e' = e_info e).
  { destruct (updateTaskState_fixed e taskId state) as (_ & Hi & _).
    fold e1 in Hi. subst e'. destruct (is_terminal state); [|exact Hi].
    destruct (removeTask_fixed e1 taskId) as (_ & Hi' & _). congruence. }
  exists (store_framework s (su_framework_id update)
            (set_updates (store_executor framework key e')
               (record_update (updates framework)
                  (now + STATUS_UPDATE_RETRY_INTERVAL) taskId update))).
  eexists. exists e'.
  split; [rewrite <- Hinfo; exact Heq|].
  split; [apply getFramework_store|].
  split; [simpl; apply hm_get_put_same|].
  split; [|split].
  - intros task Hget. split.
    + intros Hnt. subst e'. rewrite Hnt. subst e1.
      unfold updateTaskState. rewrite Hget. simpl.
      split; [reflexivity|]. split; [reflexivity|].
      exists (set_state task state).
      split; [apply hm_get_put_same|]. now repeat split.
    + intros Ht. subst e'. rewrite Ht.
      split; [apply removeTask_launched|].
      split; [apply removeTask_queued|].
      rewrite removeTask_resources. subst e1.
      rewrite updateTaskState_launched, Hget.
      destruct (updateTaskState_fixed e taskId state)
        as (_ & _ & _ & Hres & _).
      now rewrite Hres.
  - intros Hnone.
    assert (He1 : e1 = e)
      by (subst e1; unfold updateTaskState; now rewrite Hnone).
    subst e'. rewrite He1. destruct (is_terminal state).
    + unfold removeTask. simpl. rewrite Hnone. now repeat split.
    + now repeat split.
  - simpl. apply record_update_stored.
Qed.

(** C2, as amended.  A status update whose framework and owning executor
    exist makes the slave send exactly one message, the reliable
    StatusUpdate to the master: nothing is sent to the executor, and in
    particular no acknowledgement. *)
Theorem statusUpdate_valid_sends s update now framework key e :
  getFramework s (su_framework_id update) = Some framework ->
  getExecutor_task framework (ts_task_id (su_status update)) = Some (key, e) ->
  exists s' out,
    statusUpdate res_sub s update now = Done (s', out) /\
    sent out = [(master s, S2M_STATUS_UPDATE update true)].
Proof.
  intros Hf He.
  pose proof (statusUpdate_valid_eq s update now Hf He) as Heq.
  cbv zeta in Heq.
  do 2 eexists. split; [exact Heq|].
  now destruct (is_terminal (ts_state (su_status update))).
Qed.

(** C8.  What the code does instead: a status update whose framework is
    unknown, or whose task no executor of the framework holds, is dropped
    with no effect and the slave's state is the one before, the counter
    [invalidStatusUpdates] included: the error is logged and not
    counted. *)
Theorem statusUpdate_invalid_dropped s update now :
  (getFramework s (su_framework_id update) = None \/
   exists framework,
     getFramework s (su_framework_id update) = Some framework /\
     forall key e,
       In (key, e) (executors framework) ->
       holds_task (ts_task_id (su_status update)) e = false) ->
  statusUpdate res_sub s update now = Done (s, []).
Proof.
  intros [Hf|(framework & Hf & Hnone)]; unfold statusUpdate; rewrite Hf.
  - reflexivity.
  - apply getExecutor_task_None in Hnone. now rewrite Hnone.
Qed.

(** *** [registerExecutor] *)

(** C7.  A registration for an unknown framework, for an executor the
    framework does not have, or for an executor whose pid is already set
    is answered with KillExecutor to the sender, and the state is the one
    before. *)
Theorem registerExecutor_rejected s from frameworkId executorId :
  (getFramework s frameworkId = None \/
   (exists framework,
      getFramework s frameworkId = Some framework /\
      getExecutor framework executorId = None) \/
   (exists framework e,
      getFramework s frameworkId = Some framework /\
      getExecutor framework executorId = Some e /\
      e_pid e <> "")) ->
  registerExecutor res_add s from frameworkId executorId =
  Done (s, [Send from S2E_KILL_EXECUTOR]).
Proof.
  unfold registerExecutor.
  intros [Hf|[(framework & Hf & He)|(framework & e & Hf & He & Hpid)]];
    rewrite Hf; [reflexivity| |]; rewrite He; [reflexivity|].
  apply upid_unset_false in Hpid. now rewrite Hpid.
Qed.

Lemma flush_spec framework tasks :
  forall e,
    NoDup (map (@td_task_id Resource) tasks) ->
    (forall task,
       In task tasks ->
       hashmap.contains (td_task_id task) (launchedTasks e) = false) ->
    exists e',
      flush res_add framework e tasks =
      Done (e',
            map (fun task =>
                   Send (e_pid e)
                     (S2E_RUN_TASK (f_info framework) (f_id framework)
                        (f_pid framework) task))
              tasks) /\
      e_id e' = e_id e /\ e_info e' = e_info e /\ e_pid e' = e_pid e /\
      e_frameworkId e' = e_frameworkId e /\
      e_directory e' = e_directory e /\
      queuedTasks e' = queuedTasks e /\
      e_resources e' = fold_left res_add (map (@td_resources Resource) tasks)
                         (e_resources e) /\
      (forall task,
         In task tasks ->
         hashmap.get (td_task_id task) (launchedTasks e') =
         Some (new_Task e task)) /\
      (forall taskId,
         ~ In taskId (map (@td_task_id Resource) tasks) ->
         hashmap.get taskId (launchedTasks e') =
         hashmap.get taskId (launchedTasks e)).
Proof.
  induction tasks as [|task rest IH]; intros e Hnd Hfresh.
  - exists e. simpl. repeat split; try reflexivity. intros task [].
  - inversion Hnd as [|? ? Hnotin Hnd']; subst.
    simpl. unfold addTask at 1.
    rewrite (Hfresh task (or_introl eq_refl)). simpl.
    set (e1 := set_launched e _ _).
    destruct (IH e1 Hnd') as (e' & Hflush & Hid & Hinfo & Hpid & Hfid & Hdir
                              & Hq & Hres & Hin & Hout).
    { intros task' Hin'. subst e1. simpl.
      rewrite hm_contains_put_other.
      - apply Hfresh. now right.
      - intros Heq. apply Hnotin. rewrite <- Heq. now apply in_map. }
    exists e'. rewrite Hflush. simpl.
    split; [reflexivity|].
    do 6 (split; [assumption|]).
    split; [exact Hres|].
    split.
    + intros task' [<-|Hin'].
      * rewrite Hout by assumption. subst e1. simpl.
        apply hm_get_put_same.
      * now apply Hin.
    + intros taskId Hn.
      rewrite Hout by (intros Hx; apply Hn; now right). subst e1. simpl.
      apply hm_get_put_other. intros Heq. apply Hn. now left.
Qed.

(** C6.  A registration for an executor that the framework has and whose
    pid is unset, when the queued task ids are distinct and none of them
    is among the launched tasks: the executor's pid becomes the sender,
    [resourcesChanged] is called, the RegisterReply with framework id,
    executor id, slave id, hostname and the executor's data is sent to the
    executor, then one RunTask per queued task, in the queue's order; each
    queued task is then a launched task, and the queue is empty. *)
Theorem registerExecutor_flushes s from frameworkId executorId framework e :
  getFramework s frameworkId = Some framework ->
  getExecutor framework executorId = Some e ->
  e_pid e = "" ->
  NoDup (map (@td_task_id Resource) (hashmap.values (queuedTasks e))) ->
  (forall task,
     In task (hashmap.values (queuedTasks e)) ->
     hashmap.contains (td_task_id task) (launchedTasks e) = false) ->
  exists s' framework' e',
    registerExecutor res_add s from frameworkId executorId =
    Done (s',
          ResourcesChanged (f_id framework) (f_info framework) (e_info e)
            (e_resources e)
          :: Send from
               (S2E_REGISTER_REPLY
                  {| ea_framework_id := f_id framework;
                     ea_executor_id := e_id e;
                     ea_slave_id := s_id s;
                     ea_hostname := si_hostname (s_info s);
                     ea_data := ei_data (e_info e) |})
          :: map (fun task =>
                    Send from
                      (S2E_RUN_TASK (f_info framework) (f_id framework)
                         (f_pid framework) task))
               (hashmap.values (queuedTasks e))) /\
    getFramework s' frameworkId = Some framework' /\
    getExecutor framework' executorId = Some e' /\
    e_pid e' = from /\
    queuedTasks e' = hashmap.empty /\
    (forall task,
       In task (hashmap.values (queuedTasks e)) ->
       hashmap.get (td_task_id task) (launchedTasks e') =
       Some (new_Task e task)).
Proof.
  intros Hf He Hpid Hnd Hfresh.
  unfold registerExecutor. rewrite Hf, He.
  apply upid_unset_true in Hpid. rewrite Hpid. simpl negb. cbv iota.
  destruct (flush_spec framework (hashmap.values (queuedTasks e))
              (set_pid e from) Hnd Hfresh)
    as (e' & Hflush & Hid & Hinfo & Hpid' & Hfid & Hdir & Hq & Hres
        & Hin & Hout).
  simpl queuedTasks. rewrite Hflush. simpl.
  do 3 eexists. split; [reflexivity|].
  split; [apply getFramework_store|].
  split; [unfold getExecutor; simpl; apply hm_get_put_same|].
  split; [simpl; exact Hpid'|].
  split; [reflexivity|].
  intros task Hin'. simpl. exact (Hin task Hin').
Qed.

(** *** The queues of unregistered executors *)

Lemma queue_ok_registered e : e_pid e <> "" -> queue_ok e.
Proof. intros Hpid Hunset. contradiction. Qed.

Lemma queue_ok_queue_task e task : queue_ok e -> queue_ok (queue_task e task).
Proof.
  intros Hok Hpid. destruct (Hok Hpid) as (Hl & Hwf & Hkeys).
  simpl. split; [exact Hl|]. split; [now apply hm_wf_put|].
  intros key task' Hin. apply hm_In_put in Hin.
  destruct Hin as [[-> ->]|Hin]; [reflexivity | now apply Hkeys].
Qed.

Lemma queue_ok_removeTask e taskId :
  queue_ok e -> queue_ok (removeTask res_sub e taskId).
Proof.
  intros Hok Hpid.
  destruct (removeTask_fixed e taskId) as (_ & _ & Hpid').
  rewrite Hpid' in Hpid. destruct (Hok Hpid) as (Hl & Hwf & Hkeys).
  unfold removeTask. simpl. rewrite Hl. simpl.
  split; [exact Hl|]. split; [now apply hm_wf_erase|].
  intros key task Hin. apply hm_In_erase in Hin. now apply Hkeys.
Qed.

Lemma queue_ok_updateTaskState e taskId state :
  queue_ok e -> queue_ok (updateTaskState e taskId state).
Proof.
  intros Hok Hpid.
  destruct (updateTaskState_fixed e taskId state) as (_ & _ & Hpid' & _).
  rewrite Hpid' in Hpid. destruct (Hok Hpid) as (Hl & Hwf & Hkeys).
  unfold updateTaskState. rewrite Hl. simpl. now rewrite Hl.
Qed.

Lemma addTask_pid e task e' :
  addTask res_add e task = Done e' -> e_pid e' = e_pid e.
Proof.
  unfold addTask.
  destruct (hashmap.contains (td_task_id task) (launchedTasks e)); simpl;
    [discriminate|].
  now intros [= <-].
Qed.

Lemma flush_pid framework tasks : forall e e' outs,
  flush res_add framework e tasks = Done (e', outs) -> e_pid e' = e_pid e.
Proof.
  induction tasks as [|task rest IH]; intros e e' outs; simpl.
  - now intros [= <- _].
  - destruct (addTask res_add e task) as [e1|] eqn:Hadd; simpl;
      [|discriminate].
    destruct (flush res_add framework e1 rest) as [[e2 outs2]|] eqn:Hrest;
      simpl; [|discriminate].
    intros [= <- _]. rewrite (IH _ _ _ Hrest). exact (addTask_pid _ _ Hadd).
Qed.

(** What [registerExecutor_flushes] asks of the queue. *)
Lemma queue_ok_flushable e :
  queue_ok e ->
  e_pid e = "" ->
  NoDup (map (@td_task_id Resource) (hashmap.values (queuedTasks e))) /\
  (forall task,
     In task (hashmap.values (queuedTasks e)) ->
     hashmap.contains (td_task_id task) (launchedTasks e) = false).
Proof.
  intros Hok Hpid. destruct (Hok Hpid) as (Hl & Hwf & Hkeys).
  split; [|intros task _; now rewrite Hl].
  assert (Heq : map (@td_task_id Resource) (hashmap.values (queuedTasks e))
                = hashmap.keys (queuedTasks e)).
  { unfold hashmap.values, hashmap.keys. rewrite map_map.
    apply map_ext_in. intros [key task] Hin. simpl. now apply Hkeys. }
  rewrite Heq. exact Hwf.
Qed.

Lemma executors_ok_get s key f :
  queues_ok s -> getFramework s key = Some f -> executors_ok f.
Proof. intros Hs Hf. apply (Hs key). now apply hm_get_In. Qed.

Lemma executors_ok_same f f' :
  executors f' = executors f -> executors_ok f -> executors_ok f'.
Proof. unfold executors_ok. intros ->. trivial. Qed.

Lemma executors_ok_store f key e :
  executors_ok f -> queue_ok e -> executors_ok (store_executor f key e).
Proof.
  intros Hf He key' e' Hin. unfold store_executor in Hin. simpl in Hin.
  apply hm_In_put in Hin. destruct Hin as [[_ ->]|Hin]; [exact He|].
  now apply (Hf key').
Qed.

Lemma executors_ok_destroy f executorId :
  executors_ok f -> executors_ok (destroyExecutor f executorId).
Proof.
  intros Hf key e Hin. unfold destroyExecutor in Hin.
  destruct (hashmap.contains executorId (executors f)).
  - simpl in Hin. apply hm_In_erase in Hin. now apply (Hf key).
  - now apply (Hf key).
Qed.

Lemma executors_ok_removeExecutors es : forall f kill,
  executors_ok f -> executors_ok (fst (removeExecutors f es kill)).
Proof.
  induction es as [|e es IH]; intros f kill Hf; simpl; [exact Hf|].
  specialize (IH (destroyExecutor f (e_id e)) kill
                (executors_ok_destroy (e_id e) Hf)).
  now destruct (removeExecutors (destroyExecutor f (e_id e)) es kill).
Qed.

Lemma queues_ok_store s key f :
  queues_ok s -> executors_ok f -> queues_ok (store_framework s key f).
Proof.
  intros Hs Hf key' f' Hin. unfold store_framework in Hin. simpl in Hin.
  apply hm_In_put in Hin. destruct Hin as [[_ ->]|Hin]; [exact Hf|].
  now apply (Hs key').
Qed.

Lemma queues_ok_removeFramework s key f kill :
  queues_ok s -> executors_ok f ->
  queues_ok (fst (removeFramework s key f kill)).
Proof.
  intros Hs Hf. unfold removeFramework.
  pose proof (executors_ok_removeExecutors (hashmap.values (executors f))
                kill Hf) as Hf'.
  destruct (removeExecutors f (hashmap.values (executors f)) kill)
    as [f' out].
  simpl in *. intros key' f0 Hin. apply hm_In_erase in Hin.
  apply hm_In_put in Hin. destruct Hin as [[_ ->]|Hin]; [exact Hf'|].
  now apply (Hs key').
Qed.

Lemma queue_ok_getExecutor f key e :
  executors_ok f -> getExecutor f key = Some e -> queue_ok e.
Proof. intros Hf He. apply (Hf key). now apply hm_get_In. Qed.

Lemma queue_ok_getExecutor_task f taskId key e :
  executors_ok f -> getExecutor_task f taskId = Some (key, e) -> queue_ok e.
Proof.
  intros Hf He. apply getExecutor_task_Some in He. now apply (Hf key).
Qed.

Ltac framework_ok := eapply executors_ok_get; eassumption.

Ltac executor_ok :=
  first [ eapply queue_ok_getExecutor; [framework_ok | eassumption]
        | eapply queue_ok_getExecutor_task; [framework_ok | eassumption] ].

Ltac queues_step :=
  match goal with
  | |- Done _ = Done _ -> _ =>
      let H := fresh in intros H; inversion H; subst; clear H
  | |- Crash _ = Done _ -> _ => discriminate
  | |- context [match getFramework ?s ?k with _ => _ end] =>
      let f := fresh "f" in let Hf := fresh "Hf" in
      destruct (getFramework s k) as [f|] eqn:Hf
  | |- context [match getExecutor ?f ?k with _ => _ end] =>
      let e := fresh "e" in let He := fresh "He" in
      destruct (getExecutor f k) as [e|] eqn:He
  | |- context [match getExecutor_task ?f ?k with _ => _ end] =>
      let e := fresh "e" in let He := fresh "He" in let key := fresh "key" in
      destruct (getExecutor_task f k) as [[key e]|] eqn:He
  | |- queues_ok (store_framework _ _ _) => apply queues_ok_store
  | |- executors_ok (store_executor _ _ _) => apply executors_ok_store
  | |- queues_ok _ => assumption
  | |- executors_ok _ => framework_ok
  end.

(** Serving a message keeps the queues of unregistered executors in
    order. *)
Lemma serve_queues_ok s now ev s' out :
  has_sender ev ->
  queues_ok s ->
  serve res_empty res_add res_sub s now ev = Done (s', out) ->
  queues_ok s'.
Proof.
  intros Hev Hs. destruct ev; simpl.
  - unfold newMasterDetected. repeat queues_step.
  - unfold noMasterDetected. repeat queues_step.
  - unfold registerReply. repeat queues_step.
  - unfold reregisterReply. destruct (negb _); repeat queues_step.
  - (* runTask *)
    unfold runTask.
    destruct (getFramework s framework_id) as [f|] eqn:Hf.
    + destruct (getExecutor f _) as [e|] eqn:He; simpl; [|discriminate].
      assert (Hq : queue_ok e) by executor_ok.
      destruct (upid_unset (e_pid e)) eqn:Hpid.
      * repeat queues_step. now apply queue_ok_queue_task.
      * destruct (addTask res_add e task) as [e1|] eqn:Hadd; simpl;
          repeat queues_step.
        apply queue_ok_registered. rewrite (addTask_pid _ _ Hadd).
        now apply upid_unset_false.
    + simpl. discriminate.
  - (* killTask *)
    unfold killTask. repeat queues_step.
    destruct (upid_unset (e_pid e)); repeat queues_step.
    apply queue_ok_removeTask. executor_ok.
  - (* killFramework *)
    unfold killFramework.
    destruct (getFramework s framework_id) as [f|] eqn:Hf;
      [|repeat queues_step].
    intros E. injection E as E.
    change s' with (fst (s', out)). rewrite <- E.
    apply queues_ok_removeFramework; [assumption|framework_ok].
  - (* schedulerMessage *)
    unfold schedulerMessage. repeat queues_step.
    destruct (upid_unset (e_pid e)); repeat queues_step.
  - (* updateFramework *)
    unfold updateFramework. repeat queues_step.
    eapply executors_ok_same; [|framework_ok]. reflexivity.
  - (* statusUpdateAcknowledged *)
    unfold statusUpdateAcknowledged. repeat queues_step.
    eapply executors_ok_same; [|framework_ok]. reflexivity.
  - (* registerExecutor *)
    unfold registerExecutor. repeat queues_step.
    destruct (negb (upid_unset (e_pid e))); repeat queues_step.
    destruct (flush res_add f _ _) as [[e1 outs]|] eqn:Hflush; simpl;
      repeat queues_step.
    apply queue_ok_registered. simpl.
    rewrite (flush_pid _ _ _ Hflush). exact Hev.
  - (* statusUpdate *)
    unfold statusUpdate. repeat queues_step.
    assert (Hq : queue_ok e) by executor_ok.
    intros key2 e2 Hin2. simpl in Hin2.
    apply hm_In_put in Hin2. destruct Hin2 as [[_ ->]|Hin2].
    + destruct (is_terminal _).
      * now apply queue_ok_removeTask, queue_ok_updateTaskState.
      * now apply queue_ok_updateTaskState.
    + assert (Hok : executors_ok f) by framework_ok.
      now apply (Hok key2).
  - (* executorMessage *)
    unfold executorMessage. repeat queues_step.
  - unfold ping. repeat queues_step.
  - unfold timeout. repeat queues_step.
  - unfold exited.
    destruct (String.eqb from (master s)); [|destruct (String.eqb from _)];
      repeat queues_step.
  - (* executorExited *)
    unfold executorExited. repeat queues_step.
    unfold removeExecutor.
    set (f1 := destroyExecutor f (e_id e)).
    assert (Hf1 : executors_ok f1)
      by (apply executors_ok_destroy; framework_ok).
    assert (Hs1 : queues_ok (store_framework s framework_id f1))
      by now apply queues_ok_store.
    destruct (Z.eqb (hashmap.size (executors f1)) 0).
    + destruct (removeFramework (store_framework s framework_id f1)
                  framework_id f1 true) as [s2 out3] eqn:E.
      intros H; inversion H; subst.
      change s' with (fst (s', out3)). rewrite <- E.
      now apply queues_ok_removeFramework.
    + repeat queues_step. exact Hf1.
Qed.

Lemma run_queues_ok evs : forall s s' out,
  Forall (fun ev => has_sender (snd ev)) evs ->
  queues_ok s ->
  run res_empty res_add res_sub s evs = Done (s', out) ->
  queues_ok s'.
Proof.
  induction evs as [|[now ev] evs IH]; intros s s' out Hall Hs Hrun.
  - simpl in Hrun. inversion Hrun; now subst.
  - inversion Hall as [|? ? Hev Hall']; subst. simpl in Hev, Hrun.
    destruct (serve res_empty res_add res_sub s now ev)
      as [[s1 out1]|] eqn:Hserve; [|discriminate].
    simpl in Hrun.
    destruct (run res_empty res_add res_sub s1 evs)
      as [[s2 out2]|] eqn:Hrest; [|discriminate].
    simpl in Hrun. inversion Hrun; subst.
    apply (IH s1 s' out2 Hall'); [|exact Hrest].
    exact (serve_queues_ok _ _ Hev Hs Hserve).
Qed.

(** The slave starts with its queues in order. *)
Lemma initial_queues_ok c info reaper :
  queues_ok (@initial Resource Resources c info reaper).
Proof. intros key f []. Qed.

(** *** [killTask] *)

(** C4.  [killTask] for an unknown framework, or for a task that no
    executor of the framework holds, sends the master an unreliable
    TASK_LOST update and leaves the state as it was; when the owning
    executor's pid is unset, the task is removed from it,
    [resourcesChanged] is called with the executor's resources, and the
    master is sent an unreliable TASK_KILLED update, with no message for
    the executor; when the owning executor is registered, a KillTask
    message goes to it and the state is as it was. *)
Theorem killTask_cases s frameworkId taskId now :
  (getFramework s frameworkId = None \/
   (exists framework,
      getFramework s frameworkId = Some framework /\
      forall key e,
        In (key, e) (executors framework) -> holds_task taskId e = false) ->
   exists update,
     killTask res_sub s frameworkId taskId now =
     Done (s, [Send (master s) (S2M_STATUS_UPDATE update false)]) /\
     ts_task_id (su_status update) = taskId /\
     ts_state (su_status update) = TASK_LOST)
  /\
  (forall framework key e,
     getFramework s frameworkId = Some framework ->
     getExecutor_task framework taskId = Some (key, e) ->
     e_pid e = "" ->
     exists s' framework' e' update,
       killTask res_sub s frameworkId taskId now =
       Done (s',
             [ResourcesChanged (f_id framework) (f_info framework)
                (e_info e) (e_resources e');
              Send (master s) (S2M_STATUS_UPDATE update false)]) /\
       ts_task_id (su_status update) = taskId /\
       ts_state (su_status update) = TASK_KILLED /\
       getFramework s' frameworkId = Some framework' /\
       hashmap.get key (executors framework') = Some e' /\
       hashmap.contains taskId (queuedTasks e') = false /\
       hashmap.contains taskId (launchedTasks e') = false /\
       e_pid e' = "" /\
       e_resources e' =
         match hashmap.get taskId (launchedTasks e) with
         | Some task => fold_left res_sub (t_resources task) (e_resources e)
         | None => e_resources e
         end)
  /\
  (forall framework key e,
     getFramework s frameworkId = Some framework ->
     getExecutor_task framework taskId = Some (key, e) ->
     e_pid e <> "" ->
     killTask res_sub s frameworkId taskId now =
     Done (s, [Send (e_pid e) (S2E_KILL_TASK frameworkId taskId)])).
Proof.
  split; [|split].
  - intros [Hf|(framework & Hf & Hnone)]; unfold killTask; rewrite Hf.
    + eexists. split; [reflexivity|]. now split.
    + apply getExecutor_task_None in Hnone. rewrite Hnone.
      eexists. split; [reflexivity|]. now split.
  - intros framework key e Hf He Hpid. unfold killTask. rewrite Hf, He.
    apply upid_unset_true in Hpid. rewrite Hpid.
    destruct (removeTask_fixed e taskId) as (Hid & Hinfo & Hpid').
    rewrite Hinfo.
    do 4 eexists. split; [reflexivity|].
    split; [reflexivity|]. split; [reflexivity|].
    split; [apply getFramework_store|].
    split; [simpl; apply hm_get_put_same|].
    split; [apply removeTask_queued|].
    split; [apply removeTask_launched|].
    split; [rewrite Hpid'; now apply upid_unset_true|].
    apply removeTask_resources.
  - intros framework key e Hf He Hpid. unfold killTask. rewrite Hf, He.
    apply upid_unset_false in Hpid. now rewrite Hpid.
Qed.

(** *** [runTask] *)

(** C3.  What the code does instead: when the framework has no executor
    with the chosen id (the id of the task's own executor spec if it has
    one, of the framework's default executor otherwise), [runTask] reads
    [executor->id] through the null pointer and the process ends; no
    executor is created and nothing is launched. *)
Theorem runTask_new_executor_crashes s frameworkInfo frameworkId pid task
    opendir child id_read :
  (forall framework,
     getFramework s frameworkId = Some framework ->
     getExecutor framework
       match td_executor task with
       | Some info => ei_executor_id info
       | None => ei_executor_id (fi_executor (f_info framework))
       end = None) ->
  runTask res_empty res_add s frameworkInfo frameworkId pid task opendir child
    id_read
  = Crash (NullDereference "executor->id").
Proof.
  intros Hnone. unfold runTask.
  destruct (getFramework s frameworkId) as [framework|] eqn:Hf.
  - rewrite (Hnone framework eq_refl). reflexivity.
  - reflexivity.
Qed.

(** *** Acknowledgements and the retry timer *)

Lemma acknowledge_first ks taskId u :
  acknowledge ks taskId u =
  match
    find (fun d => hashmap.contains taskId (hashmap.at_ d hashmap.empty u)) ks
  with
  | Some d =>
      hashmap.put d (hashmap.erase taskId (hashmap.at_ d hashmap.empty u)) u
  | None => u
  end.
Proof.
  induction ks as [|d ks IH]; simpl; [reflexivity|].
  now destruct (hashmap.contains taskId (hashmap.at_ d hashmap.empty u)).
Qed.

Lemma acknowledge_none ks taskId u :
  (forall d,
     In d ks ->
     hashmap.contains taskId (hashmap.at_ d hashmap.empty u) = false) ->
  acknowledge ks taskId u = u.
Proof.
  induction ks as [|d ks IH]; simpl; [reflexivity|].
  intros Hnone. rewrite (Hnone d (or_introl eq_refl)). apply IH.
  intros d' Hin. apply Hnone. now right.
Qed.

(** Other tasks are left alone, and no bucket gains an entry. *)
Lemma acknowledge_bucket ks taskId u d other :
  hashmap.contains other
    (hashmap.at_ d hashmap.empty (acknowledge ks taskId u)) = true ->
  hashmap.contains other (hashmap.at_ d hashmap.empty u) = true.
Proof.
  rewrite acknowledge_first.
  destruct (find _ ks) as [d0|]; [|trivial].
  destruct (Z.eq_dec d d0) as [->|Hne].
  - rewrite hm_at_put_same.
    destruct (String.eqb_spec other taskId) as [->|Hne].
    + now rewrite hm_contains_erase_same.
    + unfold hashmap.contains. now rewrite hm_get_erase_other.
  - now rewrite hm_at_put_other.
Qed.

(** A bucket outside the table is empty. *)
Lemma at_absent (u : hashmap.t Z (hashmap.t TaskID StatusUpdate)) d taskId :
  ~ In d (hashmap.keys u) ->
  hashmap.contains taskId (hashmap.at_ d hashmap.empty u) = false.
Proof.
  intros Hn. apply hm_get_None_notin in Hn.
  unfold hashmap.at_. now rewrite Hn.
Qed.

(** With at most one holder, an acknowledgement leaves none. *)
Lemma acknowledge_retires taskId u :
  (List.length (holders taskId u) <= 1)%nat ->
  forall d,
    hashmap.contains taskId
      (hashmap.at_ d hashmap.empty
         (acknowledge (hashmap.keys u) taskId u)) = false.
Proof.
  intros Hone d. rewrite acknowledge_first.
  destruct (find _ (hashmap.keys u)) as [d0|] eqn:Hfind.
  - apply find_some in Hfind. destruct Hfind as [Hin0 Hc0].
    destruct (Z.eq_dec d d0) as [->|Hne].
    + rewrite hm_at_put_same. apply hm_contains_erase_same.
    + rewrite hm_at_put_other by assumption.
      destruct (hashmap.contains taskId (hashmap.at_ d hashmap.empty u))
        eqn:Hc; [|reflexivity].
      exfalso.
      destruct (in_dec Z.eq_dec d (hashmap.keys u)) as [Hin|Hn].
      * assert (H0 : In d0 (holders taskId u))
          by (apply filter_In; now split).
        assert (H1 : In d (holders taskId u))
          by (apply filter_In; now split).
        destruct (holders taskId u) as [|a [|b rest]]; simpl in *.
        -- contradiction.
        -- destruct H0 as [<-|[]], H1 as [<-|[]]. congruence.
        -- lia.
      * rewrite (at_absent u d taskId Hn) in Hc. discriminate.
  - destruct (in_dec Z.eq_dec d (hashmap.keys u)) as [Hin|Hn].
    + apply (find_none _ _ Hfind d Hin).
    + now apply at_absent.
Qed.

Lemma set_updates_twice f u u' :
  set_updates (set_updates f u') u = set_updates f u.
Proof. reflexivity. Qed.

Lemma store_framework_twice s key f f' :
  store_framework (store_framework s key f') key f = store_framework s key f.
Proof.
  unfold store_framework, set_frameworks. simpl. now rewrite hm_put_put.
Qed.

Lemma statusUpdateAcknowledged_eq s slaveId frameworkId taskId framework :
  getFramework s frameworkId = Some framework ->
  statusUpdateAcknowledged s slaveId frameworkId taskId =
  Done (store_framework s frameworkId
          (set_updates framework
             (acknowledge (hashmap.keys (updates framework)) taskId
                (updates framework))),
        []).
Proof. intros Hf. unfold statusUpdateAcknowledged. now rewrite Hf. Qed.

(** In any registry, reached or not: when the task id is stored under at
    most one deadline of the framework (or the framework is unknown), a
    second StatusUpdateAcknowledged right after the first changes
    nothing: both leave the same state. *)
Theorem statusUpdateAcknowledged_twice s slaveId frameworkId taskId :
  (forall framework,
     getFramework s frameworkId = Some framework ->
     (List.length (holders taskId (updates framework)) <= 1)%nat) ->
  exists s1,
    statusUpdateAcknowledged s slaveId frameworkId taskId = Done (s1, []) /\
    statusUpdateAcknowledged s1 slaveId frameworkId taskId = Done (s1, []).
Proof.
  intros Hone.
  destruct (getFramework s frameworkId) as [framework|] eqn:Hf.
  - specialize (Hone framework eq_refl).
    set (u1 := acknowledge (hashmap.keys (updates framework)) taskId
                 (updates framework)).
    exists (store_framework s frameworkId (set_updates framework u1)).
    split.
    + now apply statusUpdateAcknowledged_eq.
    + erewrite statusUpdateAcknowledged_eq by apply getFramework_store.
      simpl updates.
      rewrite (acknowledge_none (hashmap.keys u1) taskId u1).
      * now rewrite set_updates_twice, store_framework_twice.
      * intros d _. now apply acknowledge_retires.
  - exists s. unfold statusUpdateAcknowledged. rewrite Hf. now split.
Qed.

Lemma resend_due_of s key framework now :
  resend s framework now =
  map (fun x => Send (master s) (S2M_STATUS_UPDATE (snd x) true))
    (due_of key framework now).
Proof.
  unfold resend, due_of.
  induction (hashmap.keys (updates framework)) as [|d ks IH]; simpl;
    [reflexivity|].
  rewrite map_app, <- IH. f_equal.
  destruct (Z.leb d now); [|reflexivity].
  unfold hashmap.values. now rewrite !map_map.
Qed.

(** A tick re-sends the stored updates that are due, and only them. *)
Lemma timeout_due s now :
  timeout s now =
  Done (s,
        map (fun x => Send (master s) (S2M_STATUS_UPDATE (snd x) true))
          (due s now)).
Proof.
  unfold timeout, due. do 2 f_equal. unfold hashmap.values.
  induction (frameworks s) as [|[key framework] fs IH]; simpl;
    [reflexivity|].
  now rewrite map_app, <- IH, <- (resend_due_of s key framework now).
Qed.

Lemma in_due s now frameworkId d taskId update :
  In (frameworkId, d, taskId, update) (due s now) ->
  exists framework,
    In (frameworkId, framework) (frameworks s) /\
    d <= now /\
    In (taskId, update)
      (hashmap.at_ d hashmap.empty (updates framework)).
Proof.
  unfold due. intros Hin. apply in_flat_map in Hin.
  destruct Hin as ([key framework] & Hin & Hdue). simpl in Hdue.
  unfold due_of in Hdue. apply in_flat_map in Hdue.
  destruct Hdue as (d' & Hkey & Hd).
  destruct (Z.leb d' now) eqn:Hle; [|destruct Hd].
  apply in_map_iff in Hd. destruct Hd as ([taskId' update'] & Heq & Hentry).
  simpl in Heq. inversion Heq; subst.
  exists framework.
  repeat split; [assumption | now apply Z.leb_le | assumption].
Qed.

Section Retired.

Variable t : Z.
Variable frameworkId : FrameworkID.
Variable taskId : TaskID.

Lemma retired_updates f f' :
  updates f' = updates f -> retired t taskId f -> retired t taskId f'.
Proof. unfold retired. intros ->. trivial. Qed.

Lemma retired_in_get s key f :
  retired_in t frameworkId taskId s ->
  getFramework s key = Some f ->
  key = frameworkId -> retired t taskId f.
Proof.
  intros Hs Hget ->. apply Hs. now apply hm_get_In.
Qed.

Lemma retired_in_store s key f :
  retired_in t frameworkId taskId s ->
  (key = frameworkId -> retired t taskId f) ->
  retired_in t frameworkId taskId (store_framework s key f).
Proof.
  intros Hs Hf f' Hin. unfold store_framework in Hin. simpl in Hin.
  apply hm_In_put in Hin. destruct Hin as [[Hk ->]|Hin]; auto.
Qed.

Lemma removeExecutors_updates es : forall f kill,
  updates (fst (removeExecutors f es kill)) = updates f.
Proof.
  induction es as [|e es IH]; intros f kill; simpl; [reflexivity|].
  specialize (IH (destroyExecutor f (e_id e)) kill).
  destruct (removeExecutors (destroyExecutor f (e_id e)) es kill)
    as [f' out] eqn:E.
  simpl in *. rewrite IH. unfold destroyExecutor.
  now destruct (hashmap.contains (e_id e) (executors f)).
Qed.

Lemma retired_in_removeFramework s key f kill :
  retired_in t frameworkId taskId s ->
  (key = frameworkId -> retired t taskId f) ->
  retired_in t frameworkId taskId (fst (removeFramework s key f kill)).
Proof.
  intros Hs Hf. unfold removeFramework.
  pose proof (removeExecutors_updates (hashmap.values (executors f)) f kill)
    as Hu.
  destruct (removeExecutors f (hashmap.values (executors f)) kill)
    as [f' out].
  simpl in *. intros f0 Hin. apply hm_In_erase in Hin.
  apply hm_In_put in Hin. destruct Hin as [[Hk ->]|Hin].
  - eapply retired_updates; [exact Hu|]. auto.
  - now apply Hs.
Qed.

Lemma retired_record_update f f0 now task update :
  t <= now ->
  retired t taskId f0 ->
  retired t taskId
    (set_updates f
       (record_update (updates f0) (now + STATUS_UPDATE_RETRY_INTERVAL)
          task update)).
Proof.
  intros Hnow Hf d Hd. simpl. unfold record_update.
  rewrite hm_at_put_other.
  - now apply Hf.
  - unfold STATUS_UPDATE_RETRY_INTERVAL. lia.
Qed.

Lemma retired_acknowledge f ks task :
  retired t taskId f ->
  retired t taskId (set_updates f (acknowledge ks task (updates f))).
Proof.
  intros Hf d Hd. simpl.
  destruct (hashmap.contains taskId
              (hashmap.at_ d hashmap.empty (acknowledge ks task (updates f))))
    eqn:Hc; [|reflexivity].
  apply acknowledge_bucket in Hc. now rewrite (Hf d Hd) in Hc.
Qed.

Ltac same_updates Hs Hf :=
  eapply retired_updates; [|now apply (retired_in_get Hs Hf)]; reflexivity.

Ltac retired_step :=
  match goal with
  | |- Done _ = Done _ -> _ =>
      let H := fresh in intros H; inversion H; subst; clear H
  | |- Crash _ = Done _ -> _ => discriminate
  | |- context [match getFramework ?s ?k with _ => _ end] =>
      let f := fresh "f" in let Hf := fresh "Hf" in
      destruct (getFramework s k) as [f|] eqn:Hf
  | |- context [match getExecutor ?f ?k with _ => _ end] =>
      let e := fresh "e" in let He := fresh "He" in
      destruct (getExecutor f k) as [e|] eqn:He
  | |- context [match getExecutor_task ?f ?k with _ => _ end] =>
      let e := fresh "e" in let He := fresh "He" in let key := fresh "key" in
      destruct (getExecutor_task f k) as [[key e]|] eqn:He
  | |- context [if upid_unset ?p then _ else _] => destruct (upid_unset p)
  | |- retired_in _ _ _ (store_framework _ _ _) => apply retired_in_store
  | |- retired_in _ _ _ _ => assumption
  end.

(** Serving an event at or after [t] stores nothing under a deadline up
    to [t]. *)
Lemma serve_retired s now ev s' out :
  t <= now ->
  serve res_empty res_add res_sub s now ev = Done (s', out) ->
  retired_in t frameworkId taskId s -> retired_in t frameworkId taskId s'.
Proof.
  intros Hnow Hserve Hs. revert Hserve.
  destruct ev; simpl.
  - (* newMasterDetected *)
    unfold newMasterDetected. repeat retired_step.
  - unfold noMasterDetected. repeat retired_step.
  - unfold registerReply. repeat retired_step.
  - unfold reregisterReply.
    destruct (negb _); repeat retired_step.
  - (* runTask *)
    unfold runTask.
    destruct (getFramework s framework_id) as [f|] eqn:Hf.
    + destruct (getExecutor f _) as [e|] eqn:He; simpl; [|discriminate].
      destruct (upid_unset (e_pid e)).
      * repeat retired_step. intros ->.
        same_updates Hs Hf.
      * destruct (addTask res_add e task) as [e1|]; simpl; repeat retired_step.
        intros ->. same_updates Hs Hf.
    + simpl. discriminate.
  - (* killTask *)
    unfold killTask. repeat retired_step. intros ->.
    same_updates Hs Hf.
  - (* killFramework *)
    unfold killFramework.
    destruct (getFramework s framework_id) as [f|] eqn:Hf;
      [|repeat retired_step].
    intros E. injection E as E.
    change s' with (fst (s', out)). rewrite <- E.
    apply retired_in_removeFramework; [assumption|].
    intros ->. now apply (retired_in_get Hs Hf).
  - (* schedulerMessage *)
    unfold schedulerMessage. repeat retired_step.
  - (* updateFramework *)
    unfold updateFramework. repeat retired_step. intros ->.
    same_updates Hs Hf.
  - (* statusUpdateAcknowledged *)
    unfold statusUpdateAcknowledged. repeat retired_step. intros ->.
    apply retired_acknowledge. now apply (retired_in_get Hs Hf).
  - (* registerExecutor *)
    unfold registerExecutor. repeat retired_step.
    destruct (negb (upid_unset (e_pid e))); repeat retired_step.
    destruct (flush res_add f _ _) as [[e1 outs]|]; simpl; repeat retired_step.
    intros ->. same_updates Hs Hf.
  - (* statusUpdate *)
    unfold statusUpdate. repeat retired_step. intros Hk.
    apply retired_record_update; [assumption|].
    now apply (retired_in_get Hs Hf).
  - (* executorMessage *)
    unfold executorMessage. repeat retired_step.
  - unfold ping. repeat retired_step.
  - unfold timeout. repeat retired_step.
  - unfold exited.
    destruct (String.eqb from (master s)); [|destruct (String.eqb from _)];
      repeat retired_step.
  - (* executorExited *)
    unfold executorExited. repeat retired_step.
    unfold removeExecutor.
    set (f1 := destroyExecutor f (e_id e)).
    assert (Hf1 : framework_id = frameworkId -> retired t taskId f1).
    { intros ->. eapply retired_updates;
        [|now apply (retired_in_get Hs Hf)].
      subst f1. unfold destroyExecutor. now destruct (hashmap.contains _ _). }
    assert (Hs1 : retired_in t frameworkId taskId
                    (store_framework s framework_id f1))
      by now apply retired_in_store.
    destruct (Z.eqb (hashmap.size (executors f1)) 0).
    + destruct (removeFramework (store_framework s framework_id f1)
                  framework_id f1 true) as [s2 out3] eqn:E.
      intros H; inversion H; subst.
      change s' with (fst (s', out3)). rewrite <- E.
      now apply retired_in_removeFramework.
    + repeat retired_step. exact Hf1.
Qed.

Lemma run_retired evs : forall s s' out,
  Forall (fun ev => t <= fst ev) evs ->
  run res_empty res_add res_sub s evs = Done (s', out) ->
  retired_in t frameworkId taskId s -> retired_in t frameworkId taskId s'.
Proof.
  induction evs as [|[now ev] evs IH]; intros s s' out Hall Hrun Hs.
  - simpl in Hrun. inversion Hrun; now subst.
  - inversion Hall as [|? ? Hnow Hall']; subst. simpl in Hnow, Hrun.
    destruct (serve res_empty res_add res_sub s now ev)
      as [[s1 out1]|] eqn:Hserve; [|discriminate].
    simpl in Hrun.
    destruct (run res_empty res_add res_sub s1 evs)
      as [[s2 out2]|] eqn:Hrest; [|discriminate].
    simpl in Hrun. inversion Hrun; subst.
    eapply IH; eauto. eapply serve_retired; eauto.
Qed.

End Retired.

(** The framework table keeps one entry per key. *)
Lemma serve_frameworks_wf s now ev s' out :
  hashmap.wf (frameworks s) ->
  serve res_empty res_add res_sub s now ev = Done (s', out) ->
  hashmap.wf (frameworks s').
Proof.
  intros Hwf.
  assert (Hstore : forall key f,
             hashmap.wf (frameworks (store_framework s key f)))
    by (intros; simpl; now apply hm_wf_put).
  assert (Hremove : forall s0 key f kill,
             hashmap.wf (frameworks s0) ->
             hashmap.wf (frameworks (fst (removeFramework s0 key f kill)))).
  { intros s0 key f kill Hwf0. unfold removeFramework.
    destruct (removeExecutors f (hashmap.values (executors f)) kill).
    simpl. now apply hm_wf_erase, hm_wf_put. }
  destruct ev; simpl.
  - unfold newMasterDetected. now intros [= <- _].
  - unfold noMasterDetected. now intros [= <- _].
  - unfold registerReply. now intros [= <- _].
  - unfold reregisterReply. destruct (negb _); [discriminate|].
    now intros [= <- _].
  - unfold runTask.
    destruct (getExecutor _ _) as [e|]; simpl; [|discriminate].
    destruct (upid_unset (e_pid e)); [now intros [= <- _]|].
    destruct (addTask res_add e task); simpl; [|discriminate].
    now intros [= <- _].
  - unfold killTask.
    destruct (getFramework s framework_id) as [f|]; [|now intros [= <- _]].
    destruct (getExecutor_task f task_id) as [[key e]|];
      [|now intros [= <- _]].
    destruct (upid_unset (e_pid e)); now intros [= <- _].
  - unfold killFramework.
    destruct (getFramework s framework_id) as [f|]; [|now intros [= <- _]].
    intros E. injection E as E.
    change s' with (fst (s', out)). rewrite <- E. now apply Hremove.
  - unfold schedulerMessage.
    destruct (getFramework s framework_id) as [f|]; [|now intros [= <- _]].
    destruct (getExecutor f executor_id) as [e|]; [|now intros [= <- _]].
    destruct (upid_unset (e_pid e)); now intros [= <- _].
  - unfold updateFramework.
    destruct (getFramework s framework_id); now intros [= <- _].
  - unfold statusUpdateAcknowledged.
    destruct (getFramework s framework_id); now intros [= <- _].
  - unfold registerExecutor.
    destruct (getFramework s framework_id) as [f|]; [|now intros [= <- _]].
    destruct (getExecutor f executor_id) as [e|]; [|now intros [= <- _]].
    destruct (negb (upid_unset (e_pid e))); [now intros [= <- _]|].
    destruct (flush res_add f _ _) as [[e1 outs]|]; simpl; [|discriminate].
    now intros [= <- _].
  - unfold statusUpdate.
    destruct (getFramework s _) as [f|]; [|now intros [= <- _]].
    destruct (getExecutor_task f _) as [[key e]|]; now intros [= <- _].
  - unfold executorMessage.
    destruct (getFramework s framework_id); now intros [= <- _].
  - unfold ping. now intros [= <- _].
  - unfold timeout. now intros [= <- _].
  - unfold exited.
    destruct (String.eqb from (master s)); [now intros [= <- _]|].
    destruct (String.eqb from (reaper s)); [discriminate|].
    now intros [= <- _].
  - unfold executorExited.
    destruct (getFramework s framework_id) as [f|]; [|now intros [= <- _]].
    destruct (getExecutor f executor_id) as [e|]; [|now intros [= <- _]].
    unfold removeExecutor.
    set (f1 := destroyExecutor f (e_id e)).
    destruct (Z.eqb (hashmap.size (executors f1)) 0).
    + destruct (removeFramework (store_framework s framework_id f1)
                  framework_id f1 true) as [s2 out3] eqn:E.
      intros H; inversion H; subst.
      change s' with (fst (s', out3)). rewrite <- E.
      apply Hremove, Hstore.
    + now intros [= <- _].
Qed.

(** In any registry, reached or not: let a StatusUpdateAcknowledged for a
    registered framework be processed at time [t] in a state where the
    task id is stored under at most one deadline of that framework.
    Then, whatever events the slave serves afterwards (the clock not
    running backwards), no timer tick re-sends an update stored for that
    framework and task under a deadline up to [t]. *)
Theorem acknowledged_not_resent s slaveId frameworkId taskId framework t :
  hashmap.wf (frameworks s) ->
  getFramework s frameworkId = Some framework ->
  (List.length (holders taskId (updates framework)) <= 1)%nat ->
  exists s1,
    statusUpdateAcknowledged s slaveId frameworkId taskId = Done (s1, []) /\
    forall evs s2 out,
      Forall (fun ev => t <= fst ev) evs ->
      run res_empty res_add res_sub s1 evs = Done (s2, out) ->
      forall now deadline update,
        In (frameworkId, deadline, taskId, update) (due s2 now) ->
        t < deadline.
Proof.
  intros Hwf Hf Hone.
  set (u1 := acknowledge (hashmap.keys (updates framework)) taskId
               (updates framework)).
  exists (store_framework s frameworkId (set_updates framework u1)).
  split; [now apply statusUpdateAcknowledged_eq|].
  intros evs s2 out Hall Hrun now deadline update Hin.
  assert (Hs1 : retired_in t frameworkId taskId
                  (store_framework s frameworkId (set_updates framework u1))).
  { intros f' Hin'. unfold store_framework in Hin'. simpl in Hin'.
    eapply hm_In_put_wf in Hin'; [|exact Hwf]. subst f'.
    intros d _. simpl. now apply acknowledge_retires. }
  pose proof (run_retired Hall Hrun Hs1) as Hs2.
  apply in_due in Hin. destruct Hin as (f2 & Hin2 & _ & Hentry).
  destruct (Z.le_gt_cases deadline t) as [Hle|Hgt]; [|exact Hgt].
  apply hm_In_contains in Hentry.
  rewrite (Hs2 f2 Hin2 deadline Hle) in Hentry. discriminate.
Qed.

(** *** [getUniqueWorkDirectory] *)

Lemma probe_least opendir dir n : forall i N,
  i <= N < i + Z.of_nat n ->
  no_such_dir (opendir (dir +++ itoa N)) = true ->
  (forall j, i <= j < N -> no_such_dir (opendir (dir +++ itoa j)) = false) ->
  probe opendir dir n i = dir +++ itoa N.
Proof.
  induction n as [|n IH]; intros i N Hrange Hfree Hbusy.
  - simpl in Hrange. lia.
  - simpl. destruct (Z.eq_dec i N) as [->|Hne].
    + now rewrite Hfree.
    + rewrite Hbusy by lia. apply IH; [lia | assumption |].
      intros j Hj. apply Hbusy. lia.
Qed.

Lemma probe_exhausted opendir dir n : forall i,
  (forall j,
     i <= j < i + Z.of_nat n ->
     no_such_dir (opendir (dir +++ itoa j)) = false) ->
  probe opendir dir n i = dir.
Proof.
  induction n as [|n IH]; intros i Hbusy; [reflexivity|].
  simpl. rewrite Hbusy by lia. apply IH. intros j Hj. apply Hbusy. lia.
Qed.

Lemma workDir_base c :
  workDir c =
  match hashmap.get "work_dir" c with
  | Some d => d
  | None =>
      match hashmap.get "home" c with
      | Some h => h
      | None => "."
      end
  end +++ "/work".
Proof.
  unfold workDir, conf_get, hashmap.at_, hashmap.contains.
  destruct (hashmap.get "work_dir" c); [reflexivity|].
  now destruct (hashmap.get "home" c).
Qed.

(** C10.  What the code does instead: the result is
    [<base>/work/slave-<slave_id>/fw-<frameworkId>-<executorId>/<N>],
    where [<base>] is the configured [work_dir], else the configured
    [home], else ["."]: [/work] is appended to a configured [work_dir]
    too.  [N] is the smallest integer in [0, INT_MAX) for which [opendir]
    reports that the directory does not exist, whenever there is one. *)
Theorem getUniqueWorkDirectory_least s opendir frameworkId executorId N :
  let base :=
    match hashmap.get "work_dir" (conf s) with
    | Some d => d
    | None =>
        match hashmap.get "home" (conf s) with
        | Some h => h
        | None => "."
        end
    end in
  let dir :=
    (base +++ "/work") +++ "/slave-" +++ s_id s
      +++ "/fw-" +++ frameworkId +++ "-" +++ executorId +++ "/" in
  0 <= N < INT_MAX ->
  no_such_dir (opendir (dir +++ itoa N)) = true ->
  (forall j, 0 <= j < N -> no_such_dir (opendir (dir +++ itoa j)) = false) ->
  getUniqueWorkDirectory s opendir frameworkId executorId = dir +++ itoa N.
Proof.
  intros base dir HN Hfree Hbusy.
  unfold getUniqueWorkDirectory. rewrite workDir_base. fold base. fold dir.
  apply probe_least; [|assumption|assumption].
  rewrite Z2Nat.id by (unfold INT_MAX; lia). lia.
Qed.

(** ** Further properties of the handlers *)

(** *** [runTask] on an executor that exists *)

Lemma addTask_fresh e task :
  hashmap.contains (td_task_id task) (launchedTasks e) = false ->
  addTask res_add e task =
  Done (set_launched e
          (hashmap.put (td_task_id task) (new_Task e task) (launchedTasks e))
          (res_add (e_resources e) (td_resources task))).
Proof. intros Hfresh. unfold addTask. now rewrite Hfresh. Qed.

(** X1.  A task for an executor that has registered is launched at once:
    it enters [launchedTasks] in state TASK_STARTING, its resources are
    added to the executor's, the executor is sent RunTask with the
    framework's recorded info and scheduler pid (not the ones of the
    message), and then [resourcesChanged] is called with the new
    total.  The queue is not touched. *)
Theorem runTask_launches s frameworkInfo frameworkId pid task opendir child
    id_read f e :
  let executorId :=
    match td_executor task with
    | Some info => ei_executor_id info
    | None => ei_executor_id (fi_executor (f_info f))
    end in
  getFramework s frameworkId = Some f ->
  getExecutor f executorId = Some e ->
  e_pid e <> "" ->
  hashmap.contains (td_task_id task) (launchedTasks e) = false ->
  exists s' f' e' launched,
    runTask res_empty res_add s frameworkInfo frameworkId pid task opendir
      child id_read
    = Done (s',
            [Send (e_pid e)
               (S2E_RUN_TASK (f_info f) (f_id f) (f_pid f) task);
             ResourcesChanged (f_id f) (f_info f) (e_info e)
               (res_add (e_resources e) (td_resources task))]) /\
    getFramework s' frameworkId = Some f' /\
    getExecutor f' executorId = Some e' /\
    hashmap.get (td_task_id task) (launchedTasks e') = Some launched /\
    t_state launched = TASK_STARTING /\
    t_resources launched = td_resources task /\
    e_resources e' = res_add (e_resources e) (td_resources task) /\
    queuedTasks e' = queuedTasks e /\
    e_pid e' = e_pid e.
Proof.
  intros executorId Hf He Hpid Hfresh.
  unfold runTask. rewrite Hf. fold executorId. rewrite He.
  apply upid_unset_false in Hpid. rewrite Hpid.
  rewrite (addTask_fresh _ _ Hfresh). simpl.
  do 4 eexists. split; [reflexivity|].
  split; [apply getFramework_store|].
  split; [unfold getExecutor; simpl; apply hm_get_put_same|].
  split; [simpl; apply hm_get_put_same|].
  repeat split.
Qed.

(** X2.  A task whose id the registered executor has already launched
    trips the CHECK of [addTask]: the slave aborts. *)
Theorem runTask_relaunch_aborts s frameworkInfo frameworkId pid task opendir
    child id_read f e :
  getFramework s frameworkId = Some f ->
  getExecutor f
    match td_executor task with
    | Some info => ei_executor_id info
    | None => ei_executor_id (fi_executor (f_info f))
    end = Some e ->
  e_pid e <> "" ->
  hashmap.contains (td_task_id task) (launchedTasks e) = true ->
  runTask res_empty res_add s frameworkInfo frameworkId pid task opendir child
    id_read
  = Crash (CheckFailed "!launchedTasks.contains(task.task_id())").
Proof.
  intros Hf He Hpid Hdup.
  unfold runTask. rewrite Hf, He.
  apply upid_unset_false in Hpid. rewrite Hpid.
  unfold addTask. rewrite Hdup. reflexivity.
Qed.

(** X3.  A task for an executor that exists but has not registered is
    queued under its id, replacing a descriptor queued earlier under the
    same id; nothing is sent and nothing is launched.  The executor keeps
    its own info: an executor spec embedded in the task is ignored. *)
Theorem runTask_queues s frameworkInfo frameworkId pid task opendir child
    id_read f e :
  let executorId :=
    match td_executor task with
    | Some info => ei_executor_id info
    | None => ei_executor_id (fi_executor (f_info f))
    end in
  getFramework s frameworkId = Some f ->
  getExecutor f executorId = Some e ->
  e_pid e = "" ->
  exists s' f' e',
    runTask res_empty res_add s frameworkInfo frameworkId pid task opendir
      child id_read
    = Done (s', []) /\
    getFramework s' frameworkId = Some f' /\
    getExecutor f' executorId = Some e' /\
    hashmap.get (td_task_id task) (queuedTasks e') = Some task /\
    (forall other,
       other <> td_task_id task ->
       hashmap.get other (queuedTasks e') = hashmap.get other (queuedTasks e))
    /\ launchedTasks e' = launchedTasks e /\
    e_resources e' = e_resources e /\
    e_info e' = e_info e /\
    e_pid e' = "".
Proof.
  intros executorId Hf He Hpid.
  unfold runTask. rewrite Hf. fold executorId. rewrite He.
  pose proof Hpid as Hunset. apply upid_unset_true in Hunset.
  rewrite Hunset.
  do 3 eexists. split; [reflexivity|].
  split; [apply getFramework_store|].
  split; [unfold getExecutor; simpl; apply hm_get_put_same|].
  split; [simpl; apply hm_get_put_same|].
  split; [intros other Hne; simpl; now apply hm_get_put_other|].
  repeat split. exact Hpid.
Qed.

(** *** Framework messages *)

(** X4.  A message from the scheduler reaches the executor only if the
    framework is known and the executor exists and has registered; then
    [validFrameworkMessages] is incremented, otherwise the message is
    dropped and [invalidFrameworkMessages] is incremented.  Either way
    exactly one of the two counters moves and the registry is as
    before. *)
Theorem schedulerMessage_counts s slaveId frameworkId executorId data :
  exists s' out,
    schedulerMessage s slaveId frameworkId executorId data = Done (s', out) /\
    frameworks s' = frameworks s /\
    ((exists f e,
        getFramework s frameworkId = Some f /\
        getExecutor f executorId = Some e /\
        e_pid e <> "" /\
        out = [Send (e_pid e)
                 (S2E_FRAMEWORK_MESSAGE slaveId frameworkId executorId data)]
        /\ validFrameworkMessages (statistics s')
           = incr64 (validFrameworkMessages (statistics s)) /\
        invalidFrameworkMessages (statistics s')
        = invalidFrameworkMessages (statistics s))
     \/
     ((forall f e,
         getFramework s frameworkId = Some f ->
         getExecutor f executorId = Some e -> e_pid e = "") /\
      out = [] /\
      validFrameworkMessages (statistics s')
      = validFrameworkMessages (statistics s) /\
      invalidFrameworkMessages (statistics s')
      = incr64 (invalidFrameworkMessages (statistics s)))).
Proof.
  unfold schedulerMessage.
  destruct (getFramework s frameworkId) as [f|] eqn:Hf.
  - destruct (getExecutor f executorId) as [e|] eqn:He.
    + destruct (upid_unset (e_pid e)) eqn:Hpid.
      * do 2 eexists. split; [reflexivity|]. split; [reflexivity|].
        right. split; [|now repeat split].
        intros f0 e0 [= <-] He0. rewrite He in He0. injection He0 as <-.
        now apply upid_unset_true.
      * do 2 eexists. split; [reflexivity|]. split; [reflexivity|].
        left. exists f, e. apply upid_unset_false in Hpid. now repeat split.
    + do 2 eexists. split; [reflexivity|]. split; [reflexivity|].
      right. split; [|now repeat split].
      intros f0 e0 [= <-] He0. rewrite He in He0. discriminate.
  - do 2 eexists. split; [reflexivity|]. split; [reflexivity|].
    right. split; [|now repeat split]. intros f0 e0 Hf0. discriminate.
Qed.

(** X5.  A message from an executor goes to the scheduler pid recorded
    for its framework, whether or not the slave knows the executor; after
    [updateFramework] that is the new pid. *)
Theorem executorMessage_follows_update s slaveId frameworkId executorId data
    pid f :
  getFramework s frameworkId = Some f ->
  exists s1 s2,
    updateFramework s frameworkId pid = Done (s1, []) /\
    executorMessage s1 slaveId frameworkId executorId data
    = Done (s2,
            [Send pid
               (M2F_FRAMEWORK_MESSAGE slaveId frameworkId executorId data)])
    /\ frameworks s2 = frameworks s1 /\
    (forall f1,
       getFramework s1 frameworkId = Some f1 ->
       executors f1 = executors f /\ updates f1 = updates f).
Proof.
  intros Hf. unfold updateFramework. rewrite Hf.
  set (s1 := store_framework s frameworkId (set_f_pid f pid)).
  assert (Hs1 : getFramework s1 frameworkId = Some (set_f_pid f pid))
    by apply getFramework_store.
  exists s1, (count_validFrameworkMessage s1).
  split; [reflexivity|].
  unfold executorMessage. rewrite Hs1.
  split; [reflexivity|]. split; [reflexivity|].
  intros f1 [= <-]. now split.
Qed.

(** *** Removal of executors and frameworks *)

Lemma destroyExecutor_present f executorId :
  hashmap.contains executorId (executors f) = true ->
  destroyExecutor f executorId
  = set_executors f (hashmap.erase executorId (executors f)).
Proof. intros Hin. unfold destroyExecutor. now rewrite Hin. Qed.

Lemma destroyExecutor_id f executorId :
  f_id (destroyExecutor f executorId) = f_id f /\
  f_info (destroyExecutor f executorId) = f_info f.
Proof.
  unfold destroyExecutor.
  now destruct (hashmap.contains executorId (executors f)).
Qed.

Lemma removeExecutors_kills es : forall f,
  f_id (fst (removeExecutors f es true)) = f_id f /\
  snd (removeExecutors f es true)
  = flat_map
      (fun e =>
         [Send (e_pid e) S2E_KILL_EXECUTOR;
          KillExecutor (f_id f) (f_info f) (e_info e)]) es.
Proof.
  induction es as [|e es IH]; intros f; simpl; [now split|].
  specialize (IH (destroyExecutor f (e_id e))).
  destruct (destroyExecutor_id f (e_id e)) as [Hid Hinfo].
  destruct (removeExecutors (destroyExecutor f (e_id e)) es true)
    as [f' out].
  simpl in *. destruct IH as [IH1 IH2].
  rewrite IH1, IH2, Hid, Hinfo. now split.
Qed.

Lemma removeFramework_kills s key f :
  f_id f = key ->
  removeFramework s key f true
  = (set_frameworks s (hashmap.erase key (frameworks s)), kills f).
Proof.
  intros Hid. unfold removeFramework, kills.
  destruct (removeExecutors_kills (hashmap.values (executors f)) f)
    as [H1 H2].
  destruct (removeExecutors f (hashmap.values (executors f)) true)
    as [f' out].
  simpl in *. rewrite H1, H2, Hid. now rewrite hm_erase_put_same.
Qed.

(** X6.  When the reaper reports the exit of a known executor, the slave
    tells the master ExitedExecutor and nothing else: the executor is
    neither sent a kill nor handed to the isolation module.  The executor
    is gone afterwards, its siblings stay, and the framework goes with it
    exactly when it was the framework's last executor. *)
Theorem executorExited_removes s frameworkId executorId result f e :
  getFramework s frameworkId = Some f ->
  getExecutor f executorId = Some e ->
  f_id f = frameworkId ->
  e_id e = executorId ->
  exists s',
    executorExited s frameworkId executorId result
    = Done (s',
            [Send (master s)
               (S2M_EXITED_EXECUTOR (s_id s) frameworkId executorId result)])
    /\ (forall other,
          other <> frameworkId ->
          getFramework s' other = getFramework s other) /\
    ((hashmap.erase executorId (executors f) = [] /\
      getFramework s' frameworkId = None)
     \/
     (hashmap.erase executorId (executors f) <> [] /\
      exists f',
        getFramework s' frameworkId = Some f' /\
        getExecutor f' executorId = None /\
        (forall other,
           other <> executorId ->
           getExecutor f' other = getExecutor f other) /\
        updates f' = updates f /\ f_pid f' = f_pid f)).
Proof.
  intros Hf He Hfid Heid. unfold executorExited. rewrite Hf, He.
  unfold removeExecutor. rewrite Heid.
  rewrite destroyExecutor_present
    by (apply (hm_get_contains _ _ He)).
  set (f1 := set_executors f (hashmap.erase executorId (executors f))).
  destruct (Z.eqb (hashmap.size (executors f1)) 0) eqn:Hsize.
  - apply hm_size_zero in Hsize.
    rewrite removeFramework_kills by exact Hfid.
    unfold kills. rewrite Hsize. simpl.
    eexists. split; [reflexivity|].
    split.
    + intros other Hne. unfold getFramework. simpl.
      rewrite hm_get_erase_other by exact Hne.
      now apply hm_get_put_other.
    + left. split; [exact Hsize|]. unfold getFramework. simpl.
      apply hm_get_erase_same.
  - eexists. split; [reflexivity|].
    split.
    + intros other Hne. unfold getFramework, store_framework. simpl.
      now apply hm_get_put_other.
    + right. split.
      * intros Hnil. change (executors f1 = []) in Hnil.
        apply hm_size_zero in Hnil. congruence.
      * exists f1. split; [apply getFramework_store|].
        split; [apply hm_get_erase_same|].
        split; [|now split].
        intros other Hne. now apply hm_get_erase_other.
Qed.

(** X7.  KillFramework for a known framework sends every executor of the
    framework KillExecutor and hands it to the isolation module, in the
    order of the executor table, and forgets the framework, its pending
    status updates included; other frameworks are not touched. *)
Theorem killFramework_removes s frameworkId f :
  getFramework s frameworkId = Some f ->
  f_id f = frameworkId ->
  exists s',
    killFramework s frameworkId = Done (s', kills f) /\
    getFramework s' frameworkId = None /\
    (forall other,
       other <> frameworkId ->
       getFramework s' other = getFramework s other) /\
    (forall now d taskId update,
       ~ In (frameworkId, d, taskId, update) (due s' now)).
Proof.
  intros Hf Hid. unfold killFramework. rewrite Hf.
  rewrite removeFramework_kills by exact Hid.
  eexists. split; [reflexivity|].
  assert (Hgone :
    getFramework
      (set_frameworks s (hashmap.erase frameworkId (frameworks s)))
      frameworkId = None) by apply hm_get_erase_same.
  split; [exact Hgone|].
  split.
  - intros other Hne. now apply hm_get_erase_other.
  - intros now d taskId update Hin.
    apply in_due in Hin. destruct Hin as (f0 & Hf0 & _).
    apply hm_In_contains in Hf0. simpl in Hf0.
    now rewrite hm_contains_erase_same in Hf0.
Qed.

Lemma removeFrameworks_kills fs : forall s,
  (forall key f, In (key, f) fs -> f_id f = key) ->
  removeFrameworks s fs
  = (set_frameworks s
       (fold_left (fun m kf => hashmap.erase (fst kf) m) fs (frameworks s)),
     flat_map (fun kf => kills (snd kf)) fs).
Proof.
  induction fs as [|[key f] fs IH]; intros s Hids; simpl.
  - now destruct s.
  - rewrite removeFramework_kills by (apply Hids; now left).
    rewrite IH by (intros k f0 Hin; apply Hids; now right).
    reflexivity.
Qed.

Lemma erase_all (fs : list (FrameworkID * Framework Resource Resources)) :
  forall m : hashmap.t FrameworkID (Framework Resource Resources),
  (forall k, In k (hashmap.keys m) -> In k (hashmap.keys fs)) ->
  fold_left (fun m kf => hashmap.erase (fst kf) m) fs m = [].
Proof.
  induction fs as [|[key f] fs IH]; intros m Hsub; simpl.
  - destruct m as [|[k v] m]; [reflexivity|].
    exfalso. apply (Hsub k). now left.
  - apply IH. intros k Hin.
    assert (Hne : k <> key) by (eapply hm_keys_erase_ne; exact Hin).
    apply hm_In_keys_erase in Hin. apply Hsub in Hin.
    destruct Hin as [Heq|Hin]; [simpl in Heq; congruence | exact Hin].
Qed.

(** X8.  On TERMINATE the slave removes every framework: each executor
    of each framework is sent KillExecutor and handed to the isolation
    module, framework by framework in table order, and the framework
    table is empty afterwards. *)
Theorem terminate_kills_all s :
  (forall key f, In (key, f) (frameworks s) -> f_id f = key) ->
  exists s',
    terminate s = (s', flat_map (fun kf => kills (snd kf)) (frameworks s)) /\
    frameworks s' = [] /\
    master s' = master s /\ s_id s' = s_id s /\
    statistics s' = statistics s.
Proof.
  intros Hids. unfold terminate.
  rewrite removeFrameworks_kills by exact Hids.
  eexists. split; [reflexivity|]. simpl.
  split; [|now repeat split].
  apply erase_all. auto.
Qed.

(** *** Registration with the master *)

(** X9.  When a master is detected the slave links to it and sends it one
    message: RegisterSlave while the slave has no id yet, otherwise
    ReregisterSlave with its id and with exactly the tasks found in some
    executor's [launchedTasks]; tasks still queued for an executor that
    has not registered are not reported.  Only [master] changes. *)
Theorem newMasterDetected_registers s pid :
  exists s' msg,
    newMasterDetected s pid = Done (s', [Link pid; Send pid msg]) /\
    master s' = pid /\ s_id s' = s_id s /\ frameworks s' = frameworks s /\
    statistics s' = statistics s /\
    (s_id s = "" -> msg = S2M_REGISTER_SLAVE (s_info s)) /\
    (s_id s <> "" ->
     exists tasks,
       msg = S2M_REREGISTER_SLAVE (s_id s) (s_info s) tasks /\
       forall t,
         In t tasks <->
         exists fkey f ekey e tkey,
           In (fkey, f) (frameworks s) /\
           In (ekey, e) (executors f) /\
           In (tkey, t) (launchedTasks e)).
Proof.
  unfold newMasterDetected. simpl.
  destruct (String.eqb_spec (s_id s) "") as [Hid|Hid].
  - do 2 eexists. split; [reflexivity|]. simpl.
    do 4 (split; [reflexivity|]).
    split; [reflexivity|]. intros Hne. now elim Hne.
  - do 2 eexists. split; [reflexivity|]. simpl.
    do 4 (split; [reflexivity|]).
    split; [intros Heq; now elim Hid|]. intros _.
    eexists. split; [reflexivity|].
    intros t. unfold launched_tasks, hashmap.values. simpl. split.
    + intros Hin. apply in_flat_map in Hin. destruct Hin as (f & Hf & Hin).
      apply in_map_iff in Hf. destruct Hf as ([fkey f0] & <- & Hf).
      apply in_flat_map in Hin. destruct Hin as (e & He & Hin).
      apply in_map_iff in He. destruct He as ([ekey e0] & <- & He).
      apply in_map_iff in Hin. destruct Hin as ([tkey t0] & <- & Ht).
      now exists fkey, f0, ekey, e0, tkey.
    + intros (fkey & f & ekey & e & tkey & Hf & He & Ht).
      apply in_flat_map. exists f. split.
      { apply in_map_iff. now exists (fkey, f). }
      apply in_flat_map. exists e. split.
      { apply in_map_iff. now exists (ekey, e). }
      apply in_map_iff. now exists (tkey, t).
Qed.

(** *** Retries *)

Lemma due_stored s now frameworkId f d bucket taskId update :
  getFramework s frameworkId = Some f ->
  hashmap.get d (updates f) = Some bucket ->
  hashmap.get taskId bucket = Some update ->
  d <= now ->
  In (frameworkId, d, taskId, update) (due s now).
Proof.
  intros Hf Hd Ht Hle. unfold due. apply in_flat_map.
  exists (frameworkId, f). split; [now apply hm_get_In|].
  unfold due_of. simpl. apply in_flat_map. exists d. split.
  - apply hm_contains_true_in. now apply (hm_get_contains _ _ Hd).
  - apply Z.leb_le in Hle. rewrite Hle. unfold hashmap.at_. rewrite Hd.
    apply in_map_iff. exists (taskId, update). split; [reflexivity|].
    now apply hm_get_In.
Qed.

Lemma due_mono s now later :
  now <= later -> incl (due s now) (due s later).
Proof.
  intros Hle x Hin. unfold due in *. apply in_flat_map in Hin.
  destruct Hin as ([key f] & Hf & Hin). apply in_flat_map.
  exists (key, f). split; [exact Hf|].
  unfold due_of in *. simpl in *. apply in_flat_map in Hin.
  destruct Hin as (d & Hd & Hin). apply in_flat_map.
  exists d. split; [exact Hd|].
  destruct (Z.leb d now) eqn:E; [|destruct Hin].
  apply Z.leb_le in E.
  assert (E' : Z.leb d later = true) by (apply Z.leb_le; lia).
  now rewrite E'.
Qed.

Lemma run_ticks ticks : forall s,
  run res_empty res_add res_sub s (map (fun t => (t, TIMEOUT)) ticks)
  = Done (s,
          flat_map
            (fun t =>
               map (fun x => Send (master s) (S2M_STATUS_UPDATE (snd x) true))
                 (due s t))
            ticks).
Proof.
  induction ticks as [|t ticks IH]; intros s; [reflexivity|].
  cbn [map flat_map run serve]. rewrite timeout_due.
  cbn [bind]. rewrite IH. reflexivity.
Qed.

(** X10.  Right after a valid status update has been handled at time
    [now], and for as long as the slave serves nothing but timer ticks,
    the update is kept and sent again: any sequence of ticks leaves the
    state as the update left it, and if one of the ticks comes at or
    after [now + 10], the update is among the messages the ticks send
    reliably to the master. *)
Theorem statusUpdate_retried s update now framework key e ticks later :
  getFramework s (su_framework_id update) = Some framework ->
  getExecutor_task framework (ts_task_id (su_status update))
  = Some (key, e) ->
  In later ticks ->
  now + STATUS_UPDATE_RETRY_INTERVAL <= later ->
  exists s1 out1 out2,
    statusUpdate res_sub s update now = Done (s1, out1) /\
    run res_empty res_add res_sub s1 (map (fun t => (t, TIMEOUT)) ticks)
    = Done (s1, out2) /\
    In (Send (master s) (S2M_STATUS_UPDATE update true)) out2.
Proof.
  intros Hf He Hin Hlater.
  rewrite (statusUpdate_valid_eq _ _ _ Hf He).
  set (taskId := ts_task_id (su_status update)).
  set (deadline := now + STATUS_UPDATE_RETRY_INTERVAL) in *.
  set (f1 := set_updates _ _).
  set (s1 := store_framework s (su_framework_id update) f1).
  do 3 eexists. split; [reflexivity|].
  split; [apply run_ticks|].
  destruct (record_update_stored (updates framework) deadline taskId update)
    as (bucket & Hbucket & Hupdate).
  assert (Hdue : In (su_framework_id update, deadline, taskId, update)
                   (due s1 later)).
  { eapply due_stored; [apply getFramework_store | exact Hbucket
                       | exact Hupdate | exact Hlater]. }
  apply in_flat_map. exists later. split; [exact Hin|].
  apply in_map_iff. eexists. split; [|exact Hdue]. reflexivity.
Qed.

(** X11.  A timer tick changes nothing in the slave, sends only reliable
    StatusUpdates to the master, and what a tick sends at one time it
    sends again at any later time: nothing but an acknowledgement or the
    removal of the framework ends the retries. *)
Theorem timeout_monotone s now later :
  now <= later ->
  exists out out',
    timeout s now = Done (s, out) /\
    timeout s later = Done (s, out') /\
    incl out out' /\
    forall x,
      In x out' ->
      exists update, x = Send (master s) (S2M_STATUS_UPDATE update true).
Proof.
  intros Hle. rewrite !timeout_due. do 2 eexists.
  split; [reflexivity|]. split; [reflexivity|]. split.
  - intros x Hin. apply in_map_iff in Hin. destruct Hin as (y & <- & Hin).
    apply in_map_iff. exists y. split; [reflexivity|].
    now apply (due_mono s Hle).
  - intros x Hin. apply in_map_iff in Hin. destruct Hin as (y & <- & _).
    now eexists.
Qed.

(** *** What an acknowledgement leaves alone *)

Lemma acknowledge_keys taskId u :
  hashmap.keys (acknowledge (hashmap.keys u) taskId u) = hashmap.keys u.
Proof.
  rewrite acknowledge_first.
  destruct (find _ (hashmap.keys u)) as [d|] eqn:Hfind; [|reflexivity].
  apply find_some in Hfind. now apply hm_keys_put_in.
Qed.

Lemma acknowledge_other ks taskId u d other :
  other <> taskId ->
  hashmap.get other (hashmap.at_ d hashmap.empty (acknowledge ks taskId u))
  = hashmap.get other (hashmap.at_ d hashmap.empty u).
Proof.
  intros Hne. rewrite acknowledge_first.
  destruct (find _ ks) as [d0|]; [|reflexivity].
  destruct (Z.eq_dec d d0) as [->|Hd].
  - rewrite hm_at_put_same. now apply hm_get_erase_other.
  - now rewrite hm_at_put_other.
Qed.

(** X12.  An acknowledgement for a known framework sends nothing and
    touches only the stored updates of the acknowledged task: executors
    and scheduler pid are as before, the stored updates of every other
    task are as before, and the set of deadlines stays the same (a bucket
    that becomes empty is kept). *)
Theorem statusUpdateAcknowledged_frame s slaveId frameworkId taskId f :
  getFramework s frameworkId = Some f ->
  exists s' f',
    statusUpdateAcknowledged s slaveId frameworkId taskId = Done (s', []) /\
    getFramework s' frameworkId = Some f' /\
    executors f' = executors f /\ f_pid f' = f_pid f /\
    hashmap.keys (updates f') = hashmap.keys (updates f) /\
    (forall d other,
       other <> taskId ->
       hashmap.get other (hashmap.at_ d hashmap.empty (updates f'))
       = hashmap.get other (hashmap.at_ d hashmap.empty (updates f))) /\
    (forall other,
       other <> frameworkId ->
       getFramework s' other = getFramework s other).
Proof.
  intros Hf. erewrite statusUpdateAcknowledged_eq by exact Hf.
  do 2 eexists. split; [reflexivity|].
  split; [apply getFramework_store|]. simpl.
  do 2 (split; [reflexivity|]).
  split; [apply acknowledge_keys|].
  split.
  - intros d other Hne. now apply acknowledge_other.
  - intros other Hne. unfold getFramework. simpl.
    now apply hm_get_put_other.
Qed.

(** *** What a run never does *)

Lemma removeFramework_fields s key f kill :
  let s' := fst (removeFramework s key f kill) in
  statistics s' = statistics s /\ conf s' = conf s /\ reaper s' = reaper s.
Proof.
  unfold removeFramework.
  destruct (removeExecutors f (hashmap.values (executors f)) kill).
  now repeat split.
Qed.

Lemma serve_counters s now ev s' out :
  serve res_empty res_add res_sub s now ev = Done (s', out) ->
  stat_tasks (statistics s') = stat_tasks (statistics s) /\
  validStatusUpdates (statistics s') = validStatusUpdates (statistics s) /\
  invalidStatusUpdates (statistics s') = invalidStatusUpdates (statistics s)
  /\ conf s' = conf s /\ reaper s' = reaper s.
Proof.
  assert (Hremove : forall s0 key f kill s2 out2,
             removeFramework s0 key f kill = (s2, out2) ->
             statistics s2 = statistics s0 /\ conf s2 = conf s0 /\
             reaper s2 = reaper s0).
  { intros s0 key f kill s2 out2 E.
    change s2 with (fst (s2, out2)). rewrite <- E.
    apply removeFramework_fields. }
  destruct ev; simpl.
  - unfold newMasterDetected. now intros [= <- _].
  - unfold noMasterDetected. now intros [= <- _].
  - unfold registerReply. now intros [= <- _].
  - unfold reregisterReply. destruct (negb _); [discriminate|].
    now intros [= <- _].
  - unfold runTask.
    destruct (getExecutor _ _) as [e|]; simpl; [|discriminate].
    destruct (upid_unset (e_pid e)); [now intros [= <- _]|].
    destruct (addTask res_add e task); simpl; [|discriminate].
    now intros [= <- _].
  - unfold killTask.
    destruct (getFramework s framework_id) as [f|]; [|now intros [= <- _]].
    destruct (getExecutor_task f task_id) as [[key e]|];
      [|now intros [= <- _]].
    destruct (upid_unset (e_pid e)); now intros [= <- _].
  - unfold killFramework.
    destruct (getFramework s framework_id) as [f|]; [|now intros [= <- _]].
    intros E. injection E as E. apply Hremove in E.
    destruct E as (-> & -> & ->). now repeat split.
  - unfold schedulerMessage.
    destruct (getFramework s framework_id) as [f|]; [|now intros [= <- _]].
    destruct (getExecutor f executor_id) as [e|]; [|now intros [= <- _]].
    destruct (upid_unset (e_pid e)); now intros [= <- _].
  - unfold updateFramework.
    destruct (getFramework s framework_id); now intros [= <- _].
  - unfold statusUpdateAcknowledged.
    destruct (getFramework s framework_id); now intros [= <- _].
  - unfold registerExecutor.
    destruct (getFramework s framework_id) as [f|]; [|now intros [= <- _]].
    destruct (getExecutor f executor_id) as [e|]; [|now intros [= <- _]].
    destruct (negb (upid_unset (e_pid e))); [now intros [= <- _]|].
    destruct (flush res_add f _ _) as [[e1 outs]|]; simpl; [|discriminate].
    now intros [= <- _].
  - unfold statusUpdate.
    destruct (getFramework s _) as [f|]; [|now intros [= <- _]].
    destruct (getExecutor_task f _) as [[key e]|]; now intros [= <- _].
  - unfold executorMessage.
    destruct (getFramework s framework_id); now intros [= <- _].
  - unfold ping. now intros [= <- _].
  - unfold timeout. now intros [= <- _].
  - unfold exited.
    destruct (String.eqb from (master s)); [now intros [= <- _]|].
    destruct (String.eqb from (reaper s)); [discriminate|].
    now intros [= <- _].
  - unfold executorExited.
    destruct (getFramework s framework_id) as [f|]; [|now intros [= <- _]].
    destruct (getExecutor f executor_id) as [e|]; [|now intros [= <- _]].
    unfold removeExecutor.
    set (f1 := destroyExecutor f (e_id e)).
    destruct (Z.eqb (hashmap.size (executors f1)) 0).
    + destruct (removeFramework (store_framework s framework_id f1)
                  framework_id f1 true) as [s2 out3] eqn:E.
      intros [= <- _]. apply Hremove in E.
      destruct E as (-> & -> & ->). now repeat split.
    + now intros [= <- _].
Qed.

(** X13.  No run of the event loop counts a task or a status update: the
    per-state task counters and the counters of valid and of invalid
    status updates end every run with the values they had at its start
    (zero, from [initialize]); the configuration and the reaper's pid are
    not changed either. *)
Theorem run_counters evs : forall s s' out,
  run res_empty res_add res_sub s evs = Done (s', out) ->
  stat_tasks (statistics s') = stat_tasks (statistics s) /\
  validStatusUpdates (statistics s') = validStatusUpdates (statistics s) /\
  invalidStatusUpdates (statistics s') = invalidStatusUpdates (statistics s)
  /\ conf s' = conf s /\ reaper s' = reaper s.
Proof.
  induction evs as [|[now ev] evs IH]; intros s s' out Hrun.
  - simpl in Hrun. injection Hrun as <- _. now repeat split.
  - simpl in Hrun.
    destruct (serve res_empty res_add res_sub s now ev)
      as [[s1 out1]|] eqn:Hserve; [|discriminate].
    simpl in Hrun.
    destruct (run res_empty res_add res_sub s1 evs)
      as [[s2 out2]|] eqn:Hrest; [|discriminate].
    simpl in Hrun. injection Hrun as <- _.
    apply serve_counters in Hserve. apply IH in Hrest.
    destruct Hserve as (H1 & H2 & H3 & H4 & H5).
    destruct Hrest as (H1' & H2' & H3' & H4' & H5').
    repeat split; congruence.
Qed.

Lemma serve_no_framework s now ev s' out :
  frameworks s = [] ->
  serve res_empty res_add res_sub s now ev = Done (s', out) ->
  frameworks s' = [] /\ forallb (fun x => negb (calls_isolation x)) out = true.
Proof.
  intros Hnone.
  assert (Hf : forall key, getFramework s key = None)
    by (intros key; unfold getFramework; now rewrite Hnone).
  destruct ev; simpl.
  - unfold newMasterDetected. intros [= <- <-]. split; [exact Hnone|].
    simpl. now destruct (String.eqb (s_id s) "").
  - unfold noMasterDetected. now intros [= <- <-].
  - unfold registerReply. now intros [= <- <-].
  - unfold reregisterReply. destruct (negb _); [discriminate|].
    now intros [= <- <-].
  - unfold runTask. rewrite Hf. unfold getExecutor. simpl. discriminate.
  - unfold killTask. rewrite Hf. now intros [= <- <-].
  - unfold killFramework. rewrite Hf. now intros [= <- <-].
  - unfold schedulerMessage. rewrite Hf. now intros [= <- <-].
  - unfold updateFramework. rewrite Hf. now intros [= <- <-].
  - unfold statusUpdateAcknowledged. rewrite Hf. now intros [= <- <-].
  - unfold registerExecutor. rewrite Hf. now intros [= <- <-].
  - unfold statusUpdate. rewrite Hf. now intros [= <- <-].
  - unfold executorMessage. rewrite Hf. now intros [= <- <-].
  - unfold ping. now intros [= <- <-].
  - unfold timeout. rewrite Hnone. now intros [= <- <-].
  - unfold exited.
    destruct (String.eqb from (master s)); [now intros [= <- <-]|].
    destruct (String.eqb from (reaper s)); [discriminate|].
    now intros [= <- <-].
  - unfold executorExited. rewrite Hf. now intros [= <- <-].
Qed.

(** X14.  From start-up, a run of the event loop that does not abort
    never registers a framework and never calls the isolation module (no
    [launchExecutor], [killExecutor] or [resourcesChanged]): the only way
    to create a framework or an executor is the branch of [runTask] that
    dereferences the null executor. *)
Theorem run_initial_no_framework conf info reaper evs s' out :
  run res_empty res_add res_sub (initial conf info reaper) evs
  = Done (s', out) ->
  frameworks s' = [] /\
  forall x, In x out -> calls_isolation x = false.
Proof.
  assert (Hgen : forall evs s s' out,
             frameworks s = [] ->
             run res_empty res_add res_sub s evs = Done (s', out) ->
             frameworks s' = [] /\
             forallb (fun x => negb (calls_isolation x)) out = true).
  { clear. intros evs.
    induction evs as [|[now ev] evs IH]; intros s s' out Hnone Hrun.
    - simpl in Hrun. injection Hrun as <- <-. now split.
    - simpl in Hrun.
      destruct (serve res_empty res_add res_sub s now ev)
        as [[s1 out1]|] eqn:Hserve; [|discriminate].
      simpl in Hrun.
      destruct (run res_empty res_add res_sub s1 evs)
        as [[s2 out2]|] eqn:Hrest; [|discriminate].
      simpl in Hrun. injection Hrun as <- <-.
      destruct (serve_no_framework _ _ _ Hnone Hserve) as [Hnone1 Hout1].
      destruct (IH _ _ _ Hnone1 Hrest) as [Hnone2 Hout2].
      split; [exact Hnone2|]. rewrite forallb_app. now rewrite Hout1, Hout2. }
  intros Hrun.
  destruct (Hgen evs (initial conf info reaper) s' out eq_refl Hrun)
    as [Hnone Hout].
  split; [exact Hnone|]. intros x Hin.
  rewrite forallb_forall in Hout. apply Hout in Hin.
  now destruct (calls_isolation x).
Qed.

(** *** Acknowledgements in the states the slave reaches *)





(** *** The search for a work directory *)

Lemma probe_cases opendir dir n : forall i,
  (exists N,
     i <= N < i + Z.of_nat n /\
     probe opendir dir n i = dir +++ itoa N /\
     no_such_dir (opendir (dir +++ itoa N)) = true /\
     forall j, i <= j < N -> no_such_dir (opendir (dir +++ itoa j)) = false)
  \/
  (probe opendir dir n i = dir /\
   forall j,
     i <= j < i + Z.of_nat n ->
     no_such_dir (opendir (dir +++ itoa j)) = false).
Proof.
  induction n as [|n IH]; intros i.
  - right. split; [reflexivity|]. intros j Hj. simpl in Hj. lia.
  - cbn [probe].
    destruct (no_such_dir (opendir (dir +++ itoa i))) eqn:Hi.
    + left. exists i. split; [lia|]. split; [reflexivity|].
      split; [exact Hi|]. intros j Hj. lia.
    + destruct (IH (i + 1)) as [(N & HN & Hp & Hfree & Hbusy)|[Hp Hbusy]].
      * left. exists N. split; [lia|]. split; [exact Hp|].
        split; [exact Hfree|].
        intros j Hj. destruct (Z.eq_dec j i) as [->|Hne]; [exact Hi|].
        apply Hbusy. lia.
      * right. split; [exact Hp|]. intros j Hj.
        destruct (Z.eq_dec j i) as [->|Hne]; [exact Hi|].
        apply Hbusy. lia.
Qed.

(** X20.  [getUniqueWorkDirectory] has two outcomes.  Either it returns
    the executor's directory followed by the least [N] below INT_MAX that
    [opendir] reports as missing (ENOENT); or all INT_MAX probes answered
    otherwise (the directory exists, or [opendir] failed for another
    reason) and it returns the bare parent directory, ending in a slash
    and common to every launch of that executor. *)
Theorem getUniqueWorkDirectory_cases s opendir frameworkId executorId :
  let dir :=
    workDir (conf s) +++ "/slave-" +++ s_id s
      +++ "/fw-" +++ frameworkId +++ "-" +++ executorId +++ "/" in
  let result := getUniqueWorkDirectory s opendir frameworkId executorId in
  (exists N,
     0 <= N < INT_MAX /\
     result = dir +++ itoa N /\
     no_such_dir (opendir result) = true /\
     forall j, 0 <= j < N -> no_such_dir (opendir (dir +++ itoa j)) = false)
  \/
  (result = dir /\
   forall j,
     0 <= j < INT_MAX -> no_such_dir (opendir (dir +++ itoa j)) = false).
Proof.
  intros dir result. subst result. unfold getUniqueWorkDirectory. fold dir.
  assert (Hmax : Z.of_nat (Z.to_nat INT_MAX) = INT_MAX)
    by (apply Z2Nat.id; unfold INT_MAX; lia).
  destruct (probe_cases opendir dir (Z.to_nat INT_MAX) 0)
    as [(N & HN & Hp & Hfree & Hbusy)|[Hp Hbusy]].
  - left. exists N. rewrite Hmax in HN. rewrite Hp.
    split; [lia|]. split; [reflexivity|]. split; [exact Hfree|].
    exact Hbusy.
  - right. split; [exact Hp|]. intros j Hj. apply Hbusy. lia.
Qed.

(** *** What a status update leaves alone *)

Lemma updateTaskState_other e taskId state other :
  other <> taskId ->
  hashmap.get other (launchedTasks (updateTaskState e taskId state))
  = hashmap.get other (launchedTasks e).
Proof.
  intros Hne. unfold updateTaskState.
  destruct (hashmap.get taskId (launchedTasks e)); simpl; [|reflexivity].
  now apply hm_get_put_other.
Qed.

(** X21.  A valid status update touches only its own task: in the owning
    executor every other task, launched or queued, is as before, the
    executor keeps its pid, and every other executor and every other
    framework is as before. *)
Theorem statusUpdate_frame s update now framework key e :
  let frameworkId := su_framework_id update in
  let taskId := ts_task_id (su_status update) in
  getFramework s frameworkId = Some framework ->
  getExecutor_task framework taskId = Some (key, e) ->
  exists s' out framework' e',
    statusUpdate res_sub s update now = Done (s', out) /\
    getFramework s' frameworkId = Some framework' /\
    getExecutor framework' key = Some e' /\
    e_pid e' = e_pid e /\
    (forall other,
       other <> taskId ->
       hashmap.get other (launchedTasks e')
       = hashmap.get other (launchedTasks e) /\
       hashmap.get other (queuedTasks e')
       = hashmap.get other (queuedTasks e)) /\
    (forall other,
       other <> key ->
       getExecutor framework' other = getExecutor framework other) /\
    (forall other,
       other <> frameworkId ->
       getFramework s' other = getFramework s other).
Proof.
  intros frameworkId taskId Hf He.
  rewrite (statusUpdate_valid_eq _ _ _ Hf He).
  fold taskId. fold frameworkId.
  set (state := ts_state (su_status update)).
  set (e1 := updateTaskState e taskId state).
  set (e' := if is_terminal state then removeTask res_sub e1 taskId else e1).
  destruct (updateTaskState_fixed e taskId state)
    as (_ & _ & Hpid1 & _ & Hq1).
  fold e1 in Hpid1, Hq1.
  do 4 eexists. split; [reflexivity|].
  split; [apply getFramework_store|].
  split; [unfold getExecutor; simpl; apply hm_get_put_same|].
  split; [|split; [|split]].
  - subst e'. destruct (is_terminal state); [|exact Hpid1].
    destruct (removeTask_fixed e1 taskId) as (_ & _ & Hpid2). congruence.
  - intros other Hne. subst e'. destruct (is_terminal state).
    + rewrite removeTask_other_launched, removeTask_other_queued
        by exact Hne.
      subst e1. rewrite updateTaskState_other by exact Hne.
      now rewrite Hq1.
    + subst e1. rewrite updateTaskState_other by exact Hne.
      now rewrite Hq1.
  - intros other Hne. unfold getExecutor. simpl.
    now apply hm_get_put_other.
  - intros other Hne. unfold getFramework. simpl.
    now apply hm_get_put_other.
Qed.

(** *** Registration of an executor, composed *)

Lemma registerExecutor_unregistered s from frameworkId executorId f e :
  getFramework s frameworkId = Some f ->
  getExecutor f executorId = Some e ->
  e_pid e = "" ->
  queue_ok e ->
  exists e1,
    registerExecutor res_add s from frameworkId executorId
    = Done (store_framework s frameworkId
              (store_executor f executorId
                 (set_queuedTasks e1 hashmap.empty)),
            ResourcesChanged (f_id f) (f_info f) (e_info e) (e_resources e)
            :: Send from (register_reply s f (set_pid e from))
            :: map (fun task =>
                      Send from
                        (S2E_RUN_TASK (f_info f) (f_id f) (f_pid f) task))
                 (hashmap.values (queuedTasks e))) /\
    e_pid e1 = from /\
    (forall task,
       In task (hashmap.values (queuedTasks e)) ->
       hashmap.get (td_task_id task) (launchedTasks e1)
       = Some (new_Task e task)).
Proof.
  intros Hf He Hpid Hok.
  destruct (queue_ok_flushable Hok Hpid) as [Hnd Hfresh].
  unfold registerExecutor. rewrite Hf, He.
  apply upid_unset_true in Hpid. rewrite Hpid. simpl negb. cbv iota.
  destruct (flush_spec f (hashmap.values (queuedTasks e))
              (set_pid e from) Hnd Hfresh)
    as (e1 & Hflush & _ & _ & Hpid1 & _ & _ & _ & _ & Hin & _).
  simpl queuedTasks. rewrite Hflush. simpl.
  exists e1. split; [reflexivity|]. split; [exact Hpid1|].
  intros task Hin'. exact (Hin task Hin').
Qed.

(** X22.  Whatever events the slave has served, from a state whose
    queues are in order, an executor's registration never aborts the
    slave: the CHECK of [addTask], which the flush of the queue runs into
    for a task id that is already launched, cannot fail there. *)
Theorem registerExecutor_never_aborts evs s s1 out from frameworkId
    executorId :
  Forall (fun ev => has_sender (snd ev)) evs ->
  queues_ok s ->
  run res_empty res_add res_sub s evs = Done (s1, out) ->
  exists s2 out2,
    registerExecutor res_add s1 from frameworkId executorId
    = Done (s2, out2).
Proof.
  intros Hall Hs Hrun.
  assert (Hs1 : queues_ok s1) by (eapply run_queues_ok; eassumption).
  destruct (getFramework s1 frameworkId) as [f|] eqn:Hf;
    [|unfold registerExecutor; rewrite Hf; now do 2 eexists].
  destruct (getExecutor f executorId) as [e|] eqn:He;
    [|unfold registerExecutor; rewrite Hf, He; now do 2 eexists].
  destruct (upid_unset (e_pid e)) eqn:Hpid;
    [|unfold registerExecutor; rewrite Hf, He, Hpid; now do 2 eexists].
  apply upid_unset_true in Hpid.
  assert (Hok : queue_ok e).
  { apply hm_get_In in Hf. apply hm_get_In in He.
    exact (Hs1 _ _ Hf _ _ He). }
  destruct (@registerExecutor_unregistered s1 from frameworkId executorId
              f e Hf He Hpid Hok)
    as (e1 & Heq & _).
  rewrite Heq. now do 2 eexists.
Qed.

(** X23.  Registration opens the way from the scheduler to the executor:
    a framework message for an executor that has not registered is
    dropped and counted as invalid, and once the executor has registered
    the same message is sent to the pid it registered from and counted as
    valid. *)
Theorem registerExecutor_then_message s from frameworkId executorId f e
    slaveId data :
  getFramework s frameworkId = Some f ->
  getExecutor f executorId = Some e ->
  e_pid e = "" ->
  queue_ok e ->
  from <> "" ->
  exists s1 out1,
    registerExecutor res_add s from frameworkId executorId = Done (s1, out1)
    /\ schedulerMessage s slaveId frameworkId executorId data
       = Done (count_invalidFrameworkMessage s, []) /\
    schedulerMessage s1 slaveId frameworkId executorId data
    = Done (count_validFrameworkMessage s1,
            [Send from
               (S2E_FRAMEWORK_MESSAGE slaveId frameworkId executorId data)]).
Proof.
  intros Hf He Hpid Hok Hfrom.
  destruct (@registerExecutor_unregistered s from frameworkId executorId
              f e Hf He Hpid Hok)
    as (e1 & Heq & Hpid1 & _).
  rewrite Heq. do 2 eexists. split; [reflexivity|]. split.
  - unfold schedulerMessage. rewrite Hf, He.
    apply upid_unset_true in Hpid. now rewrite Hpid.
  - unfold schedulerMessage. rewrite getFramework_store.
    unfold getExecutor. simpl. rewrite hm_get_put_same. simpl.
    rewrite Hpid1. apply upid_unset_false in Hfrom. now rewrite Hfrom.
Qed.

(** X24.  A task queued for an executor that is still starting is
    launched when the executor registers: [runTask] sends nothing, and
    the registration that follows sends the executor RunTask for that
    task (with the framework's info, id and scheduler pid) and leaves the
    task launched in state TASK_STARTING and the queue empty. *)
Theorem runTask_then_register s frameworkInfo frameworkId pid task opendir
    child id_read from f e :
  let executorId :=
    match td_executor task with
    | Some info => ei_executor_id info
    | None => ei_executor_id (fi_executor (f_info f))
    end in
  getFramework s frameworkId = Some f ->
  getExecutor f executorId = Some e ->
  e_pid e = "" ->
  queue_ok e ->
  exists s1 s2 out f2 e2 launched,
    runTask res_empty res_add s frameworkInfo frameworkId pid task opendir
      child id_read
    = Done (s1, []) /\
    registerExecutor res_add s1 from frameworkId executorId = Done (s2, out)
    /\ In (Send from (S2E_RUN_TASK (f_info f) (f_id f) (f_pid f) task)) out
    /\ getFramework s2 frameworkId = Some f2 /\
    getExecutor f2 executorId = Some e2 /\
    e_pid e2 = from /\
    queuedTasks e2 = hashmap.empty /\
    hashmap.get (td_task_id task) (launchedTasks e2) = Some launched /\
    t_state launched = TASK_STARTING /\
    t_resources launched = td_resources task.
Proof.
  intros executorId Hf He Hpid Hok.
  unfold runTask. rewrite Hf. fold executorId. rewrite He.
  pose proof Hpid as Hunset. apply upid_unset_true in Hunset.
  rewrite Hunset.
  set (f1 := store_executor f executorId (queue_task e task)).
  set (s1 := store_framework s frameworkId f1).
  assert (Hf1 : getFramework s1 frameworkId = Some f1)
    by apply getFramework_store.
  assert (He1 : getExecutor f1 executorId = Some (queue_task e task))
    by (unfold getExecutor; simpl; apply hm_get_put_same).
  assert (Hok1 : queue_ok (queue_task e task))
    by now apply queue_ok_queue_task.
  assert (Hin : In task (hashmap.values (queuedTasks (queue_task e task)))).
  { unfold hashmap.values. simpl.
    change task with (snd (td_task_id task, task)) at 1.
    apply in_map. apply hm_get_In. apply hm_get_put_same. }
  destruct (@registerExecutor_unregistered s1 from frameworkId executorId
              f1 (queue_task e task) Hf1 He1 Hpid Hok1)
    as (e1 & Heq & Hpid1 & Hlaunched).
  exists s1. do 5 eexists. split; [reflexivity|].
  split; [exact Heq|].
  split.
  { right. right. apply in_map_iff. exists task. now split. }
  split; [apply getFramework_store|].
  split; [unfold getExecutor; simpl; apply hm_get_put_same|].
  split; [exact Hpid1|].
  split; [reflexivity|].
  split; [simpl; apply (Hlaunched task Hin)|].
  now split.
Qed.

(** *** What a step does to the registry *)

Lemma hm_get_erase_Some (K V : Type) `{EqKey K} (k k' : K) (v : V) m :
  hashmap.get k' (hashmap.erase k m) = Some v -> hashmap.get k' m = Some v.
Proof.
  destruct (keqb_spec k' k) as [->|Hne].
  - now rewrite hm_get_erase_same.
  - now rewrite hm_get_erase_other.
Qed.

Lemma continues_refl e : continues e e.
Proof. now repeat split. Qed.

Lemma continues_trans e1 e2 e3 :
  continues e1 e2 -> continues e2 e3 -> continues e1 e3.
Proof.
  intros (A1 & A2 & A3 & A4 & A5) (B1 & B2 & B3 & B4 & B5).
  repeat split; try congruence.
  intros Hpid. rewrite <- (A5 Hpid). apply B5. now rewrite (A5 Hpid).
Qed.

Lemma framework_continues_refl f : framework_continues f f.
Proof.
  split; [reflexivity|]. split; [reflexivity|].
  intros key e He. exists e. split; [exact He | apply continues_refl].
Qed.

Lemma framework_continues_trans f1 f2 f3 :
  framework_continues f1 f2 -> framework_continues f2 f3 ->
  framework_continues f1 f3.
Proof.
  intros (A1 & A2 & A3) (B1 & B2 & B3).
  split; [congruence|]. split; [congruence|].
  intros key e3 He3. destruct (B3 key e3 He3) as (e2 & He2 & H23).
  destruct (A3 key e2 He2) as (e1 & He1 & H12).
  exists e1. split; [exact He1 | now apply (continues_trans H12)].
Qed.

Lemma registry_continues_refl s : registry_continues s s.
Proof.
  intros key f Hf. exists f. split; [exact Hf|].
  apply framework_continues_refl.
Qed.

Lemma registry_continues_trans s1 s2 s3 :
  registry_continues s1 s2 -> registry_continues s2 s3 ->
  registry_continues s1 s3.
Proof.
  intros H12 H23 key f3 Hf3. destruct (H23 key f3 Hf3) as (f2 & Hf2 & B).
  destruct (H12 key f2 Hf2) as (f1 & Hf1 & A).
  exists f1. split; [exact Hf1 | now apply (framework_continues_trans A)].
Qed.

Lemma getExecutor_task_get f taskId key e :
  hashmap.wf (executors f) ->
  getExecutor_task f taskId = Some (key, e) ->
  getExecutor f key = Some e.
Proof.
  intros Hwf He. apply getExecutor_task_Some in He.
  destruct He as [Hin _]. now apply hm_In_get.
Qed.

(** The step of a handler that replaces one executor of one framework. *)
Lemma step_store s k f key e e1 f1 :
  registry_ok s ->
  getFramework s k = Some f ->
  getExecutor f key = Some e ->
  continues e e1 ->
  f_id f1 = f_id f -> f_info f1 = f_info f ->
  executors f1 = hashmap.put key e1 (executors f) ->
  registry_ok (store_framework s k f1) /\
  registry_continues s (store_framework s k f1).
Proof.
  intros [Hwf Hall] Hf He Hc Hid Hinfo Hex.
  destruct (Hall k f (hm_get_In _ _ Hf)) as (Hfid & Hewf & Heids).
  split.
  - split; [simpl; now apply hm_wf_put|].
    intros key' f' Hin. simpl in Hin. apply hm_In_put in Hin.
    destruct Hin as [[-> ->]|Hin]; [|now apply Hall].
    split; [congruence|]. rewrite Hex.
    split; [now apply hm_wf_put|].
    intros ekey e0 Hin. apply hm_In_put in Hin.
    destruct Hin as [[-> ->]|Hin]; [|now apply Heids].
    destruct Hc as (Heq & _). rewrite Heq.
    apply Heids. now apply hm_get_In.
  - intros fk f' Hget. unfold getFramework in Hget. simpl in Hget.
    destruct (String.eqb_spec fk k) as [->|Hne].
    + rewrite hm_get_put_same in Hget. injection Hget as <-.
      exists f. split; [exact Hf|].
      split; [exact Hid|]. split; [exact Hinfo|].
      intros ek e' Hge. unfold getExecutor in Hge. rewrite Hex in Hge.
      destruct (String.eqb_spec ek key) as [->|Hne].
      * rewrite hm_get_put_same in Hge. injection Hge as <-.
        now exists e.
      * rewrite hm_get_put_other in Hge by exact Hne.
        exists e'. split; [exact Hge | apply continues_refl].
    + rewrite hm_get_put_other in Hget by exact Hne.
      exists f'. split; [exact Hget | apply framework_continues_refl].
Qed.

(** The step of a handler that changes a framework but not its
    executors, or removes executors from it. *)
Lemma step_shrink s k f f1 :
  registry_ok s ->
  getFramework s k = Some f ->
  f_id f1 = f_id f -> f_info f1 = f_info f ->
  hashmap.wf (executors f1) ->
  (forall ekey e, In (ekey, e) (executors f1) -> In (ekey, e) (executors f))
  ->
  registry_ok (store_framework s k f1) /\
  registry_continues s (store_framework s k f1).
Proof.
  intros [Hwf Hall] Hf Hid Hinfo Hwf1 Hsub.
  destruct (Hall k f (hm_get_In _ _ Hf)) as (Hfid & Hewf & Heids).
  split.
  - split; [simpl; now apply hm_wf_put|].
    intros key' f' Hin. simpl in Hin. apply hm_In_put in Hin.
    destruct Hin as [[-> ->]|Hin]; [|now apply Hall].
    split; [congruence|]. split; [exact Hwf1|].
    intros ekey e0 Hin. apply Heids. now apply Hsub.
  - intros fk f' Hget. unfold getFramework in Hget. simpl in Hget.
    destruct (String.eqb_spec fk k) as [->|Hne].
    + rewrite hm_get_put_same in Hget. injection Hget as <-.
      exists f. split; [exact Hf|].
      split; [exact Hid|]. split; [exact Hinfo|].
      intros ek e' Hge. exists e'. split; [|apply continues_refl].
      apply hm_In_get; [exact Hewf|]. apply Hsub. now apply hm_get_In.
    + rewrite hm_get_put_other in Hget by exact Hne.
      exists f'. split; [exact Hget | apply framework_continues_refl].
Qed.

Lemma destroyExecutor_shrinks f executorId :
  f_id (destroyExecutor f executorId) = f_id f /\
  f_info (destroyExecutor f executorId) = f_info f /\
  (hashmap.wf (executors f) ->
   hashmap.wf (executors (destroyExecutor f executorId))) /\
  forall ekey e,
    In (ekey, e) (executors (destroyExecutor f executorId)) ->
    In (ekey, e) (executors f).
Proof.
  unfold destroyExecutor.
  destruct (hashmap.contains executorId (executors f)); simpl.
  - split; [reflexivity|]. split; [reflexivity|].
    split; [apply hm_wf_erase|]. intros ekey e. apply hm_In_erase.
  - split; [reflexivity|]. split; [reflexivity|]. split; trivial.
Qed.

Lemma removeExecutors_shrinks es : forall f kill,
  let f' := fst (removeExecutors f es kill) in
  f_id f' = f_id f /\ f_info f' = f_info f /\
  (hashmap.wf (executors f) -> hashmap.wf (executors f')) /\
  forall ekey e, In (ekey, e) (executors f') -> In (ekey, e) (executors f).
Proof.
  induction es as [|e es IH]; intros f kill; simpl.
  { split; [reflexivity|]. split; [reflexivity|]. split; trivial. }
  specialize (IH (destroyExecutor f (e_id e)) kill).
  destruct (destroyExecutor_shrinks f (e_id e)) as (A1 & A2 & A3 & A4).
  destruct (removeExecutors (destroyExecutor f (e_id e)) es kill)
    as [f' out].
  simpl in *. destruct IH as (B1 & B2 & B3 & B4).
  split; [congruence|]. split; [congruence|]. split; auto.
Qed.

Lemma step_remove s k f kill :
  registry_ok s ->
  getFramework s k = Some f ->
  registry_ok (fst (removeFramework s k f kill)) /\
  registry_continues s (fst (removeFramework s k f kill)).
Proof.
  intros Hs Hf. unfold removeFramework.
  destruct (removeExecutors_shrinks (hashmap.values (executors f)) f kill)
    as (A1 & A2 & A3 & A4).
  destruct (removeExecutors f (hashmap.values (executors f)) kill)
    as [f1 out].
  simpl in A1, A2, A3, A4.
  assert (Hwf1 : hashmap.wf (executors f1)).
  { apply A3. destruct Hs as [_ Hall].
    now destruct (Hall k f (hm_get_In _ _ Hf)) as (_ & Hewf & _). }
  destruct (@step_shrink s k f f1 Hs Hf A1 A2 Hwf1 A4) as [[Hwf Hall] Hc].
  simpl fst. split.
  - split; [simpl; now apply hm_wf_erase|].
    intros key f' Hin. simpl in Hin. apply hm_In_erase in Hin.
    now apply Hall.
  - intros key f' Hget. apply Hc. unfold getFramework in *. simpl in *.
    eapply hm_get_erase_Some. exact Hget.
Qed.

Lemma step_fields s s' :
  frameworks s' = frameworks s ->
  registry_ok s -> registry_ok s' /\ registry_continues s s'.
Proof.
  intros Heq Hs. split.
  - unfold registry_ok. now rewrite Heq.
  - intros key f Hf. unfold getFramework in Hf. rewrite Heq in Hf.
    exists f. split; [exact Hf | apply framework_continues_refl].
Qed.

Lemma addTask_continues e task e1 :
  addTask res_add e task = Done e1 -> continues e e1.
Proof.
  unfold addTask.
  destruct (hashmap.contains (td_task_id task) (launchedTasks e)); simpl;
    [discriminate|].
  intros [= <-]. now repeat split.
Qed.

Lemma flush_continues framework tasks : forall e e1 outs,
  flush res_add framework e tasks = Done (e1, outs) -> continues e e1.
Proof.
  induction tasks as [|task rest IH]; intros e e1 outs; simpl.
  - intros [= <- _]. apply continues_refl.
  - destruct (addTask res_add e task) as [e2|] eqn:Hadd; simpl;
      [|discriminate].
    destruct (flush res_add framework e2 rest) as [[e3 outs3]|] eqn:Hrest;
      simpl; [|discriminate].
    intros [= <- _]. apply addTask_continues in Hadd. apply IH in Hrest.
    now apply (continues_trans Hadd).
Qed.

Lemma removeTask_continues e taskId :
  continues e (removeTask res_sub e taskId).
Proof.
  unfold removeTask. simpl.
  destruct (hashmap.get taskId (launchedTasks e)); now repeat split.
Qed.

Lemma updateTaskState_continues e taskId state :
  continues e (updateTaskState e taskId state).
Proof.
  unfold updateTaskState.
  destruct (hashmap.get taskId (launchedTasks e)); now repeat split.
Qed.

Lemma serve_registry s now ev s' out :
  registry_ok s ->
  serve res_empty res_add res_sub s now ev = Done (s', out) ->
  registry_ok s' /\ registry_continues s s'.
Proof.
  intros Hs.
  assert (Hwfe : forall k f,
             getFramework s k = Some f -> hashmap.wf (executors f)).
  { intros k f Hf. destruct Hs as [_ Hall].
    now destruct (Hall k f (hm_get_In _ _ Hf)) as (_ & Hewf & _). }
  destruct ev; simpl.
  - unfold newMasterDetected. intros [= <- _]. now apply step_fields.
  - unfold noMasterDetected. intros [= <- _]. now apply step_fields.
  - unfold registerReply. intros [= <- _]. now apply step_fields.
  - unfold reregisterReply. destruct (negb _); [discriminate|].
    intros [= <- _]. now apply step_fields.
  - (* runTask *)
    unfold runTask.
    destruct (getFramework s framework_id) as [f|] eqn:Hf;
      [|simpl; discriminate].
    destruct (getExecutor f _) as [e|] eqn:He; simpl; [|discriminate].
    destruct (upid_unset (e_pid e)).
    + intros [= <- _].
      eapply step_store; try eassumption; try reflexivity.
      now repeat split.
    + destruct (addTask res_add e task) as [e1|] eqn:Hadd; simpl;
        [|discriminate].
      intros [= <- _].
      eapply step_store; try eassumption; try reflexivity.
      now apply addTask_continues in Hadd.
  - (* killTask *)
    unfold killTask.
    destruct (getFramework s framework_id) as [f|] eqn:Hf;
      [|intros [= <- _]; now apply step_fields].
    destruct (getExecutor_task f task_id) as [[key e]|] eqn:He;
      [|intros [= <- _]; now apply step_fields].
    apply getExecutor_task_get in He; [|now apply (Hwfe framework_id)].
    destruct (upid_unset (e_pid e));
      [|intros [= <- _]; now apply step_fields].
    intros [= <- _].
    eapply step_store; try eassumption; try reflexivity.
    apply removeTask_continues.
  - (* killFramework *)
    unfold killFramework.
    destruct (getFramework s framework_id) as [f|] eqn:Hf;
      [|intros [= <- _]; now apply step_fields].
    intros E. injection E as E.
    change s' with (fst (s', out)). rewrite <- E.
    now apply step_remove.
  - (* schedulerMessage *)
    unfold schedulerMessage.
    destruct (getFramework s framework_id) as [f|];
      [|intros [= <- _]; now apply step_fields].
    destruct (getExecutor f executor_id) as [e|];
      [|intros [= <- _]; now apply step_fields].
    destruct (upid_unset (e_pid e)); intros [= <- _];
      now apply step_fields.
  - (* updateFramework *)
    unfold updateFramework.
    destruct (getFramework s framework_id) as [f|] eqn:Hf;
      [|intros [= <- _]; now apply step_fields].
    intros [= <- _].
    apply (@step_shrink s framework_id f (set_f_pid f pid) Hs Hf
             eq_refl eq_refl (Hwfe _ _ Hf)).
    trivial.
  - (* statusUpdateAcknowledged *)
    unfold statusUpdateAcknowledged.
    destruct (getFramework s framework_id) as [f|] eqn:Hf;
      [|intros [= <- _]; now apply step_fields].
    intros [= <- _].
    apply (@step_shrink s framework_id f (set_updates f _) Hs Hf
             eq_refl eq_refl (Hwfe _ _ Hf)).
    trivial.
  - (* registerExecutor *)
    unfold registerExecutor.
    destruct (getFramework s framework_id) as [f|] eqn:Hf;
      [|intros [= <- _]; now apply step_fields].
    destruct (getExecutor f executor_id) as [e|] eqn:He;
      [|intros [= <- _]; now apply step_fields].
    destruct (upid_unset (e_pid e)) eqn:Hpid; simpl negb; cbv iota;
      [|intros [= <- _]; now apply step_fields].
    destruct (flush res_add f _ _) as [[e1 outs]|] eqn:Hflush; simpl;
      [|discriminate].
    intros [= <- _].
    eapply step_store; try eassumption; try reflexivity.
    apply flush_continues in Hflush.
    apply upid_unset_true in Hpid.
    assert (H0 : continues e (set_pid e from)).
    { repeat split. intros Hset. contradiction. }
    assert (H1 : continues e1 (set_queuedTasks e1 hashmap.empty))
      by now repeat split.
    exact (continues_trans (continues_trans H0 Hflush) H1).
  - (* statusUpdate *)
    unfold statusUpdate.
    destruct (getFramework s _) as [f|] eqn:Hf;
      [|intros [= <- _]; now apply step_fields].
    destruct (getExecutor_task f _) as [[key e]|] eqn:He;
      [|intros [= <- _]; now apply step_fields].
    apply getExecutor_task_get in He; [|eapply Hwfe; exact Hf].
    intros [= <- _].
    eapply step_store; try eassumption; try reflexivity.
    destruct (is_terminal _).
    + eapply continues_trans;
        [apply updateTaskState_continues | apply removeTask_continues].
    + apply updateTaskState_continues.
  - (* executorMessage *)
    unfold executorMessage.
    destruct (getFramework s framework_id); intros [= <- _];
      now apply step_fields.
  - unfold ping. intros [= <- _]. now apply step_fields.
  - unfold timeout. intros [= <- _]. now apply step_fields.
  - unfold exited.
    destruct (String.eqb from (master s));
      [intros [= <- _]; now apply step_fields|].
    destruct (String.eqb from (reaper s)); [discriminate|].
    intros [= <- _]. now apply step_fields.
  - (* executorExited *)
    unfold executorExited.
    destruct (getFramework s framework_id) as [f|] eqn:Hf;
      [|intros [= <- _]; now apply step_fields].
    destruct (getExecutor f executor_id) as [e|] eqn:He;
      [|intros [= <- _]; now apply step_fields].
    unfold removeExecutor.
    set (f1 := destroyExecutor f (e_id e)).
    destruct (destroyExecutor_shrinks f (e_id e)) as (A1 & A2 & A3 & A4).
    fold f1 in A1, A2, A3, A4.
    assert (Hwf1 : hashmap.wf (executors f1))
      by (apply A3; now apply (Hwfe framework_id)).
    destruct (@step_shrink s framework_id f f1 Hs Hf A1 A2 Hwf1 A4)
      as [Hs1 Hc1].
    destruct (Z.eqb (hashmap.size (executors f1)) 0).
    + destruct (removeFramework (store_framework s framework_id f1)
                  framework_id f1 true) as [s2 out3] eqn:E.
      intros [= <- _].
      destruct (@step_remove (store_framework s framework_id f1)
                  framework_id f1 true Hs1
                  (getFramework_store s framework_id f1)) as [Hs2 Hc2].
      rewrite E in Hs2, Hc2. simpl in Hs2, Hc2.
      split; [exact Hs2 | now apply (registry_continues_trans Hc1)].
    + intros [= <- _]. now split.
Qed.

Lemma run_registry evs : forall s s' out,
  registry_ok s ->
  run res_empty res_add res_sub s evs = Done (s', out) ->
  registry_ok s' /\ registry_continues s s'.
Proof.
  induction evs as [|[now ev] evs IH]; intros s s' out Hs Hrun.
  - simpl in Hrun. injection Hrun as <- _.
    split; [exact Hs | apply registry_continues_refl].
  - simpl in Hrun.
    destruct (serve res_empty res_add res_sub s now ev)
      as [[s1 out1]|] eqn:Hserve; [|discriminate].
    simpl in Hrun.
    destruct (run res_empty res_add res_sub s1 evs)
      as [[s2 out2]|] eqn:Hrest; [|discriminate].
    simpl in Hrun. injection Hrun as <- _.
    destruct (serve_registry _ _ Hs Hserve) as [Hs1 Hc1].
    destruct (IH _ _ _ Hs1 Hrest) as [Hs2 Hc2].
    split; [exact Hs2 | now apply (registry_continues_trans Hc1)].
Qed.

(** X25.  The tables stay in order: if the framework table and every
    executor table have one entry per key, every framework is stored
    under its own id and every executor under its own id, then the same
    holds after any run of the event loop. *)
Theorem run_registry_ok evs s s' out :
  registry_ok s ->
  run res_empty res_add res_sub s evs = Done (s', out) ->
  registry_ok s'.
Proof. intros Hs Hrun. now destruct (run_registry _ Hs Hrun). Qed.

(** X26.  No run of the event loop creates a framework or an executor,
    and none changes what identifies one: every framework found after
    the run was there before it under the same key, with the same id and
    info, and every executor of it was there before under the same key,
    with the same id, info, framework id and directory, and with the same
    pid if its pid had been set (a registered executor is never re-pointed
    to another process). *)
Theorem run_registry_continues evs s s' out :
  registry_ok s ->
  run res_empty res_add res_sub s evs = Done (s', out) ->
  registry_continues s s'.
Proof. intros Hs Hrun. now destruct (run_registry _ Hs Hrun). Qed.

(** *** The tables of a framework and of an executor *)

(** X27.  [createExecutor] under an id the framework does not have yet,
    when the constructor's read of its [id] yields a value, stores a new
    executor under the id of the given info: unregistered, with nothing
    queued or launched, with the given info and directory, and with that
    value (whatever it is) as its own [id]; the other executors are left
    alone.  [destroyExecutor] of the info's id then gives back the
    framework as it was, and a second [createExecutor] under that id
    trips the CHECK.  When the read ends the process, so does
    [createExecutor]. *)
Theorem createExecutor_destroyExecutor f info directory id :
  hashmap.contains (ei_executor_id info) (executors f) = false ->
  exists f1 e,
    createExecutor res_empty f info directory (Done id) = Done (f1, e) /\
    getExecutor f1 (ei_executor_id info) = Some e /\
    e_id e = id /\ e_info e = info /\ e_directory e = directory /\
    e_frameworkId e = f_id f /\ e_pid e = "" /\
    queuedTasks e = hashmap.empty /\ launchedTasks e = hashmap.empty /\
    (forall other,
       other <> ei_executor_id info ->
       getExecutor f1 other = getExecutor f other) /\
    destroyExecutor f1 (ei_executor_id info) = f /\
    createExecutor res_empty f1 info directory (Done id)
    = Crash (CheckFailed "!executors.contains(info.executor_id())") /\
    forall fault,
      createExecutor res_empty f info directory (Crash fault) = Crash fault.
Proof.
  intros Hfresh. unfold createExecutor at 1. simpl. rewrite Hfresh. simpl.
  do 2 eexists. split; [reflexivity|].
  set (e := {| e_id := id; e_info := info; e_frameworkId := f_id f;
               e_directory := directory; e_pid := "";
               e_resources := res_empty; queuedTasks := hashmap.empty;
               launchedTasks := hashmap.empty |}).
  assert (Hin : hashmap.contains (ei_executor_id info)
                  (hashmap.put (ei_executor_id info) e (executors f))
                = true).
  { eapply hm_get_contains. apply hm_get_put_same. }
  split; [apply hm_get_put_same|].
  do 7 (split; [reflexivity|]).
  split; [intros other Hne; now apply hm_get_put_other|].
  split; [|split].
  - unfold destroyExecutor. simpl. rewrite Hin.
    apply hm_contains_false_notin in Hfresh.
    destruct f. unfold set_executors. simpl in *. f_equal.
    now apply hm_erase_put_fresh.
  - unfold createExecutor. simpl. now rewrite Hin.
  - reflexivity.
Qed.

(** X28.  [addTask] of a task id that is not launched stores the task in
    state TASK_STARTING; [removeTask] of that id then gives back the
    table of launched tasks as it was (and takes the id off the queue),
    with the task's resources subtracted one by one from the sum; and a
    second [addTask] of the id trips the CHECK. *)
Theorem addTask_removeTask e task :
  let taskId := td_task_id task in
  hashmap.contains taskId (launchedTasks e) = false ->
  exists e1,
    addTask res_add e task = Done e1 /\
    hashmap.get taskId (launchedTasks e1) = Some (new_Task e task) /\
    launchedTasks (removeTask res_sub e1 taskId) = launchedTasks e /\
    queuedTasks (removeTask res_sub e1 taskId)
    = hashmap.erase taskId (queuedTasks e) /\
    e_resources (removeTask res_sub e1 taskId)
    = fold_left res_sub (td_resources task)
        (res_add (e_resources e) (td_resources task)) /\
    addTask res_add e1 task
    = Crash (CheckFailed "!launchedTasks.contains(task.task_id())").
Proof.
  intros taskId Hfresh. rewrite (addTask_fresh _ _ Hfresh).
  eexists. split; [reflexivity|].
  assert (Hget : hashmap.get taskId
                   (hashmap.put taskId (new_Task e task) (launchedTasks e))
                 = Some (new_Task e task)) by apply hm_get_put_same.
  split; [exact Hget|].
  unfold removeTask. simpl. fold taskId. rewrite Hget. simpl.
  split.
  { apply hm_erase_put_fresh. now apply hm_contains_false_notin. }
  do 2 (split; [reflexivity|]).
  unfold addTask. simpl. fold taskId.
  now rewrite (hm_get_contains _ _ Hget).
Qed.

(** *** Registration with the master, composed *)

(** X29.  Once the master has given the slave an id, the next master the
    slave detects is sent ReregisterSlave with that id and the launched
    tasks; the reply to it is accepted if it carries the same id and is
    fatal for the slave if it carries any other. *)
Theorem registerReply_then_detected s slaveId pid :
  slaveId <> "" ->
  exists s1 s2,
    registerReply s slaveId = Done (s1, []) /\
    newMasterDetected s1 pid
    = Done (s2,
            [Link pid;
             Send pid
               (S2M_REREGISTER_SLAVE slaveId (s_info s) (launched_tasks s))])
    /\ reregisterReply s2 slaveId = Done (s2, []) /\
    forall other,
      other <> slaveId ->
      reregisterReply s2 other
      = Crash (Fatal "Slave re-registered but got wrong ID").
Proof.
  intros Hid. unfold registerReply. do 2 eexists. split; [reflexivity|].
  unfold newMasterDetected. simpl.
  apply String.eqb_neq in Hid. rewrite Hid.
  split; [reflexivity|].
  unfold reregisterReply. simpl. split.
  - now rewrite String.eqb_refl.
  - intros other Hne. apply not_eq_sym in Hne.
    apply String.eqb_neq in Hne. now rewrite Hne.
Qed.

(** *** A task killed while it waits *)

(** X30.  A task killed while it waits in the queue of an executor that
    has not registered is never launched: [killTask] takes it off the
    queue, and when the executor registers afterwards, no RunTask for
    that task id is among the messages and the id is not among the
    launched tasks. *)
Theorem killTask_then_register s frameworkId taskId now f key e from :
  getFramework s frameworkId = Some f ->
  getExecutor_task f taskId = Some (key, e) ->
  e_pid e = "" ->
  queue_ok e ->
  exists s1 out1 s2 out2 f2 e2,
    killTask res_sub s frameworkId taskId now = Done (s1, out1) /\
    registerExecutor res_add s1 from frameworkId key = Done (s2, out2) /\
    (forall to frameworkInfo id pid task,
       In (Send to (S2E_RUN_TASK frameworkInfo id pid task)) out2 ->
       td_task_id task <> taskId) /\
    getFramework s2 frameworkId = Some f2 /\
    getExecutor f2 key = Some e2 /\
    hashmap.contains taskId (launchedTasks e2) = false /\
    hashmap.contains taskId (queuedTasks e2) = false.
Proof.
  intros Hf He Hpid Hok.
  unfold killTask. rewrite Hf, He.
  pose proof Hpid as Hunset. apply upid_unset_true in Hunset.
  rewrite Hunset.
  set (e' := removeTask res_sub e taskId).
  set (f1 := store_executor f key e').
  set (s1 := store_framework s frameworkId f1).
  assert (Hf1 : getFramework s1 frameworkId = Some f1)
    by apply getFramework_store.
  assert (He1 : getExecutor f1 key = Some e')
    by (unfold getExecutor; simpl; apply hm_get_put_same).
  assert (Hpid1 : e_pid e' = "").
  { destruct (removeTask_fixed e taskId) as (_ & _ & Hp). subst e'.
    now rewrite Hp. }
  assert (Hok1 : queue_ok e') by now apply queue_ok_removeTask.
  destruct (Hok Hpid) as (Hl & Hwf & Hkeys).
  assert (Hq : queuedTasks e' = hashmap.erase taskId (queuedTasks e)).
  { subst e'. unfold removeTask. simpl. rewrite Hl. reflexivity. }
  assert (Hgone : forall task,
             In task (hashmap.values (queuedTasks e')) ->
             td_task_id task <> taskId).
  { intros task Hin Heq. rewrite Hq in Hin.
    apply in_map_iff in Hin. destruct Hin as ([k t] & Hsnd & Hin).
    simpl in Hsnd. subst t.
    assert (Hk : In k (hashmap.keys (hashmap.erase taskId (queuedTasks e)))).
    { change k with (fst (k, task)). now apply in_map. }
    apply hm_keys_erase_ne in Hk.
    apply hm_In_erase in Hin. apply Hkeys in Hin. congruence. }
  destruct (queue_ok_flushable Hok1 Hpid1) as [Hnd Hfresh].
  destruct (flush_spec f1 (hashmap.values (queuedTasks e'))
              (set_pid e' from) Hnd Hfresh)
    as (e3 & Hflush & _ & _ & _ & _ & _ & _ & _ & _ & Hother).
  assert (Heq3 : exists outs,
             registerExecutor res_add s1 from frameworkId key
             = Done (store_framework s1 frameworkId
                       (store_executor f1 key
                          (set_queuedTasks e3 hashmap.empty)),
                     outs) /\
             forall x,
               In x outs ->
               x = ResourcesChanged (f_id f1) (f_info f1) (e_info e')
                     (e_resources e') \/
               x = Send from (register_reply s1 f1 (set_pid e' from)) \/
               exists task,
                 In task (hashmap.values (queuedTasks e')) /\
                 x = Send from
                       (S2E_RUN_TASK (f_info f1) (f_id f1) (f_pid f1) task)).
  { unfold registerExecutor. rewrite Hf1, He1.
    pose proof Hpid1 as Hunset1. apply upid_unset_true in Hunset1.
    rewrite Hunset1. simpl negb. cbv iota.
    simpl queuedTasks. rewrite Hflush. simpl.
    eexists. split; [reflexivity|].
    intros x [<-|[<-|Hin]]; [now left | now right; left |].
    right. right. apply in_map_iff in Hin.
    destruct Hin as (task & <- & Hin). now exists task. }
  destruct Heq3 as (outs & Hreg & Houts).
  do 6 eexists. split; [reflexivity|].
  split; [exact Hreg|].
  split.
  { intros to frameworkInfo id pid task Hin.
    destruct (Houts _ Hin) as [Hx|[Hx|(task' & Hin' & Hx)]];
      try discriminate Hx.
    injection Hx as _ _ _ _ <-. now apply Hgone. }
  split; [apply getFramework_store|].
  split; [unfold getExecutor; simpl; apply hm_get_put_same|].
  split; [|reflexivity].
  simpl. unfold hashmap.contains. rewrite Hother.
  - simpl. subst e'. fold (hashmap.contains taskId
      (launchedTasks (removeTask res_sub e taskId))).
    apply removeTask_launched.
  - intros Hin. apply in_map_iff in Hin.
    destruct Hin as (task & Hid & Hin). now apply (Hgone task).
Qed.

(** *** The HTTP views *)

Ltac same_text :=
  match goal with
  | |- {| str := ?x; tellp := _ |} = {| str := ?y; tellp := _ |} =>
      replace x with y;
      [reflexivity
      | unfold framework_json, task_json, with_commas, quote;
        cbn [map fold_right];
        rewrite ?sapp_assoc; reflexivity]
  end.

Lemma write_frameworks_appends fs : forall a,
  write_frameworks {| str := a; tellp := String.length a |} fs
  = {| str :=
         a +++ with_commas (map (@framework_json Resource Resources) fs);
       tellp :=
         String.length
           (a +++ with_commas (map (@framework_json Resource Resources) fs))
    |}.
Proof.
  induction fs as [|f fs IH]; intros a; cbn [write_frameworks].
  - unfold with_commas. simpl. now rewrite sapp_nil_r.
  - rewrite !write_at_end, IH. same_text.
Qed.

Lemma write_tasks_appends tasks : forall a,
  write_tasks scalar_text state_text
    {| str := a; tellp := String.length a |} tasks
  = {| str :=
         a +++ with_commas (map (task_json scalar_text state_text) tasks);
       tellp :=
         String.length
           (a +++
            with_commas (map (task_json scalar_text state_text) tasks)) |}.
Proof.
  induction tasks as [|t tasks IH]; intros a; cbn [write_tasks].
  - unfold with_commas. simpl. now rewrite sapp_nil_r.
  - rewrite !write_at_end, IH. same_text.
Qed.

Lemma size_positive (K V : Type) (m : hashmap.t K V) :
  m <> [] -> Z.ltb 0 (hashmap.size m) = true.
Proof.
  destruct m; [congruence|]. intros _. apply Z.ltb_lt.
  unfold hashmap.size. simpl. lia.
Qed.

(** X18.  [/slave/frameworks.json] answers with a JSON list of one object
    per framework, in table order, separated by commas: the comma written
    after the last object is overwritten by the closing bracket, and with
    no framework the text is the empty list.  Content-Length is the
    length of that text; the body is the text up to its first NUL. *)
Theorem http_frameworks_json_list s :
  let text :=
    "[" +++
    String.concat ","
      (map (@framework_json Resource Resources)
         (hashmap.values (frameworks s)))
    +++ "]" in
  body (http_frameworks_json s) = c_str text /\
  hashmap.get "Content-Length" (headers (http_frameworks_json s))
  = Some (stringify (String.length text)) /\
  hashmap.get "Content-Type" (headers (http_frameworks_json s))
  = Some "text/x-json;charset=UTF-8".
Proof.
  intros text.
  set (entries :=
         map (@framework_json Resource Resources)
           (hashmap.values (frameworks s))).
  set (flag := Z.ltb 0 (hashmap.size (frameworks s))).
  assert (Hflag : entries <> [] -> flag = true).
  { intros Hne. apply size_positive. intros Hnil. apply Hne.
    subst entries. now rewrite Hnil. }
  pose proof (@close_list entries flag Hflag) as Hclose. cbv zeta in Hclose.
  assert (Htext :
    match entries with
    | [] => if flag then "]" else "[]"
    | _ :: _ => "[" +++ String.concat "," entries +++ "]"
    end = text).
  { subst text. fold entries. destruct entries as [|e es] eqn:He;
      [|reflexivity].
    subst flag. destruct (frameworks s); [reflexivity | discriminate]. }
  rewrite Htext in Hclose.
  unfold http_frameworks_json. cbv zeta.
  change (write new_ostringstream "[")
    with {| str := "["; tellp := String.length "[" |}.
  rewrite write_frameworks_appends. fold entries. fold flag.
  unfold ok_response. cbn [body headers]. rewrite Hclose.
  repeat split.
Qed.

(** X19.  [/slave/tasks.json] answers with the JSON list of the launched
    tasks when there is one, and with the empty list when no framework is
    registered.  But the decision to step back over the last comma looks
    at the number of frameworks, not of tasks: with a framework and no
    launched task the opening bracket itself is overwritten and the whole
    text is a lone closing bracket. *)
Theorem http_tasks_json_list s :
  let entries := map (task_json scalar_text state_text) (launched_tasks s) in
  let text :=
    match entries, frameworks s with
    | [], _ :: _ => "]"
    | _, _ => "[" +++ String.concat "," entries +++ "]"
    end in
  body (http_tasks_json scalar_text state_text s) = c_str text /\
  hashmap.get "Content-Length"
    (headers (http_tasks_json scalar_text state_text s))
  = Some (stringify (String.length text)).
Proof.
  intros entries text.
  set (flag := Z.ltb 0 (hashmap.size (frameworks s))).
  assert (Hflag : entries <> [] -> flag = true).
  { intros Hne. apply size_positive. intros Hnil. apply Hne.
    subst entries. unfold launched_tasks. now rewrite Hnil. }
  pose proof (@close_list entries flag Hflag) as Hclose. cbv zeta in Hclose.
  assert (Htext :
    match entries with
    | [] => if flag then "]" else "[]"
    | _ :: _ => "[" +++ String.concat "," entries +++ "]"
    end = text).
  { subst text. destruct entries as [|e es]; [|reflexivity].
    subst flag. destruct (frameworks s); reflexivity. }
  rewrite Htext in Hclose.
  unfold http_tasks_json. cbv zeta.
  change (write new_ostringstream "[")
    with {| str := "["; tellp := String.length "[" |}.
  rewrite write_tasks_appends. fold entries. fold flag.
  unfold ok_response. cbn [body headers]. rewrite Hclose.
  repeat split.
Qed.

End RegistryFacts.

(** ** The executor reaper *)

Section ReaperFacts.

Import ExecutorReaper.

Lemma watch_unknown r frameworkId executorId pid :
  hashmap.contains pid (exited r) = false ->
  watch r frameworkId executorId pid
  = ({| watching := hashmap.put pid (frameworkId, executorId) (watching r);
        exited := exited r |}, []).
Proof. intros Hex. unfold watch. now rewrite Hex. Qed.

Lemma reap_unknown r pid status :
  0 < pid ->
  hashmap.contains pid (watching r) = false ->
  reap r pid status
  = ({| watching := watching r;
        exited := hashmap.put pid status (exited r) |}, []).
Proof.
  intros Hpid Hw. unfold reap. apply Z.ltb_lt in Hpid. rewrite Hpid.
  unfold hashmap.contains in Hw.
  now destruct (hashmap.get pid (watching r)).
Qed.

(** X15.  The race between [watch] and the child's exit is benign: for a
    pid the reaper does not know yet, "watch, then the child is reaped"
    and "the child is reaped, then watch" both dispatch exactly one
    [executorExited], with the framework and executor given to [watch]
    and the status given by [waitpid], and both leave the reaper as it
    was, the pid in neither table. *)
Theorem watch_reap_commute r frameworkId executorId pid status :
  0 < pid ->
  hashmap.contains pid (watching r) = false ->
  hashmap.contains pid (exited r) = false ->
  let told :=
    [{| d_frameworkId := frameworkId;
        d_executorId := executorId;
        d_status := status |}] in
  steps r [Watch frameworkId executorId pid; Waited pid status] = (r, told)
  /\
  steps r [Waited pid status; Watch frameworkId executorId pid] = (r, told).
Proof.
  intros Hpid Hw Hex told. destruct r as [w ex]. simpl in Hw, Hex.
  pose proof Hpid as Hpos. apply Z.ltb_lt in Hpos.
  pose proof Hw as Hw'. apply hm_contains_false_notin in Hw'.
  pose proof Hex as Hex'. apply hm_contains_false_notin in Hex'.
  split.
  - simpl. rewrite watch_unknown by exact Hex. simpl.
    unfold reap. simpl. rewrite Hpos, hm_get_put_same. simpl.
    now rewrite hm_erase_put_fresh.
  - simpl. rewrite reap_unknown by assumption. simpl.
    unfold watch. simpl.
    rewrite (hm_get_contains _ _ (hm_get_put_same pid status ex)). simpl.
    rewrite hm_at_put_same. now rewrite hm_erase_put_fresh.
Qed.

Lemma step_disjoint r i :
  disjoint r -> disjoint (fst (step r i)).
Proof.
  intros Hr. destruct i as [frameworkId executorId pid|pid status]; simpl.
  - unfold watch.
    destruct (hashmap.contains pid (exited r)) eqn:Hex; simpl.
    + intros p Hp. simpl in *.
      destruct (Z.eq_dec p pid) as [->|Hne].
      * apply hm_contains_erase_same.
      * unfold hashmap.contains. rewrite hm_get_erase_other by exact Hne.
        now apply Hr.
    + intros p Hp. simpl in *.
      destruct (Z.eq_dec p pid) as [->|Hne]; [exact Hex|].
      rewrite hm_contains_put_other in Hp by exact Hne. now apply Hr.
  - unfold reap. destruct (Z.ltb 0 pid); [|exact Hr].
    destruct (hashmap.get pid (watching r)) as [[frameworkId executorId]|]
      eqn:Hw; simpl.
    + intros p Hp. simpl in *. apply Hr.
      apply hm_contains_true_in. apply hm_contains_true_in in Hp.
      now apply hm_In_keys_erase in Hp.
    + intros p Hp. simpl in *.
      destruct (Z.eq_dec p pid) as [->|Hne].
      * unfold hashmap.contains in Hp. now rewrite Hw in Hp.
      * rewrite hm_contains_put_other by exact Hne. now apply Hr.
Qed.

(** X16.  The reaper never both watches a pid and remembers its exit
    status: whatever calls of [watch] and reaped children follow, the two
    tables stay disjoint. *)
Theorem steps_disjoint inputs : forall r,
  disjoint r -> disjoint (fst (steps r inputs)).
Proof.
  induction inputs as [|i inputs IH]; intros r Hr; simpl; [exact Hr|].
  pose proof (step_disjoint i Hr) as H1.
  destruct (step r i) as [r1 out1]. simpl in H1.
  specialize (IH r1 H1).
  now destruct (steps r1 inputs) as [r2 out2].
Qed.

Lemma step_bound r i :
  let r' := fst (step r i) in
  let out := snd (step r i) in
  (List.length out + List.length (watching r')
   <= List.length (watching r) + watches [i])%nat /\
  (List.length out + List.length (exited r')
   <= List.length (exited r) + reaped [i])%nat.
Proof.
  destruct i as [frameworkId executorId pid|pid status]; simpl.
  - unfold watch, watches, reaped.
    destruct (hashmap.contains pid (exited r)) eqn:Hex; simpl.
    + pose proof (hm_length_erase_in _ _ Hex). lia.
    + pose proof (hm_length_put pid (frameworkId, executorId) (watching r)).
      lia.
  - unfold reap, watches, reaped. simpl.
    destruct (Z.ltb 0 pid); simpl; [|lia].
    destruct (hashmap.get pid (watching r)) as [[frameworkId executorId]|]
      eqn:Hw; simpl.
    + pose proof (hm_length_erase_in _ _ (hm_get_contains _ _ Hw)). lia.
    + pose proof (hm_length_put pid status (exited r)). lia.
Qed.

(** X17.  Every [executorExited] that the reaper dispatches uses up one
    call of [watch] and one reaped child: over any sequence of inputs the
    number of dispatches plus the pids still watched is at most the pids
    watched at the start plus the calls of [watch], and the number of
    dispatches plus the exits still remembered is at most the exits
    remembered at the start plus the children reaped. *)
Theorem steps_dispatch_bound inputs : forall r,
  let r' := fst (steps r inputs) in
  let out := snd (steps r inputs) in
  (List.length out + List.length (watching r')
   <= List.length (watching r) + watches inputs)%nat /\
  (List.length out + List.length (exited r')
   <= List.length (exited r) + reaped inputs)%nat.
Proof.
  induction inputs as [|i inputs IH]; intros r; simpl; [lia|].
  pose proof (step_bound r i) as H1.
  destruct (step r i) as [r1 out1]. simpl in H1.
  specialize (IH r1).
  destruct (steps r1 inputs) as [r2 out2]. simpl in *.
  rewrite length_app.
  assert (Hw : watches (i :: inputs) = (watches [i] + watches inputs)%nat).
  { unfold watches. simpl. now destruct i. }
  assert (Hr : reaped (i :: inputs) = (reaped [i] + reaped inputs)%nat).
  { unfold reaped. simpl. destruct i; [reflexivity|].
    now destruct (Z.ltb 0 pid). }
  rewrite Hw, Hr. lia.
Qed.

End ReaperFacts.

(** ** The scenarios, checked *)

Section Checked.

Import Scenario.

(** The scenario states are the ones the handlers produce. *)
Lemma scenario_states :
  (exists out,
     run 0 res_add res_sub waiting
       [(0, E2S_REGISTER_EXECUTOR "executor@node" "f1" "e1")]
     = Done (running, out)) /\
  (exists out,
     run 0 res_add res_sub running
       [(0, E2S_STATUS_UPDATE (update "t1" TASK_RUNNING));
        (1, E2S_STATUS_UPDATE (update "t1" TASK_FINISHED))]
     = Done (reported, out)) /\
  (exists out,
     run 0 res_add res_sub reported
       [(12, M2S_STATUS_UPDATE_ACK "agent-1" "f1" "t1")]
     = Done (acknowledged, out)).
Proof. repeat split; eexists; vm_compute; reflexivity. Qed.

Lemma statusUpdate_valid_witness :
  getFramework running "f1" = Some running_framework /\
  getExecutor_task running_framework "t1" = Some ("e1", running_executor) /\
  hashmap.get "t1" (launchedTasks running_executor)
  = Some (new_Task fresh_executor (task "t1")) /\
  (exists s' framework' e' recorded,
     statusUpdate res_sub running (update "t1" TASK_RUNNING) 5
     = Done (s', [to_master (update "t1" TASK_RUNNING) true]) /\
     getFramework s' "f1" = Some framework' /\
     hashmap.get "e1" (executors framework') = Some e' /\
     hashmap.get "t1" (launchedTasks e') = Some recorded /\
     t_state recorded = TASK_RUNNING /\
     t_resources recorded = [1; 256] /\
     e_resources e' = 514) /\
  (exists s' framework' e',
     statusUpdate res_sub running (update "t1" TASK_FINISHED) 5
     = Done (s',
             [ResourcesChanged "f1" framework_f1 executor_e1 257;
              to_master (update "t1" TASK_FINISHED) true]) /\
     getFramework s' "f1" = Some framework' /\
     hashmap.get "e1" (executors framework') = Some e' /\
     hashmap.contains "t1" (launchedTasks e') = false /\
     e_resources e' = 257 /\
     exists bucket,
       hashmap.get 15 (updates framework') = Some bucket /\
       hashmap.get "t1" bucket = Some (update "t1" TASK_FINISHED)).
Proof.
  split; [reflexivity|]. split; [reflexivity|]. split; [reflexivity|].
  split.
  - destruct (@statusUpdate_valid Z Z res_sub running
                (update "t1" TASK_RUNNING) 5 running_framework "e1"
                running_executor eq_refl eq_refl)
      as (s' & f' & e' & Hrun & Hf & He & Hlaunched & _ & _).
    destruct (Hlaunched _ eq_refl) as [Hnt _].
    destruct (Hnt eq_refl)
      as (Hres & _ & recorded & Hget & Hstate & _ & _ & _ & _ & _ & Hr).
    exists s', f', e', recorded.
    split; [exact Hrun|]. split; [exact Hf|]. split; [exact He|].
    split; [exact Hget|]. split; [exact Hstate|].
    split; [exact Hr | exact Hres].
  - destruct (@statusUpdate_valid Z Z res_sub running
                (update "t1" TASK_FINISHED) 5 running_framework "e1"
                running_executor eq_refl eq_refl)
      as (s' & f' & e' & Hrun & Hf & He & Hlaunched & _ & Hstore).
    destruct (Hlaunched _ eq_refl) as [_ Ht].
    destruct (Ht eq_refl) as (Hgone & _ & Hres).
    exists s', f', e'.
    split; [rewrite Hres in Hrun; exact Hrun|].
    split; [exact Hf|]. split; [exact He|].
    split; [exact Hgone|]. split; [exact Hres | exact Hstore].
Defined.

(** C1 fails on the code where the task is only queued: [t1] waits for
    executor [e1], which has not registered, so the framework and the
    owning executor exist.  An update to TASK_RUNNING is relayed and
    stored, and no state is recorded for [t1]: the executor has no
    launched task before or after.  An update to TASK_FINISHED calls
    [resourcesChanged] with the resources the executor had before, not
    with a reduced vector. *)
Lemma statusUpdate_queued_task :
  getFramework waiting "f1" = Some waiting_framework /\
  getExecutor_task waiting_framework "t1" = Some ("e1", waiting_executor) /\
  launchedTasks waiting_executor = [] /\
  e_resources waiting_executor = 0 /\
  (exists s' out framework' e',
     statusUpdate res_sub waiting (update "t1" TASK_RUNNING) 5
     = Done (s', out) /\
     getFramework s' "f1" = Some framework' /\
     hashmap.get "e1" (executors framework') = Some e' /\
     launchedTasks e' = [] /\
     hashmap.get "t1" (queuedTasks e') = Some (task "t1")) /\
  (exists s' framework' e',
     statusUpdate res_sub waiting (update "t1" TASK_FINISHED) 5
     = Done (s',
             [ResourcesChanged "f1" framework_f1 executor_e1 0;
              to_master (update "t1" TASK_FINISHED) true]) /\
     getFramework s' "f1" = Some framework' /\
     hashmap.get "e1" (executors framework') = Some e' /\
     launchedTasks e' = [] /\
     e_resources e' = 0).
Proof.
  do 4 (split; [reflexivity|]). split.
  - do 4 eexists. split; [vm_compute; reflexivity|].
    repeat split; reflexivity.
  - do 3 eexists. split; [vm_compute; reflexivity|].
    repeat split; reflexivity.
Qed.

(** C2 fails on the code: the update of a launched task is relayed to the
    master, and no acknowledgement, to any address, is among the
    effects. *)
Lemma statusUpdate_sends_no_ack :
  exists s' out,
    getFramework running "f1" = Some running_framework /\
    getExecutor_task running_framework "t1" = Some ("e1", running_executor) /\
    statusUpdate res_sub running (update "t1" TASK_RUNNING) 0
    = Done (s', out) /\
    forall to frameworkId slaveId taskId,
      ~ In (Send to (S2E_STATUS_UPDATE_ACK frameworkId slaveId taskId)) out.
Proof.
  do 2 eexists. split; [reflexivity|]. split; [reflexivity|].
  split; [vm_compute; reflexivity|].
  intros to frameworkId slaveId taskId [H|[]]. discriminate H.
Qed.

Lemma statusUpdate_valid_sends_witness :
  getFramework running "f1" = Some running_framework /\
  getExecutor_task running_framework "t1" = Some ("e1", running_executor) /\
  exists s' out,
    statusUpdate res_sub running (update "t1" TASK_FINISHED) 0
    = Done (s', out) /\
    sent out
    = [("master@head", S2M_STATUS_UPDATE (update "t1" TASK_FINISHED) true)].
Proof.
  split; [reflexivity|]. split; [reflexivity|].
  exact (@statusUpdate_valid_sends Z Z res_sub running
           (update "t1" TASK_FINISHED) 0 running_framework "e1"
           running_executor eq_refl eq_refl).
Defined.

(** C3: the first task of a framework.  Scenario S1 of the
    specification ends here. *)
Lemma runTask_new_executor_crashes_witness :
  getFramework idle "f1" = None /\
  runTask 0 res_add idle framework_f1 "f1" "scheduler@client" (task "t1")
    empty_disk 4242
    zeroed
  = Crash (NullDereference "executor->id").
Proof.
  split; [reflexivity|].
  apply runTask_new_executor_crashes.
  intros framework Hf. discriminate Hf.
Defined.

Lemma killTask_cases_witness :
  (exists u,
     killTask res_sub idle "f1" "t1" 3
     = Done (idle, [to_master u false]) /\
     ts_state (su_status u) = TASK_LOST) /\
  (exists u,
     killTask res_sub running "f1" "t9" 3
     = Done (running, [to_master u false]) /\
     ts_state (su_status u) = TASK_LOST) /\
  (exists s' u r,
     killTask res_sub waiting "f1" "t1" 3
     = Done (s', [ResourcesChanged "f1" framework_f1 executor_e1 r;
                  to_master u false]) /\
     ts_state (su_status u) = TASK_KILLED) /\
  killTask res_sub running "f1" "t1" 3
  = Done (running, [Send "executor@node" (S2E_KILL_TASK "f1" "t1")]).
Proof.
  split; [|split; [|split]].
  - destruct (killTask_cases res_sub idle "f1" "t1" 3) as (Hlost & _ & _).
    destruct (Hlost (or_introl eq_refl)) as (u & Hkill & _ & Hstate).
    now exists u.
  - destruct (killTask_cases res_sub running "f1" "t9" 3) as (Hlost & _ & _).
    destruct Hlost as (u & Hkill & _ & Hstate).
    + right. exists running_framework. split; [reflexivity|].
      intros key e [Heq|[]]. inversion Heq. reflexivity.
    + now exists u.
  - destruct (killTask_cases res_sub waiting "f1" "t1" 3) as (_ & Hkilled & _).
    destruct (Hkilled waiting_framework "e1" waiting_executor
                eq_refl eq_refl eq_refl)
      as (s' & f' & e' & u & Hkill & _ & Hstate & _).
    now exists s', u, (e_resources e').
  - destruct (killTask_cases res_sub running "f1" "t1" 3) as (_ & _ & Hfwd).
    apply (Hfwd running_framework "e1" running_executor eq_refl eq_refl).
    discriminate.
Defined.


Lemma registerExecutor_flushes_witness :
  getFramework waiting "f1" = Some waiting_framework /\
  getExecutor waiting_framework "e1" = Some waiting_executor /\
  e_pid waiting_executor = "" /\
  exists s' framework' e',
    registerExecutor res_add waiting "executor@node" "f1" "e1"
    = Done (s',
            [ResourcesChanged "f1" framework_f1 executor_e1 0;
             Send "executor@node"
               (S2E_REGISTER_REPLY
                  {| ea_framework_id := "f1";
                     ea_executor_id := "e1";
                     ea_slave_id := "agent-1";
                     ea_hostname := "node";
                     ea_data := "args" |});
             Send "executor@node"
               (S2E_RUN_TASK framework_f1 "f1" "scheduler@client" (task "t1"));
             Send "executor@node"
               (S2E_RUN_TASK framework_f1 "f1" "scheduler@client" (task "t2"))])
    /\ getFramework s' "f1" = Some framework'
    /\ getExecutor framework' "e1" = Some e'
    /\ e_pid e' = "executor@node"
    /\ queuedTasks e' = hashmap.empty
    /\ hashmap.contains "t1" (launchedTasks e') = true
    /\ hashmap.contains "t2" (launchedTasks e') = true.
Proof.
  split; [reflexivity|]. split; [reflexivity|]. split; [reflexivity|].
  destruct (registerExecutor_flushes res_add waiting "executor@node" "f1" "e1"
              (framework := waiting_framework) (e := waiting_executor)
              eq_refl eq_refl eq_refl)
    as (s' & f' & e' & Hreg & Hf & He & Hpid & Hq & Hl).
  - simpl. repeat constructor; simpl; intuition discriminate.
  - intros t _. reflexivity.
  - exists s', f', e'.
    split; [exact Hreg|]. split; [exact Hf|]. split; [exact He|].
    split; [exact Hpid|]. split; [exact Hq|].
    pose proof (Hl (task "t1") (or_introl eq_refl)) as H1.
    pose proof (Hl (task "t2") (or_intror (or_introl eq_refl))) as H2.
    split; [exact (hm_get_contains _ _ H1) | exact (hm_get_contains _ _ H2)].
Defined.

Lemma registerExecutor_rejected_witness :
  registerExecutor res_add idle "executor@node" "f1" "e1"
  = Done (idle, [Send "executor@node" S2E_KILL_EXECUTOR]) /\
  registerExecutor res_add waiting "executor@node" "f1" "e2"
  = Done (waiting, [Send "executor@node" S2E_KILL_EXECUTOR]) /\
  registerExecutor res_add running "intruder@node" "f1" "e1"
  = Done (running, [Send "intruder@node" S2E_KILL_EXECUTOR]).
Proof.
  split; [|split]; apply registerExecutor_rejected.
  - left. reflexivity.
  - right. left. exists waiting_framework. split; reflexivity.
  - right. right. exists running_framework, running_executor.
    split; [reflexivity|]. split; [reflexivity|]. discriminate.
Defined.

(** C8 fails on the code: an update for an unknown framework is dropped
    and [invalidStatusUpdates] keeps its value. *)
Lemma statusUpdate_invalid_not_counted :
  exists s' out,
    getFramework idle "f1" = None /\
    statusUpdate res_sub idle (update "t1" TASK_RUNNING) 0 = Done (s', out) /\
    invalidStatusUpdates (statistics idle) = 0 /\
    invalidStatusUpdates (statistics s') = 0 /\
    invalidStatusUpdates (statistics s')
    <> incr64 (invalidStatusUpdates (statistics idle)).
Proof.
  exists idle, []. repeat split. discriminate.
Qed.

Lemma statusUpdate_invalid_dropped_witness :
  statusUpdate res_sub idle (update "t1" TASK_RUNNING) 0 = Done (idle, []) /\
  statusUpdate res_sub running (update "t9" TASK_RUNNING) 0
  = Done (running, []).
Proof.
  split; apply statusUpdate_invalid_dropped.
  - left. reflexivity.
  - right. exists running_framework. split; [reflexivity|].
    intros key e [Heq|[]]. inversion Heq. reflexivity.
Defined.

(** Past the states the slave reaches, in a registry with a registered
    executor: with [t1] stored under the deadlines 10 and 11, the first
    acknowledgement empties one bucket and the second the other. *)
Lemma second_acknowledgement_erases_again :
  holders "t1" (updates reported_framework) = [10; 11] /\
  exists s1 s2 f1 f2,
    statusUpdateAcknowledged reported "agent-1" "f1" "t1" = Done (s1, []) /\
    statusUpdateAcknowledged s1 "agent-1" "f1" "t1" = Done (s2, []) /\
    getFramework s1 "f1" = Some f1 /\
    getFramework s2 "f1" = Some f2 /\
    holders "t1" (updates f1) = [11] /\
    holders "t1" (updates f2) = [] /\
    s2 <> s1.
Proof.
  split; [reflexivity|].
  do 4 eexists.
  split; [vm_compute; reflexivity|].
  split; [vm_compute; reflexivity|].
  split; [vm_compute; reflexivity|].
  split; [vm_compute; reflexivity|].
  split; [reflexivity|]. split; [reflexivity|].
  intros Heq. discriminate Heq.
Qed.

Lemma statusUpdateAcknowledged_twice_witness :
  getFramework acknowledged "f1" = Some acknowledged_framework /\
  holders "t1" (updates acknowledged_framework) = [11] /\
  exists s1,
    statusUpdateAcknowledged acknowledged "agent-1" "f1" "t1"
    = Done (s1, []) /\
    statusUpdateAcknowledged s1 "agent-1" "f1" "t1" = Done (s1, []).
Proof.
  split; [reflexivity|]. split; [reflexivity|].
  apply (statusUpdateAcknowledged_twice acknowledged "agent-1" "f1" "t1").
  intros framework Hf. injection Hf as <-. simpl. lia.
Defined.

(** Past the states the slave reaches, in a registry with a registered
    executor: [t1] is stored under the deadlines 10 and 11; the
    acknowledgement processed at time 12 retires one of the two, and the
    tick at time 13 re-sends the other, whose deadline is not after 12.
    This does not depend on which bucket the table presents first. *)
Lemma acknowledged_update_resent :
  holders "t1" (updates reported_framework) = [10; 11] /\
  (exists s1 out,
     statusUpdateAcknowledged reported "agent-1" "f1" "t1" = Done (s1, []) /\
     timeout s1 13 = Done (s1, out) /\
     In ("f1", 11, "t1", update "t1" TASK_FINISHED) (due s1 13) /\
     11 <= 12 /\
     In (to_master (update "t1" TASK_FINISHED) true) out) /\
  (exists s1 out,
     statusUpdateAcknowledged reported_swapped "agent-1" "f1" "t1"
     = Done (s1, []) /\
     timeout s1 13 = Done (s1, out) /\
     In ("f1", 10, "t1", update "t1" TASK_RUNNING) (due s1 13) /\
     10 <= 12 /\
     In (to_master (update "t1" TASK_RUNNING) true) out).
Proof.
  split; [reflexivity|].
  split; do 2 eexists.
  - split; [vm_compute; reflexivity|].
    split; [vm_compute; reflexivity|].
    split; [vm_compute; tauto|]. split; [lia|]. vm_compute; tauto.
  - split; [vm_compute; reflexivity|].
    split; [vm_compute; reflexivity|].
    split; [vm_compute; tauto|]. split; [lia|]. vm_compute; tauto.
Qed.

Lemma acknowledged_not_resent_witness :
  hashmap.wf (frameworks acknowledged) /\
  getFramework acknowledged "f1" = Some acknowledged_framework /\
  holders "t1" (updates acknowledged_framework) = [11] /\
  exists s1,
    statusUpdateAcknowledged acknowledged "agent-1" "f1" "t1"
    = Done (s1, []) /\
    forall s2 out,
      run 0 res_add res_sub s1
        [(13, E2S_STATUS_UPDATE (update "t2" TASK_RUNNING)); (30, TIMEOUT)]
      = Done (s2, out) ->
      forall now deadline u,
        In ("f1", deadline, "t1", u) (due s2 now) -> 13 < deadline.
Proof.
  assert (Hwf : hashmap.wf (frameworks acknowledged)).
  { unfold hashmap.wf. simpl. constructor; [intros []|constructor]. }
  split; [exact Hwf|]. split; [reflexivity|]. split; [reflexivity|].
  destruct (acknowledged_not_resent 0 res_add res_sub acknowledged
              "agent-1" "f1" "t1" (framework := acknowledged_framework) 13
              Hwf eq_refl)
    as (s1 & Hack & Hlater).
  - simpl. lia.
  - exists s1. split; [exact Hack|].
    intros s2 out Hrun. refine (Hlater _ s2 out _ Hrun).
    repeat constructor; simpl; lia.
Defined.

Lemma itoa_nonempty i : itoa i <> "".
Proof.
  unfold itoa. destruct (Z.to_int i) as [d|d]; simpl.
  - destruct d; discriminate.
  - discriminate.
Qed.

Lemma append_same_left a b : a +++ b = a -> b = "".
Proof.
  induction a as [|c a IH]; simpl; [trivial|].
  intros Heq. injection Heq as Heq. auto.
Qed.

(** C10 fails on the code in two ways.  With [work_dir] configured as
    [/tmp], the first directory of [f1]'s executor [e1] on [agent-1] is
    [/tmp/work/slave-agent-1/fw-f1-e1/0], under [/tmp/work] and not under
    [/tmp].  And when [opendir] refuses every probe with an error other
    than ENOENT, the result ends in [/], with no number at all. *)
Lemma getUniqueWorkDirectory_not_as_specified :
  hashmap.get "work_dir" (conf idle) = Some "/tmp" /\
  getUniqueWorkDirectory idle empty_disk "f1" "e1"
  = "/tmp/work/slave-agent-1/fw-f1-e1/0" /\
  (forall N,
     getUniqueWorkDirectory idle empty_disk "f1" "e1"
     <> "/tmp" +++ "/slave-agent-1/fw-f1-e1/" +++ itoa N) /\
  getUniqueWorkDirectory idle locked_disk "f1" "e1"
  = "/tmp/work/slave-agent-1/fw-f1-e1/" /\
  (forall N,
     getUniqueWorkDirectory idle locked_disk "f1" "e1"
     <> "/tmp/work/slave-agent-1/fw-f1-e1/" +++ itoa N).
Proof.
  assert (Hfirst : getUniqueWorkDirectory idle empty_disk "f1" "e1"
                   = "/tmp/work/slave-agent-1/fw-f1-e1/0").
  { unfold getUniqueWorkDirectory.
    rewrite (probe_least empty_disk _ (Z.to_nat INT_MAX) (i := 0) (N := 0)).
    - reflexivity.
    - rewrite Z2Nat.id; unfold INT_MAX; lia.
    - reflexivity.
    - intros j Hj. lia. }
  assert (Hnone : getUniqueWorkDirectory idle locked_disk "f1" "e1"
                  = "/tmp/work/slave-agent-1/fw-f1-e1/").
  { unfold getUniqueWorkDirectory.
    rewrite (probe_exhausted locked_disk _ (Z.to_nat INT_MAX) (i := 0)).
    - reflexivity.
    - intros j _. reflexivity. }
  split; [reflexivity|]. split; [exact Hfirst|]. split; [|split].
  - intros N. rewrite Hfirst. simpl. discriminate.
  - exact Hnone.
  - intros N. rewrite Hnone. intros Heq. symmetry in Heq.
    apply append_same_left in Heq. now apply (itoa_nonempty N).
Qed.

Lemma getUniqueWorkDirectory_least_witness :
  0 <= 2 < INT_MAX /\
  two_launches "/tmp/work/slave-agent-1/fw-f1-e1/0" = Opened /\
  two_launches "/tmp/work/slave-agent-1/fw-f1-e1/1" = Opened /\
  two_launches "/tmp/work/slave-agent-1/fw-f1-e1/2" = Failed ENOENT /\
  getUniqueWorkDirectory idle two_launches "f1" "e1"
  = "/tmp/work/slave-agent-1/fw-f1-e1/2".
Proof.
  assert (Hrange : 0 <= 2 < INT_MAX) by (unfold INT_MAX; lia).
  split; [exact Hrange|]. do 3 (split; [reflexivity|]).
  apply (getUniqueWorkDirectory_least idle two_launches "f1" "e1" (N := 2)
           Hrange eq_refl).
  intros j Hj.
  assert (Hcases : j = 0 \/ j = 1) by lia.
  destruct Hcases as [->| ->]; reflexivity.
Defined.

(** *** Instances of the further properties *)

Lemma running_pid_set : e_pid running_executor <> "".
Proof. discriminate. Qed.

Lemma waiting_queue_ok : queue_ok waiting_executor.
Proof.
  intros _. split; [reflexivity|]. split.
  - unfold hashmap.wf. simpl.
    repeat constructor; simpl; intuition discriminate.
  - intros key t [H|[H|[]]]; now inversion H.
Qed.

Lemma waiting_queues_ok : queues_ok waiting.
Proof.
  intros key f [H|[]]. inversion H; subst.
  intros ekey e [He|[]]. inversion He; subst. exact waiting_queue_ok.
Qed.

Lemma waiting_registry_ok : registry_ok waiting.
Proof.
  split.
  - unfold hashmap.wf. simpl. constructor; [intros []|constructor].
  - intros key f [H|[]]. inversion H; subst.
    split; [reflexivity|]. split.
    + unfold hashmap.wf. simpl. constructor; [intros []|constructor].
    + intros ekey e [He|[]]. now inversion He.
Qed.

Lemma runTask_launches_witness :
  getFramework running "f1" = Some running_framework /\
  getExecutor running_framework "e1" = Some running_executor /\
  e_pid running_executor <> "" /\
  hashmap.contains "t3" (launchedTasks running_executor) = false /\
  exists s' f' e' launched,
    runTask 0 res_add running framework_f1 "f1" "scheduler@client"
      (task "t3") empty_disk 7 zeroed
    = Done (s',
            [Send "executor@node"
               (S2E_RUN_TASK framework_f1 "f1" "scheduler@client"
                  (task "t3"));
             ResourcesChanged "f1" framework_f1 executor_e1 771]) /\
    getFramework s' "f1" = Some f' /\
    getExecutor f' "e1" = Some e' /\
    hashmap.get "t3" (launchedTasks e') = Some launched /\
    t_state launched = TASK_STARTING.
Proof.
  split; [reflexivity|]. split; [reflexivity|].
  split; [exact running_pid_set|]. split; [reflexivity|].
  destruct (@runTask_launches Z Z 0 res_add running framework_f1 "f1"
              "scheduler@client" (task "t3") empty_disk 7 zeroed
              running_framework running_executor
              eq_refl eq_refl running_pid_set eq_refl)
    as (s' & f' & e' & l & H1 & H2 & H3 & H4 & H5 & _).
  exists s', f', e', l.
  split; [exact H1|]. split; [exact H2|]. split; [exact H3|].
  split; [exact H4 | exact H5].
Defined.

Lemma runTask_relaunch_aborts_witness :
  getFramework running "f1" = Some running_framework /\
  getExecutor running_framework "e1" = Some running_executor /\
  e_pid running_executor <> "" /\
  hashmap.contains "t1" (launchedTasks running_executor) = true /\
  runTask 0 res_add running framework_f1 "f1" "scheduler@client"
    (task "t1") empty_disk 7 zeroed
  = Crash (CheckFailed "!launchedTasks.contains(task.task_id())").
Proof.
  split; [reflexivity|]. split; [reflexivity|].
  split; [exact running_pid_set|]. split; [reflexivity|].
  exact (@runTask_relaunch_aborts Z Z 0 res_add running framework_f1 "f1"
           "scheduler@client" (task "t1") empty_disk 7 zeroed
           running_framework running_executor
           eq_refl eq_refl running_pid_set eq_refl).
Defined.

Lemma runTask_queues_witness :
  getFramework waiting "f1" = Some waiting_framework /\
  getExecutor waiting_framework "e1" = Some waiting_executor /\
  e_pid waiting_executor = "" /\
  exists s' f' e',
    runTask 0 res_add waiting framework_f1 "f1" "scheduler@client"
      (task "t3") empty_disk 7 zeroed
    = Done (s', []) /\
    getFramework s' "f1" = Some f' /\
    getExecutor f' "e1" = Some e' /\
    hashmap.get "t3" (queuedTasks e') = Some (task "t3") /\
    hashmap.get "t1" (queuedTasks e') = Some (task "t1") /\
    launchedTasks e' = hashmap.empty.
Proof.
  split; [reflexivity|]. split; [reflexivity|]. split; [reflexivity|].
  destruct (@runTask_queues Z Z 0 res_add waiting framework_f1 "f1"
              "scheduler@client" (task "t3") empty_disk 7 zeroed
              waiting_framework waiting_executor eq_refl eq_refl eq_refl)
    as (s' & f' & e' & H1 & H2 & H3 & H4 & H5 & H6 & _).
  exists s', f', e'.
  split; [exact H1|]. split; [exact H2|]. split; [exact H3|].
  split; [exact H4|]. split; [|exact H6].
  assert (Hne : "t1" <> td_task_id (task "t3")) by discriminate.
  exact (eq_trans (H5 "t1" Hne) eq_refl).
Defined.

Lemma executorMessage_follows_update_witness :
  getFramework waiting "f1" = Some waiting_framework /\
  exists s1 s2,
    updateFramework waiting "f1" "scheduler@elsewhere" = Done (s1, []) /\
    executorMessage s1 "agent-1" "f1" "e9" "hello"
    = Done (s2,
            [Send "scheduler@elsewhere"
               (M2F_FRAMEWORK_MESSAGE "agent-1" "f1" "e9" "hello")]).
Proof.
  split; [reflexivity|].
  destruct (@executorMessage_follows_update Z Z waiting "agent-1" "f1" "e9"
              "hello" "scheduler@elsewhere" waiting_framework eq_refl)
    as (s1 & s2 & H1 & H2 & _).
  exists s1, s2. split; [exact H1 | exact H2].
Defined.

Lemma executorExited_removes_witness :
  getFramework running "f1" = Some running_framework /\
  getExecutor running_framework "e1" = Some running_executor /\
  f_id running_framework = "f1" /\ e_id running_executor = "e1" /\
  exists s',
    executorExited running "f1" "e1" 9
    = Done (s',
            [Send "master@head"
               (S2M_EXITED_EXECUTOR "agent-1" "f1" "e1" 9)]) /\
    getFramework s' "f1" = None.
Proof.
  do 4 (split; [reflexivity|]).
  destruct (@executorExited_removes Z Z running "f1" "e1" 9
              running_framework running_executor
              eq_refl eq_refl eq_refl eq_refl)
    as (s' & H1 & _ & [[_ H3]|[H3 _]]).
  - exists s'. split; [exact H1 | exact H3].
  - exfalso. apply H3. reflexivity.
Defined.

Lemma killFramework_removes_witness :
  getFramework running "f1" = Some running_framework /\
  f_id running_framework = "f1" /\
  exists s',
    killFramework running "f1"
    = Done (s',
            [Send "executor@node" S2E_KILL_EXECUTOR;
             KillExecutor "f1" framework_f1 executor_e1]) /\
    getFramework s' "f1" = None.
Proof.
  do 2 (split; [reflexivity|]).
  destruct (@killFramework_removes Z Z running "f1" running_framework
              eq_refl eq_refl)
    as (s' & H1 & H2 & _).
  exists s'. split; [exact H1 | exact H2].
Defined.

Lemma terminate_kills_all_witness :
  (forall key f, In (key, f) (frameworks running) -> f_id f = key) /\
  exists s',
    terminate running
    = (s',
       [Send "executor@node" S2E_KILL_EXECUTOR;
        KillExecutor "f1" framework_f1 executor_e1]) /\
    frameworks s' = [].
Proof.
  assert (Hids : forall key f,
             In (key, f) (frameworks running) -> f_id f = key).
  { intros key f [H|[]]. now inversion H. }
  split; [exact Hids|].
  destruct (@terminate_kills_all Z Z running Hids) as (s' & H1 & H2 & _).
  exists s'. split; [exact H1 | exact H2].
Defined.

Lemma statusUpdate_retried_witness :
  getFramework running "f1" = Some running_framework /\
  getExecutor_task running_framework "t1" = Some ("e1", running_executor) /\
  In 10 [3; 10; 12] /\
  0 + STATUS_UPDATE_RETRY_INTERVAL <= 10 /\
  exists s1 out1 out2,
    statusUpdate res_sub running (update "t1" TASK_RUNNING) 0
    = Done (s1, out1) /\
    run 0 res_add res_sub s1 [(3, TIMEOUT); (10, TIMEOUT); (12, TIMEOUT)]
    = Done (s1, out2) /\
    In (to_master (update "t1" TASK_RUNNING) true) out2.
Proof.
  split; [reflexivity|]. split; [reflexivity|].
  assert (Hin : In 10 [3; 10; 12]) by (simpl; tauto).
  assert (Hlate : 0 + STATUS_UPDATE_RETRY_INTERVAL <= 10)
    by (unfold STATUS_UPDATE_RETRY_INTERVAL; lia).
  split; [exact Hin|]. split; [exact Hlate|].
  exact (@statusUpdate_retried Z Z 0 res_add res_sub running
           (update "t1" TASK_RUNNING) 0 running_framework "e1"
           running_executor [3; 10; 12] 10 eq_refl eq_refl Hin Hlate).
Defined.

Lemma timeout_monotone_witness :
  10 <= 11 /\
  exists out out',
    timeout reported 10 = Done (reported, out) /\
    timeout reported 11 = Done (reported, out') /\
    incl out out' /\
    forall x,
      In x out' ->
      exists update, x = Send (master reported) (S2M_STATUS_UPDATE update true).
Proof.
  assert (Hle : 10 <= 11) by lia.
  split; [exact Hle|].
  exact (@timeout_monotone Z Z reported 10 11 Hle).
Defined.

Lemma statusUpdateAcknowledged_frame_witness :
  getFramework reported "f1" = Some reported_framework /\
  exists s' f',
    statusUpdateAcknowledged reported "agent-1" "f1" "t1" = Done (s', []) /\
    getFramework s' "f1" = Some f' /\
    executors f' = executors reported_framework /\
    hashmap.keys (updates f') = [10; 11].
Proof.
  split; [reflexivity|].
  destruct (@statusUpdateAcknowledged_frame Z Z reported "agent-1" "f1" "t1"
              reported_framework eq_refl)
    as (s' & f' & H1 & H2 & H3 & _ & H5 & _).
  exists s', f'.
  split; [exact H1|]. split; [exact H2|]. split; [exact H3 | exact H5].
Defined.

Lemma run_counters_witness :
  run 0 res_add res_sub waiting busy_morning
  = Done (after waiting busy_morning, effects waiting busy_morning) /\
  validStatusUpdates (statistics (after waiting busy_morning)) = 0 /\
  invalidStatusUpdates (statistics (after waiting busy_morning)) = 0 /\
  stat_tasks (statistics (after waiting busy_morning)) = [0; 0; 0; 0; 0; 0].
Proof.
  assert (Hrun : run 0 res_add res_sub waiting busy_morning
                 = Done (after waiting busy_morning,
                         effects waiting busy_morning))
    by (vm_compute; reflexivity).
  split; [exact Hrun|].
  destruct (@run_counters Z Z 0 res_add res_sub busy_morning waiting
              (after waiting busy_morning) (effects waiting busy_morning)
              Hrun)
    as (H1 & H2 & H3 & _).
  rewrite H1, H2, H3. repeat split.
Defined.

Lemma run_initial_no_framework_witness :
  run 0 res_add res_sub start_up quiet_morning
  = Done (after start_up quiet_morning, effects start_up quiet_morning) /\
  frameworks (after start_up quiet_morning) = [] /\
  forall x,
    In x (effects start_up quiet_morning) -> calls_isolation x = false.
Proof.
  assert (Hrun : run 0 res_add res_sub start_up quiet_morning
                 = Done (after start_up quiet_morning,
                         effects start_up quiet_morning))
    by (vm_compute; reflexivity).
  split; [exact Hrun|].
  exact (@run_initial_no_framework Z Z 0 res_add res_sub
           [("work_dir", "/tmp")]
           {| si_hostname := "node"; si_public_hostname := "node";
              si_resources := 4 |}
           "reaper@node" quiet_morning
           (after start_up quiet_morning) (effects start_up quiet_morning)
           Hrun).
Defined.

Lemma watch_reap_commute_witness :
  0 < 7 /\
  ExecutorReaper.steps ExecutorReaper.start
    [ExecutorReaper.Watch "f1" "e1" 7; ExecutorReaper.Waited 7 256]
  = (ExecutorReaper.start,
     [{| ExecutorReaper.d_frameworkId := "f1";
         ExecutorReaper.d_executorId := "e1";
         ExecutorReaper.d_status := 256 |}]) /\
  ExecutorReaper.steps ExecutorReaper.start
    [ExecutorReaper.Waited 7 256; ExecutorReaper.Watch "f1" "e1" 7]
  = (ExecutorReaper.start,
     [{| ExecutorReaper.d_frameworkId := "f1";
         ExecutorReaper.d_executorId := "e1";
         ExecutorReaper.d_status := 256 |}]).
Proof.
  assert (Hpid : 0 < 7) by lia.
  split; [exact Hpid|].
  exact (@watch_reap_commute ExecutorReaper.start "f1" "e1" 7 256
           Hpid eq_refl eq_refl).
Defined.

Lemma steps_disjoint_witness :
  ExecutorReaper.disjoint ExecutorReaper.start /\
  ExecutorReaper.disjoint
    (fst (ExecutorReaper.steps ExecutorReaper.start
            [ExecutorReaper.Waited 7 0; ExecutorReaper.Watch "f1" "e1" 8;
             ExecutorReaper.Watch "f1" "e2" 7; ExecutorReaper.Waited 9 1])).
Proof.
  assert (Hstart : ExecutorReaper.disjoint ExecutorReaper.start)
    by (intros pid H; discriminate H).
  split; [exact Hstart|].
  exact (@steps_disjoint
           [ExecutorReaper.Waited 7 0; ExecutorReaper.Watch "f1" "e1" 8;
            ExecutorReaper.Watch "f1" "e2" 7; ExecutorReaper.Waited 9 1]
           ExecutorReaper.start Hstart).
Defined.

Lemma statusUpdate_frame_witness :
  getFramework running "f1" = Some running_framework /\
  getExecutor_task running_framework "t1" = Some ("e1", running_executor) /\
  exists s' out framework' e',
    statusUpdate res_sub running (update "t1" TASK_FINISHED) 5
    = Done (s', out) /\
    getFramework s' "f1" = Some framework' /\
    getExecutor framework' "e1" = Some e' /\
    e_pid e' = "executor@node" /\
    hashmap.get "t2" (launchedTasks e')
    = hashmap.get "t2" (launchedTasks running_executor).
Proof.
  split; [reflexivity|]. split; [reflexivity|].
  destruct (@statusUpdate_frame Z Z res_sub running
              (update "t1" TASK_FINISHED) 5 running_framework "e1"
              running_executor eq_refl eq_refl)
    as (s' & out & f' & e' & H1 & H2 & H3 & H4 & H5 & _).
  exists s', out, f', e'.
  split; [exact H1|]. split; [exact H2|]. split; [exact H3|].
  split; [exact H4|].
  destruct (H5 "t2") as [Hl _]; [discriminate | exact Hl].
Defined.

Lemma registerExecutor_never_aborts_witness :
  Forall (fun ev => has_sender (snd ev))
    [(0, M2S_RUN_TASK framework_f1 "f1" "scheduler@client" (task "t3")
           empty_disk 7 zeroed)] /\
  queues_ok waiting /\
  run 0 res_add res_sub waiting
    [(0, M2S_RUN_TASK framework_f1 "f1" "scheduler@client" (task "t3")
           empty_disk 7 zeroed)]
  = Done
      (after waiting
         [(0, M2S_RUN_TASK framework_f1 "f1" "scheduler@client" (task "t3")
                empty_disk 7 zeroed)],
       []) /\
  exists s2 out2,
    registerExecutor res_add
      (after waiting
         [(0, M2S_RUN_TASK framework_f1 "f1" "scheduler@client" (task "t3")
                empty_disk 7 zeroed)])
      "executor@node" "f1" "e1"
    = Done (s2, out2).
Proof.
  set (evs := [(0, M2S_RUN_TASK framework_f1 "f1" "scheduler@client"
                     (task "t3") empty_disk 7 zeroed)]).
  assert (Hall : Forall (fun ev : Z * Event Z => has_sender (snd ev)) evs)
    by (repeat constructor).
  assert (Hrun : run 0 res_add res_sub waiting evs
                 = Done (after waiting evs, []))
    by reflexivity.
  split; [exact Hall|]. split; [exact waiting_queues_ok|].
  split; [exact Hrun|].
  exact (@registerExecutor_never_aborts Z Z 0 res_add res_sub evs waiting
           (after waiting evs) [] "executor@node" "f1" "e1"
           Hall waiting_queues_ok Hrun).
Defined.

Lemma registerExecutor_then_message_witness :
  getFramework waiting "f1" = Some waiting_framework /\
  getExecutor waiting_framework "e1" = Some waiting_executor /\
  e_pid waiting_executor = "" /\
  queue_ok waiting_executor /\
  "executor@node" <> "" /\
  exists s1 out1,
    registerExecutor res_add waiting "executor@node" "f1" "e1"
    = Done (s1, out1) /\
    schedulerMessage waiting "agent-1" "f1" "e1" "hello"
    = Done (count_invalidFrameworkMessage waiting, []) /\
    schedulerMessage s1 "agent-1" "f1" "e1" "hello"
    = Done (count_validFrameworkMessage s1,
            [Send "executor@node"
               (S2E_FRAMEWORK_MESSAGE "agent-1" "f1" "e1" "hello")]).
Proof.
  assert (Hfrom : "executor@node" <> "") by discriminate.
  do 3 (split; [reflexivity|]). split; [exact waiting_queue_ok|].
  split; [exact Hfrom|].
  exact (@registerExecutor_then_message Z Z res_add waiting "executor@node"
           "f1" "e1" waiting_framework waiting_executor "agent-1" "hello"
           eq_refl eq_refl eq_refl waiting_queue_ok Hfrom).
Defined.

Lemma runTask_then_register_witness :
  getFramework waiting "f1" = Some waiting_framework /\
  getExecutor waiting_framework "e1" = Some waiting_executor /\
  e_pid waiting_executor = "" /\
  queue_ok waiting_executor /\
  exists s1 s2 out f2 e2 launched,
    runTask 0 res_add waiting framework_f1 "f1" "scheduler@client"
      (task "t3") empty_disk 7 zeroed
    = Done (s1, []) /\
    registerExecutor res_add s1 "executor@node" "f1" "e1" = Done (s2, out)
    /\ In (Send "executor@node"
             (S2E_RUN_TASK framework_f1 "f1" "scheduler@client" (task "t3")))
         out /\
    getFramework s2 "f1" = Some f2 /\
    getExecutor f2 "e1" = Some e2 /\
    hashmap.get "t3" (launchedTasks e2) = Some launched /\
    t_state launched = TASK_STARTING.
Proof.
  do 3 (split; [reflexivity|]). split; [exact waiting_queue_ok|].
  destruct (@runTask_then_register Z Z 0 res_add waiting framework_f1 "f1"
              "scheduler@client" (task "t3") empty_disk 7 zeroed "executor@node"
              waiting_framework waiting_executor
              eq_refl eq_refl eq_refl waiting_queue_ok)
    as (s1 & s2 & out & f2 & e2 & l & H1 & H2 & H3 & H4 & H5 & _ & _ & H8
        & H9 & _).
  exists s1, s2, out, f2, e2, l.
  split; [exact H1|]. split; [exact H2|]. split; [exact H3|].
  split; [exact H4|]. split; [exact H5|]. split; [exact H8 | exact H9].
Defined.

Lemma run_registry_ok_witness :
  registry_ok waiting /\
  run 0 res_add res_sub waiting busy_morning
  = Done (after waiting busy_morning, effects waiting busy_morning) /\
  registry_ok (after waiting busy_morning).
Proof.
  assert (Hrun : run 0 res_add res_sub waiting busy_morning
                 = Done (after waiting busy_morning,
                         effects waiting busy_morning))
    by (vm_compute; reflexivity).
  split; [exact waiting_registry_ok|]. split; [exact Hrun|].
  exact (@run_registry_ok Z Z 0 res_add res_sub busy_morning waiting
           (after waiting busy_morning) (effects waiting busy_morning)
           waiting_registry_ok Hrun).
Defined.

Lemma run_registry_continues_witness :
  registry_ok waiting /\
  run 0 res_add res_sub waiting busy_morning
  = Done (after waiting busy_morning, effects waiting busy_morning) /\
  registry_continues waiting (after waiting busy_morning).
Proof.
  assert (Hrun : run 0 res_add res_sub waiting busy_morning
                 = Done (after waiting busy_morning,
                         effects waiting busy_morning))
    by (vm_compute; reflexivity).
  split; [exact waiting_registry_ok|]. split; [exact Hrun|].
  exact (@run_registry_continues Z Z 0 res_add res_sub busy_morning waiting
           (after waiting busy_morning) (effects waiting busy_morning)
           waiting_registry_ok Hrun).
Defined.

Lemma createExecutor_destroyExecutor_witness :
  hashmap.contains "e2"
    (executors waiting_framework) = false /\
  exists f1 e,
    createExecutor 0 waiting_framework
      {| ei_executor_id := "e2"; ei_uri := "/bin/other"; ei_data := "" |}
      "/tmp/work/slave-agent-1/fw-f1-e2/0" zeroed
    = Done (f1, e) /\
    getExecutor f1 "e2" = Some e /\
    e_id e = "" /\
    getExecutor f1 "e1" = Some waiting_executor /\
    destroyExecutor f1 "e2" = waiting_framework.
Proof.
  split; [reflexivity|].
  destruct (@createExecutor_destroyExecutor Z Z 0 waiting_framework
              {| ei_executor_id := "e2"; ei_uri := "/bin/other";
                 ei_data := "" |}
              "/tmp/work/slave-agent-1/fw-f1-e2/0" "" eq_refl)
    as (f1 & e & H1 & H2 & H3 & _ & _ & _ & _ & _ & _ & H8 & H9 & _).
  exists f1, e. split; [exact H1|]. split; [exact H2|].
  split; [exact H3|].
  assert (Hne : "e1" <> "e2") by discriminate.
  split; [exact (eq_trans (H8 "e1" Hne) eq_refl)|].
  exact H9.
Defined.

Lemma addTask_removeTask_witness :
  hashmap.contains "t3" (launchedTasks running_executor) = false /\
  exists e1,
    addTask res_add running_executor (task "t3") = Done e1 /\
    launchedTasks (removeTask res_sub e1 "t3")
    = launchedTasks running_executor /\
    e_resources (removeTask res_sub e1 "t3") = 514.
Proof.
  split; [reflexivity|].
  destruct (@addTask_removeTask Z Z res_add res_sub running_executor
              (task "t3") eq_refl)
    as (e1 & H1 & _ & H3 & _ & H5 & _).
  exists e1. split; [exact H1|]. split; [exact H3|].
  exact (eq_trans H5 eq_refl).
Defined.

Lemma registerReply_then_detected_witness :
  "agent-1" <> "" /\
  exists s1 s2,
    registerReply start_up "agent-1" = Done (s1, []) /\
    newMasterDetected s1 "master@backup"
    = Done (s2,
            [Link "master@backup";
             Send "master@backup"
               (S2M_REREGISTER_SLAVE "agent-1" (s_info start_up) [])]) /\
    reregisterReply s2 "agent-1" = Done (s2, []) /\
    reregisterReply s2 "agent-2"
    = Crash (Fatal "Slave re-registered but got wrong ID").
Proof.
  assert (Hid : "agent-1" <> "") by discriminate.
  split; [exact Hid|].
  destruct (@registerReply_then_detected Z Z start_up "agent-1"
              "master@backup" Hid)
    as (s1 & s2 & H1 & H2 & H3 & H4).
  exists s1, s2. split; [exact H1|]. split; [exact H2|].
  split; [exact H3|]. apply H4. discriminate.
Defined.

Lemma killTask_then_register_witness :
  getFramework waiting "f1" = Some waiting_framework /\
  getExecutor_task waiting_framework "t1" = Some ("e1", waiting_executor) /\
  e_pid waiting_executor = "" /\
  queue_ok waiting_executor /\
  exists s1 out1 s2 out2 f2 e2,
    killTask res_sub waiting "f1" "t1" 3 = Done (s1, out1) /\
    registerExecutor res_add s1 "executor@node" "f1" "e1" = Done (s2, out2)
    /\ ~ In (Send "executor@node"
               (S2E_RUN_TASK framework_f1 "f1" "scheduler@client"
                  (task "t1")))
           out2 /\
    getFramework s2 "f1" = Some f2 /\
    getExecutor f2 "e1" = Some e2 /\
    hashmap.contains "t1" (launchedTasks e2) = false.
Proof.
  do 3 (split; [reflexivity|]). split; [exact waiting_queue_ok|].
  destruct (@killTask_then_register Z Z res_add res_sub waiting "f1" "t1" 3
              waiting_framework "e1" waiting_executor "executor@node"
              eq_refl eq_refl eq_refl waiting_queue_ok)
    as (s1 & out1 & s2 & out2 & f2 & e2 & H1 & H2 & H3 & H4 & H5 & H6 & _).
  exists s1, out1, s2, out2, f2, e2.
  split; [exact H1|]. split; [exact H2|].
  split; [intros Hin; now apply (H3 _ _ _ _ _ Hin)|].
  split; [exact H4|]. split; [exact H5 | exact H6].
Defined.



End Checked.
